(** * CPU PM domains: a shallow embedding of drivers/base/power/cpu_domains.c

    The development follows the C file function by function.  Kernel
    objects live in two stores addressed by pointers; the RCU list
    [of_cpu_pd_list] is the list of the pointers linked on it, newest
    first.  Everything the file calls but does not define (device tree,
    genpd core, allocator, timers, PM QoS) is a field of the record [ext].
    Integers are [Z] with the C conversions written out for an LP64
    target. *)

From Stdlib Require Import ZArith Lia Sorted.
From stdpp Require Import base option list strings gmap relations.

Local Open Scope Z_scope.

(** ** Machine integers *)

Definition to_u64 (z : Z) : Z := z mod 2 ^ 64.
Definition to_s64 (z : Z) : Z := (z + 2 ^ 63) mod 2 ^ 64 - 2 ^ 63.

(** ** Kernel API used by the file

    linux/errno.h, linux/ktime.h, linux/cpumask.h and linux/pm_domain.h
    are outside the tree at hand; the constants and inline helpers below
    are written as those headers have them. *)

Definition ENOENT : Z := 2.
Definition ENOMEM : Z := 12.
Definition ENODEV : Z := 19.

(** Modelled from the spec: the header defining NSEC_PER_USEC is not part
    of the tree; the tolerance is in microseconds and the state costs are
    in nanoseconds, so the factor is 1000 (a [long] constant). *)
Definition NSEC_PER_USEC : Z := 1000.
Definition NSEC_PER_SEC : Z := 1000000000.

Definition KTIME_MAX : Z := 2 ^ 63 - 1.
Definition KTIME_SEC_MAX : Z := KTIME_MAX / NSEC_PER_SEC.

(** [ktime_t] is its [tv64] field, a signed 64-bit count of nanoseconds. *)
Definition ktime_set (secs nsecs : Z) : Z :=
  if secs >=? KTIME_SEC_MAX then KTIME_MAX
  else to_s64 (secs * NSEC_PER_SEC + nsecs).
Definition ktime_sub (lhs rhs : Z) : Z := to_s64 (lhs - rhs).
Definition ktime_to_ns (kt : Z) : Z := kt.

Definition GENPD_FLAG_IRQ_SAFE : Z := 2.

(** A [cpumask] is a bitmap: bit [cpu] is set when the CPU is a member. *)
Definition cpumask_set_cpu (cpu : nat) (mask : Z) : Z :=
  Z.lor mask (Z.shiftl 1 (Z.of_nat cpu)).
Definition cpumask_test_cpu (cpu : nat) (mask : Z) : bool :=
  Z.testbit mask (Z.of_nat cpu).

(** The CPUs visited by [for_each_cpu_and(cpu, m1, m2)], in visiting
    order, when [nr] CPU ids exist. *)
Definition for_each_cpu_and (nr : nat) (m1 m2 : Z) : list nat :=
  List.filter (fun cpu => cpumask_test_cpu cpu m1 && cpumask_test_cpu cpu m2)
              (seq 0 nr).
Definition for_each_cpu (nr : nat) (m : Z) : list nat :=
  List.filter (fun cpu => cpumask_test_cpu cpu m) (seq 0 nr).

(** ** Data *)

Abbreviation ptr := nat.
Abbreviation device_node := nat.

(** struct cpu_pd_ops: a NULL callback is [None].  [power_off] receives
    the state index, the state parameter and the member mask. *)
Record cpu_pd_ops := {
  power_off : option (Z -> Z -> Z -> Z);
  power_on : option (unit -> Z)
}.

Record genpd_power_state := {
  power_off_latency_ns : Z;
  power_on_latency_ns : Z;
  residency_ns : Z;
  param : Z
}.

Definition zero_state : genpd_power_state :=
  {| power_off_latency_ns := 0; power_on_latency_ns := 0;
     residency_ns := 0; param := 0 |}.

(** The fields of struct generic_pm_domain the file touches.  [states] is
    the array [states[]] cut at [state_count], so [state_count] is its
    length.  [gpd_power_off] and [gpd_power_on] record that the callbacks
    [cpu_pd_power_off] and [cpu_pd_power_on] are installed. *)
Record generic_pm_domain := {
  name : option string;
  flags : Z;
  gpd_power_off : bool;
  gpd_power_on : bool;
  states : list genpd_power_state;
  state_idx : Z
}.

Definition state_count (g : generic_pm_domain) : nat := length (states g).

Definition set_state_idx (i : Z) (g : generic_pm_domain) : generic_pm_domain :=
  {| name := name g; flags := flags g; gpd_power_off := gpd_power_off g;
     gpd_power_on := gpd_power_on g; states := states g; state_idx := i |}.

(** struct cpu_pm_domain; [link] is the position on [of_cpu_pd_list]. *)
Record cpu_pm_domain := {
  ops : cpu_pd_ops;
  genpd : ptr;
  parent : option ptr;
  cpus : Z
}.

Definition set_cpus (m : Z) (pd : cpu_pm_domain) : cpu_pm_domain :=
  {| ops := ops pd; genpd := genpd pd; parent := parent pd; cpus := m |}.
Definition set_parent (p : option ptr) (pd : cpu_pm_domain) : cpu_pm_domain :=
  {| ops := ops pd; genpd := genpd pd; parent := p; cpus := cpus pd |}.

(** The kernel state the file reads and writes: the two stores, the list
    of CPU PM domains and the genpd core's table of providers. *)
Record kstate := {
  genpds : gmap nat generic_pm_domain;
  cpu_pds : gmap nat cpu_pm_domain;
  of_cpu_pd_list : list ptr;
  providers : gmap nat ptr
}.

Definition with_genpds (m : gmap nat generic_pm_domain) (st : kstate) : kstate :=
  {| genpds := m; cpu_pds := cpu_pds st;
     of_cpu_pd_list := of_cpu_pd_list st; providers := providers st |}.
Definition with_cpu_pds (m : gmap nat cpu_pm_domain) (st : kstate) : kstate :=
  {| genpds := genpds st; cpu_pds := m;
     of_cpu_pd_list := of_cpu_pd_list st; providers := providers st |}.
Definition with_list (l : list ptr) (st : kstate) : kstate :=
  {| genpds := genpds st; cpu_pds := cpu_pds st;
     of_cpu_pd_list := l; providers := providers st |}.
Definition with_providers (m : gmap nat ptr) (st : kstate) : kstate :=
  {| genpds := genpds st; cpu_pds := cpu_pds st;
     of_cpu_pd_list := of_cpu_pd_list st; providers := m |}.

(** Everything outside the file.  Return codes are C [int]s. *)
Record ext := {
  (* PM QoS, timers, CPU masks *)
  pm_qos_request : Z;
  tick_nohz_get_next_wakeup : nat -> Z;
  ktime_get : Z;
  cpu_online_mask : Z;
  cpu_possible_mask : Z;
  nr_cpu_ids : nat;
  (* driver core and genpd core *)
  get_cpu_device : nat -> bool;
  genpd_dev_pm_attach : nat -> Z;
  of_pm_genpd_init : device_node -> generic_pm_domain -> Z * generic_pm_domain;
  of_genpd_add_provider_simple : device_node -> ptr -> Z;
  pm_genpd_add_subdomain : ptr -> ptr -> Z;
  (* device tree *)
  of_device_is_available : device_node -> bool;
  of_get_cpu_node : nat -> option device_node;
  of_parse_phandle : device_node -> option device_node;
  of_parse_phandle_with_args : device_node -> option device_node;
  full_name : device_node -> string;
  (* allocator: which requests succeed *)
  kzalloc_genpd : device_node -> bool;
  kstrndup : device_node -> bool;
  kzalloc_pd : device_node -> bool;
  zalloc_cpumask_var : device_node -> bool;
  (* the value an uninitialised [int] on the stack happens to hold *)
  stack_int : Z
}.

(** ** Outcomes

    A call returns, dereferences a pointer it must not, or is still
    running when the fuel of the model is spent. *)

Inductive fault := NullDeref | Dangling.

Inductive outcome (A : Type) :=
  | Ok (a : A)
  | Fault (f : fault)
  | OutOfFuel.
Arguments Ok {A} a.
Arguments Fault {A} f.
Arguments OutOfFuel {A}.

Definition bind {A B} (m : outcome A) (k : A -> outcome B) : outcome B :=
  match m with
  | Ok a => k a
  | Fault f => Fault f
  | OutOfFuel => OutOfFuel
  end.

Notation "'do' x <- m ; k" := (bind m (fun x => k))
  (at level 10, x pattern, m at level 100, k at level 200).

(** [*p] for a pointer into a store. *)
Definition deref {A} (h : gmap nat A) (p : ptr) : outcome A :=
  match h !! p with
  | Some a => Ok a
  | None => Fault Dangling
  end.

(** [*p] for a pointer that may be NULL. *)
Definition deref_opt {A} (h : gmap nat A) (p : option ptr) : outcome A :=
  match p with
  | Some q => deref h q
  | None => Fault NullDeref
  end.

(** ** to_cpu_pd *)

Fixpoint to_cpu_pd_from (h : gmap nat cpu_pm_domain) (l : list ptr) (d : ptr)
  : outcome (option ptr) :=
  match l with
  | [] => Ok None
  | p :: l' =>
      do pd <- deref h p;
      if Nat.eqb (genpd pd) d then Ok (Some p) else to_cpu_pd_from h l' d
  end.

Definition to_cpu_pd (st : kstate) (d : ptr) : outcome (option ptr) :=
  to_cpu_pd_from (cpu_pds st) (of_cpu_pd_list st) d.

(** ** cpu_pd_down_ok *)

(** [state_sleep_ns] of the loop body: a [u64] sum. *)
Definition state_sleep_ns (s : genpd_power_state) : Z :=
  to_u64 (power_off_latency_ns s + power_on_latency_ns s + residency_ns s).

(** [qos_ns * NSEC_PER_USEC]: [int] times [long], converted to [u64] by
    the comparison with [state_sleep_ns]. *)
Definition qos_limit_ns (qos_ns : Z) : Z := to_u64 (to_s64 (qos_ns * NSEC_PER_USEC)).

(** The [for] loop, entered with [i = k - 1]; the result is [i] when the
    loop is left, [-1] when it ran to the end. *)
Fixpoint down_ok_loop (tbl : list genpd_power_state) (sleep_ns qos_ns : Z) (k : nat) : Z :=
  match k with
  | O => -1
  | S i =>
      let s := state_sleep_ns (nth i tbl zero_state) in
      if s >? sleep_ns then down_ok_loop tbl sleep_ns qos_ns i
      else if s <? qos_limit_ns qos_ns then Z.of_nat i
      else down_ok_loop tbl sleep_ns qos_ns i
  end.

(** The first loop: the earliest next wakeup of the online members. *)
Definition earliest_wakeup (e : ext) (members : Z) : Z :=
  fold_left
    (fun earliest cpu =>
       let next_wakeup := tick_nohz_get_next_wakeup e cpu in
       if earliest >? next_wakeup then next_wakeup else earliest)
    (for_each_cpu_and (nr_cpu_ids e) members (cpu_online_mask e))
    (ktime_set KTIME_SEC_MAX 0).

(** [sleep_ns], a [u64]. *)
Definition sleep_ns_of (e : ext) (members : Z) : Z :=
  to_u64 (ktime_to_ns (ktime_sub (earliest_wakeup e members) (ktime_get e))).

Definition cpu_pd_down_ok (e : ext) (g : ptr) (st : kstate) : outcome (kstate * bool) :=
  do cpu_pd <- to_cpu_pd st g;
  let qos_ns := pm_qos_request e in
  do gd <- deref (genpds st) g;
  let st0 := with_genpds (<[g := set_state_idx 0 gd]> (genpds st)) st in
  if qos_ns =? 0 then Ok (st0, false)
  else
    do pd <- deref_opt (cpu_pds st) cpu_pd;
    let sleep_ns := sleep_ns_of e (cpus pd) in
    if sleep_ns <=? 0 then Ok (st0, false)
    else
      let i := down_ok_loop (states gd) sleep_ns qos_ns (state_count gd) in
      if i >=? 0
      then Ok (with_genpds (<[g := set_state_idx i gd]> (genpds st)) st, true)
      else Ok (st0, false).

(** ** cpu_pd_attach_cpu *)

(** The [while (!ret && cpu_pd)] loop over the parent chain. *)
Fixpoint attach_loop (fuel : nat) (ret : Z) (cpu : nat)
    (h : gmap nat cpu_pm_domain) (cpu_pd : option ptr)
  : outcome (gmap nat cpu_pm_domain) :=
  match cpu_pd with
  | None => Ok h
  | Some p =>
      if ret =? 0 then
        match fuel with
        | O => OutOfFuel
        | S fuel' =>
            do pd <- deref h p;
            attach_loop fuel' ret cpu
              (<[p := set_cpus (cpumask_set_cpu cpu (cpus pd)) pd]> h) (parent pd)
        end
      else Ok h
  end.

Definition cpu_pd_attach_cpu (fuel : nat) (e : ext) (cpu_pd : option ptr) (cpu : nat)
    (st : kstate) : outcome (kstate * Z) :=
  if negb (get_cpu_device e cpu) then Ok (st, - ENODEV)
  else
    let ret := genpd_dev_pm_attach e cpu in
    do h <- attach_loop fuel ret cpu (cpu_pds st) cpu_pd;
    Ok (with_cpu_pds h st, ret).

(** ** cpu_pd_power_on, cpu_pd_power_off *)

Definition cpu_pd_power_on (g : ptr) (st : kstate) : outcome Z :=
  do r <- to_cpu_pd st g;
  do pd <- deref_opt (cpu_pds st) r;
  match power_on (ops pd) with
  | Some f => Ok (f tt)
  | None => Ok 0
  end.

(** A slot of [states[]] past [state_count] still holds the zeros of
    [kzalloc]. *)
Definition cpu_pd_power_off (g : ptr) (st : kstate) : outcome Z :=
  do r <- to_cpu_pd st g;
  do pd <- deref_opt (cpu_pds st) r;
  match power_off (ops pd) with
  | Some f =>
      do gd <- deref (genpds st) g;
      Ok (f (state_idx gd)
            (param (nth (Z.to_nat (state_idx gd)) (states gd) zero_state))
            (cpus pd))
  | None => Ok 0
  end.

(** ** of_init_cpu_pm_domain *)

(** A pointer that is an [ERR_PTR] carries the error code. *)
Inductive ptr_or_err :=
  | Ptr (p : ptr)
  | ErrPtr (err : Z).

Definition CPU_PD_NAME_MAX : nat := 36.

(** The allocator hands out an address that is not in use.  Once the
    [fail] path of [of_init_cpu_pm_domain] has freed an entry that is
    still linked, the address of that entry is not in use either.  In C
    an allocation made after that has no defined outcome for the list:
    [list_add_rcu] writes through the freed head, or links the new entry
    to itself when the same address comes back.  The model hands the
    address out again; what it says of the list from there on holds of
    the model only. *)
Definition kzalloc {A} (h : gmap nat A) : ptr := fresh (dom h).

Definition of_init_cpu_pm_domain (e : ext) (dn : device_node)
    (o : cpu_pd_ops) (st : kstate) : outcome (kstate * ptr_or_err) :=
  if negb (of_device_is_available e dn) then Ok (st, ErrPtr (- ENODEV))
  else if negb (kzalloc_genpd e dn) then
    (* fail: kfree(genpd->name) with genpd == NULL *)
    Fault NullDeref
  else
    let g := kzalloc (genpds st) in
    let gd0 := {| name := None; flags := 0; gpd_power_off := false;
                  gpd_power_on := false; states := []; state_idx := 0 |} in
    let st1 := with_genpds (<[g := gd0]> (genpds st)) st in
    let fail_genpd := with_genpds (delete g (genpds st1)) st1 in
    if negb (kstrndup e dn) then Ok (fail_genpd, ErrPtr (- ENOMEM))
    else
      let gd1 := {| name := Some (String.substring 0 CPU_PD_NAME_MAX (full_name e dn));
                    flags := 0; gpd_power_off := false; gpd_power_on := false;
                    states := []; state_idx := 0 |} in
      if negb (kzalloc_pd e dn) then Ok (fail_genpd, ErrPtr (- ENOMEM))
      else
        let p := kzalloc (cpu_pds st1) in
        if negb (zalloc_cpumask_var e dn) then Ok (fail_genpd, ErrPtr (- ENOMEM))
        else
          let pd := {| ops := o; genpd := g; parent := None; cpus := 0 |} in
          let gd2 := {| name := name gd1;
                        flags := Z.lor (flags gd1) GENPD_FLAG_IRQ_SAFE;
                        gpd_power_off := true; gpd_power_on := true;
                        states := states gd1; state_idx := state_idx gd1 |} in
          (* list_add_rcu(&pd->link, &of_cpu_pd_list) *)
          let st2 := with_list (p :: of_cpu_pd_list st1)
                       (with_cpu_pds (<[p := pd]> (cpu_pds st1)) st1) in
          let '(ret, gd3) := of_pm_genpd_init e dn gd2 in
          let st3 := with_genpds (<[g := gd3]> (genpds st2)) st2 in
          if negb (ret =? 0) then
            (* fail: both objects are freed, the link stays on the list *)
            Ok (with_cpu_pds (delete p (cpu_pds st3))
                  (with_genpds (delete g (genpds st3)) st3), ErrPtr ret)
          else
            let ret' := of_genpd_add_provider_simple e dn g in
            let st4 := if ret' =? 0
                       then with_providers (<[dn := g]> (providers st3)) st3
                       else st3 in
            Ok (st4, Ptr g).

(** ** of_get_cpu_domain *)

(** Modelled from the spec: the genpd core is outside the tree.  A domain
    advertised as the provider of a node ([of_genpd_add_provider_simple]
    returning 0) is what the provider lookup for that node returns; a
    node without provider gives an error pointer. *)
Definition of_genpd_get_from_provider (st : kstate) (np : device_node) : ptr_or_err :=
  match providers st !! np with
  | Some g => Ptr g
  | None => ErrPtr (- ENOENT)
  end.

Fixpoint of_get_cpu_domain (fuel : nat) (e : ext) (dn : device_node)
    (o : cpu_pd_ops) (cpu : nat) (st : kstate) : outcome (kstate * ptr_or_err) :=
  match fuel with
  | O => OutOfFuel
  | S fuel' =>
      match of_genpd_get_from_provider st dn with
      | Ptr g => Ok (st, Ptr g)
      | ErrPtr _ =>
          do (st1, r) <- of_init_cpu_pm_domain e dn o st;
          match r with
          | ErrPtr err => Ok (st1, ErrPtr err)
          | Ptr g =>
              match of_parse_phandle_with_args e dn with
              | None => Ok (st1, Ptr g)
              | Some np =>
                  do (st2, pr) <- of_get_cpu_domain fuel' e np o cpu st1;
                  match pr with
                  | ErrPtr _ => Ok (st2, Ptr g)
                  | Ptr parent_g =>
                      let ret := pm_genpd_add_subdomain e g parent_g in
                      if negb (ret =? 0) then Ok (st2, ErrPtr ret)
                      else
                        do cpu_pd <- to_cpu_pd st2 g;
                        do parent_cpu_pd <- to_cpu_pd st2 parent_g;
                        match cpu_pd, parent_cpu_pd with
                        | Some c, Some pp =>
                            do pd <- deref (cpu_pds st2) c;
                            Ok (with_cpu_pds
                                  (<[c := set_parent (Some pp) pd]> (cpu_pds st2)) st2,
                                Ptr g)
                        | _, _ => Ok (st2, Ptr g)
                        end
                  end
              end
          end
      end
  end.

(** ** of_setup_cpu_pd_single, of_setup_cpu_pd *)

Definition of_setup_cpu_pd_single (fuel : nat) (e : ext) (cpu : nat)
    (o : cpu_pd_ops) (st : kstate) : outcome (kstate * Z) :=
  match of_get_cpu_node e cpu with
  | None => Ok (st, - ENODEV)
  | Some cpu_dn =>
      match of_parse_phandle e cpu_dn with
      | None => Ok (st, - ENODEV)
      | Some dn =>
          do (st1, r) <- of_get_cpu_domain fuel e dn o cpu st;
          match r with
          | ErrPtr err => Ok (st1, err)
          | Ptr g =>
              do cpu_pd <- to_cpu_pd st1 g;
              match cpu_pd with
              | None => Ok (st1, - ENOENT)
              | Some p => cpu_pd_attach_cpu fuel e (Some p) cpu st1
              end
          end
      end
  end.

(** The body of [for_each_possible_cpu]; [ret] is the local of the
    caller, left as it is when no CPU is visited. *)
Fixpoint of_setup_cpu_pd_loop (fuel : nat) (e : ext) (o : cpu_pd_ops)
    (todo : list nat) (ret : Z) (st : kstate) : outcome (kstate * Z) :=
  match todo with
  | [] => Ok (st, ret)
  | cpu :: rest =>
      do (st1, ret1) <- of_setup_cpu_pd_single fuel e cpu o st;
      if negb (ret1 =? 0) then Ok (st1, ret1)
      else of_setup_cpu_pd_loop fuel e o rest ret1 st1
  end.

Definition of_setup_cpu_pd (fuel : nat) (e : ext) (o : cpu_pd_ops) (st : kstate)
  : outcome (kstate * Z) :=
  of_setup_cpu_pd_loop fuel e o
    (for_each_cpu (nr_cpu_ids e) (cpu_possible_mask e)) (stack_int e) st.

(** ** Reading the decision off a call *)

(** The test the scan applies to state [i]: the state fits the sleep
    window and costs less than the QoS limit. *)
Definition state_taken (tbl : list genpd_power_state) (sleep_ns qos_ns : Z) (i : nat) : bool :=
  let s := state_sleep_ns (nth i tbl zero_state) in
  negb (s >? sleep_ns) && (s <? qos_limit_ns qos_ns).

(** What a caller of [cpu_pd_down_ok] sees: the verdict and
    [genpd->state_idx] after the call. *)
Definition down_ok_result (e : ext) (g : ptr) (st : kstate) : outcome (bool * option Z) :=
  do (st', b) <- cpu_pd_down_ok e g st;
  Ok (b, state_idx <$> genpds st' !! g).

(** The parent chain of a CPU PM domain, leaf first, up to the domain
    without a parent. *)
Inductive parent_chain (h : gmap nat cpu_pm_domain) : option ptr -> list ptr -> Prop :=
  | chain_null : parent_chain h None []
  | chain_up p pd l :
      h !! p = Some pd -> parent_chain h (parent pd) l ->
      parent_chain h (Some p) (p :: l).

(** What one turn of the loop of [cpu_pd_attach_cpu] does to the domain
    it visits. *)
Definition add_member (cpu : nat) (pd : cpu_pm_domain) : cpu_pm_domain :=
  set_cpus (cpumask_set_cpu cpu (cpus pd)) pd.

(** ** The registry over time *)

(** [g] has an entry on the list: a linked CPU PM domain that is still
    allocated and points to [g]. *)
Definition registered (g : ptr) (st : kstate) : Prop :=
  ∃ p pd, p ∈ of_cpu_pd_list st ∧ cpu_pds st !! p = Some pd ∧ genpd pd = g.

(** No link on the list points to freed memory. *)
Definition registry_live (st : kstate) : Prop :=
  Forall (fun p => is_Some (cpu_pds st !! p)) (of_cpu_pd_list st).

(** The list only grows and a CPU PM domain keeps its genpd. *)
Definition grows (st st' : kstate) : Prop :=
  (∀ q, q ∈ of_cpu_pd_list st → q ∈ of_cpu_pd_list st') ∧
  (∀ q pd, cpu_pds st !! q = Some pd →
           ∃ pd', cpu_pds st' !! q = Some pd' ∧ genpd pd' = genpd pd).

(** The functions of the file that change the state, each run to its
    return, under whatever the collaborators answer at that time. *)
Inductive kstep : kstate -> kstate -> Prop :=
  | step_down_ok e g st st' b :
      cpu_pd_down_ok e g st = Ok (st', b) -> kstep st st'
  | step_attach fuel e x cpu st st' r :
      cpu_pd_attach_cpu fuel e x cpu st = Ok (st', r) -> kstep st st'
  | step_init e dn o st st' r :
      of_init_cpu_pm_domain e dn o st = Ok (st', r) -> kstep st st'
  | step_get fuel e dn o cpu st st' r :
      of_get_cpu_domain fuel e dn o cpu st = Ok (st', r) -> kstep st st'
  | step_single fuel e cpu o st st' r :
      of_setup_cpu_pd_single fuel e cpu o st = Ok (st', r) -> kstep st st'
  | step_setup fuel e o st st' r :
      of_setup_cpu_pd fuel e o st = Ok (st', r) -> kstep st st'.

(** ** Scenarios *)

Definition no_ops : cpu_pd_ops := {| power_off := None; power_on := None |}.

(** Total costs of 10, 30 and 100 microseconds at indices 0, 1 and 2. *)
Definition tbl_10_30_100 : list genpd_power_state :=
  [ {| power_off_latency_ns := 2000; power_on_latency_ns := 3000;
       residency_ns := 5000; param := 0 |};
    {| power_off_latency_ns := 5000; power_on_latency_ns := 5000;
       residency_ns := 20000; param := 1 |};
    {| power_off_latency_ns := 20000; power_on_latency_ns := 30000;
       residency_ns := 50000; param := 2 |} ].

Definition mk_genpd (tbl : list genpd_power_state) (idx : Z) : generic_pm_domain :=
  {| name := Some "cluster"%string; flags := GENPD_FLAG_IRQ_SAFE;
     gpd_power_off := true; gpd_power_on := true; states := tbl; state_idx := idx |}.

Definition mk_pd (g : ptr) (up : option ptr) (members : Z) : cpu_pm_domain :=
  {| ops := no_ops; genpd := g; parent := up; cpus := members |}.

(** One domain: genpd 0 with CPU PM domain 0, whose only member is CPU 0. *)
Definition one_domain (tbl : list genpd_power_state) (idx : Z) : kstate :=
  {| genpds := {[ 0%nat := mk_genpd tbl idx ]};
     cpu_pds := {[ 0%nat := mk_pd 0 None 1 ]};
     of_cpu_pd_list := [0%nat];
     providers := {[ 10%nat := 0%nat ]} |}.

(** A leaf domain 0 under a middle domain 1 under a root domain 2, as
    [of_get_cpu_domain] links them; nobody is a member yet. *)
Definition three_levels : kstate :=
  {| genpds := {[ 0%nat := mk_genpd tbl_10_30_100 0;
                  1%nat := mk_genpd tbl_10_30_100 0;
                  2%nat := mk_genpd tbl_10_30_100 0 ]};
     cpu_pds := {[ 0%nat := mk_pd 0 (Some 1%nat) 0;
                   1%nat := mk_pd 1 (Some 2%nat) 0;
                   2%nat := mk_pd 2 None 0 ]};
     of_cpu_pd_list := [2%nat; 1%nat; 0%nat];
     providers := {[ 10%nat := 0%nat; 11%nat := 1%nat; 12%nat := 2%nat ]} |}.

Definition boot_state : kstate :=
  {| genpds := ∅; cpu_pds := ∅; of_cpu_pd_list := []; providers := ∅ |}.

(** A platform with four CPUs whose device tree puts every CPU in the
    domain of node 10, under node 11, under node 12.  [qos] is the
    latency tolerance, [now] the clock, [wake] the next wakeup of every
    CPU, [online] the online mask, [attach] the answer of
    [genpd_dev_pm_attach] and [cpu_node] the CPU nodes of the tree. *)
Definition sim_ext (qos now wake online : Z) (attach : nat -> Z)
    (cpu_node : nat -> option device_node) : ext :=
  {| pm_qos_request := qos;
     tick_nohz_get_next_wakeup := fun _ => wake;
     ktime_get := now;
     cpu_online_mask := online;
     cpu_possible_mask := 15;
     nr_cpu_ids := 4;
     get_cpu_device := fun _ => true;
     genpd_dev_pm_attach := attach;
     of_pm_genpd_init := fun _ gd => (0, gd);
     of_genpd_add_provider_simple := fun _ _ => 0;
     pm_genpd_add_subdomain := fun _ _ => 0;
     of_device_is_available := fun _ => true;
     of_get_cpu_node := cpu_node;
     of_parse_phandle := fun _ => Some 10%nat;
     of_parse_phandle_with_args :=
       fun dn => if Nat.eqb dn 10 then Some 11%nat
                 else if Nat.eqb dn 11 then Some 12%nat else None;
     full_name := fun _ => "/cpus/domain"%string;
     kzalloc_genpd := fun _ => true;
     kstrndup := fun _ => true;
     kzalloc_pd := fun _ => true;
     zalloc_cpumask_var := fun _ => true;
     stack_int := 0 |}.

(** Every collaborator succeeds. *)
Definition quiet_ext (qos now wake online : Z) : ext :=
  sim_ext qos now wake online (fun _ => 0) (fun cpu => Some (100 + cpu)%nat).

(** The generic attach answers [-EEXIST]. *)
Definition busy_ext : ext :=
  sim_ext 20 0 0 15 (fun _ => -17) (fun cpu => Some (100 + cpu)%nat).


(** A single state costing 100 microseconds. *)
Definition tbl_100 : list genpd_power_state :=
  [ {| power_off_latency_ns := 20000; power_on_latency_ns := 30000;
       residency_ns := 50000; param := 0 |} ].

(** The three levels once CPU 3 is a member everywhere. *)
Definition three_levels_cpu3 : kstate :=
  with_cpu_pds {[ 0%nat := mk_pd 0 (Some 1%nat) 8;
                  1%nat := mk_pd 1 (Some 2%nat) 8;
                  2%nat := mk_pd 2 None 8 ]} three_levels.

(** The state a call left behind, [st] if it did not return. *)
Definition state_after {A} (st : kstate) (r : outcome (kstate * A)) : kstate :=
  match r with
  | Ok (st', _) => st'
  | _ => st
  end.

(** The one domain after a decision with tolerance 20 and window 150. *)
Definition one_domain_decided : kstate :=
  state_after boot_state
    (cpu_pd_down_ok (quiet_ext 20 1000 151000 1) 0%nat (one_domain tbl_10_30_100 2)).

(** Boot, then the domain of node 10 is created. *)
Definition booted : kstate :=
  state_after boot_state
    (of_init_cpu_pm_domain (quiet_ext 20 0 0 15) 10 no_ops boot_state).


(** The member masks of the CPU PM domains, by pointer. *)
Definition members (st : kstate) : list (ptr * Z) :=
  map_to_list (cpus <$> cpu_pds st).

(** ** Invariants of the hierarchy *)

(** A domain keeps its genpd, its callbacks and every member it has. *)
Definition keeps_members (st st' : kstate) : Prop :=
  ∀ q pd, cpu_pds st !! q = Some pd →
    ∃ pd', cpu_pds st' !! q = Some pd' ∧ genpd pd' = genpd pd ∧ ops pd' = ops pd ∧
      ∀ c, cpumask_test_cpu c (cpus pd) = true → cpumask_test_cpu c (cpus pd') = true.

(** A node that has a provider keeps it. *)
Definition keeps_providers (st st' : kstate) : Prop :=
  ∀ n g, providers st !! n = Some g → providers st' !! n = Some g.

(** Every CPU PM domain points to an allocated genpd. *)
Definition live_genpds (st : kstate) : Prop :=
  ∀ p pd, cpu_pds st !! p = Some pd → is_Some (genpds st !! genpd pd).

(** The members of a domain are members of its parent. *)
Definition nested (st : kstate) : Prop :=
  ∀ p pd q, cpu_pds st !! p = Some pd → parent pd = Some q →
    ∃ qd, cpu_pds st !! q = Some qd ∧
      ∀ c, cpumask_test_cpu c (cpus pd) = true → cpumask_test_cpu c (cpus qd) = true.

Definition hierarchy_ok (st : kstate) : Prop := live_genpds st ∧ nested st.

(** What building the hierarchy does to the stores: genpds stay
    allocated, old domains keep their members, new domains have none
    and a genpd that was not allocated before. *)
Definition extends (st st' : kstate) : Prop :=
  (∀ g, is_Some (genpds st !! g) → is_Some (genpds st' !! g)) ∧
  (∀ p pd, cpu_pds st !! p = Some pd →
     ∃ pd', cpu_pds st' !! p = Some pd' ∧ cpus pd' = cpus pd ∧ genpd pd' = genpd pd) ∧
  (∀ p pd', cpu_pds st' !! p = Some pd' → cpu_pds st !! p = None →
     cpus pd' = 0 ∧ genpds st !! genpd pd' = None).

(** The genpd as [of_init_cpu_pm_domain] hands it to [of_pm_genpd_init]:
    zeroed by [kzalloc], named, flagged and given its two callbacks. *)
Definition new_genpd (e : ext) (dn : device_node) : generic_pm_domain :=
  {| name := Some (String.substring 0 CPU_PD_NAME_MAX (full_name e dn));
     flags := Z.lor 0 GENPD_FLAG_IRQ_SAFE;
     gpd_power_off := true; gpd_power_on := true;
     states := []; state_idx := 0 |}.

(** The power-domains references of the device tree from a node up to a
    node without one, as [of_get_cpu_domain] follows them. *)
Inductive dt_chain (e : ext) : device_node → list device_node → Prop :=
  | dt_top dn :
      of_parse_phandle_with_args e dn = None → dt_chain e dn [dn]
  | dt_up dn np l :
      of_parse_phandle_with_args e dn = Some np → dt_chain e np l →
      dt_chain e dn (dn :: l).

(** ** The energy model (arch/arm64/kernel/energy_model.h)

    struct idle_state, struct capacity_state and struct
    sched_group_energy are declared outside the tree; their fields are
    the ones the initialisers name.  [nr_idle_states] and
    [nr_cap_states] are the [ARRAY_SIZE] of the two arrays, that is the
    lengths of the lists. *)

Record idle_state := Idle { idle_power : Z }.
Record capacity_state := Cap { cap : Z; power : Z }.

Record sched_group_energy := {
  idle_states : list idle_state;
  cap_states : list capacity_state
}.

Definition nr_idle_states (s : sched_group_energy) : nat := length (idle_states s).
Definition nr_cap_states (s : sched_group_energy) : nat := length (cap_states s).

Definition idle_states_cluster_juno_a53 : list idle_state :=
  [Idle 56; Idle 56; Idle 56; Idle 17].
Definition idle_states_cluster_juno_a57 : list idle_state :=
  [Idle 65; Idle 65; Idle 65; Idle 24].
Definition cap_states_cluster_juno_a53 : list capacity_state :=
  [Cap 235 26; Cap 303 30; Cap 368 39; Cap 406 47; Cap 447 57].
Definition cap_states_cluster_juno_a57 : list capacity_state :=
  [Cap 417 24; Cap 579 32; Cap 744 43; Cap 883 49; Cap 1024 64].
Definition energy_cluster_juno_a53 : sched_group_energy :=
  {| idle_states := idle_states_cluster_juno_a53;
     cap_states := cap_states_cluster_juno_a53 |}.
Definition energy_cluster_juno_a57 : sched_group_energy :=
  {| idle_states := idle_states_cluster_juno_a57;
     cap_states := cap_states_cluster_juno_a57 |}.
Definition idle_states_core_juno_a53 : list idle_state :=
  [Idle 6; Idle 6; Idle 0; Idle 0].
Definition idle_states_core_juno_a57 : list idle_state :=
  [Idle 15; Idle 15; Idle 0; Idle 0].
Definition cap_states_core_juno_a53 : list capacity_state :=
  [Cap 235 33; Cap 302 46; Cap 368 61; Cap 406 76; Cap 447 93].
Definition cap_states_core_juno_a57 : list capacity_state :=
  [Cap 417 168; Cap 579 251; Cap 744 359; Cap 883 479; Cap 1024 616].
Definition energy_core_juno_a53 : sched_group_energy :=
  {| idle_states := idle_states_core_juno_a53;
     cap_states := cap_states_core_juno_a53 |}.
Definition energy_core_juno_a57 : sched_group_energy :=
  {| idle_states := idle_states_core_juno_a57;
     cap_states := cap_states_core_juno_a57 |}.
Definition idle_states_cluster_mt8173_a53 : list idle_state :=
  [Idle 184; Idle 184; Idle 147; Idle 4].
Definition idle_states_cluster_mt8173_a57 : list idle_state :=
  [Idle 171; Idle 171; Idle 100; Idle 18].
Definition cap_states_cluster_mt8173_a53 : list capacity_state :=
  [Cap 184 174; Cap 256 107; Cap 368 138; Cap 399 145; Cap 430 144;
   Cap 512 150; Cap 552 165; Cap 573 164].
Definition cap_states_cluster_mt8173_a57 : list capacity_state :=
  [Cap 256 56; Cap 358 89; Cap 512 78; Cap 614 47; Cap 716 101; Cap 819 122;
   Cap 921 103; Cap 1024 150].
Definition energy_cluster_mt8173_a53 : sched_group_energy :=
  {| idle_states := idle_states_cluster_mt8173_a53;
     cap_states := cap_states_cluster_mt8173_a53 |}.
Definition energy_cluster_mt8173_a57 : sched_group_energy :=
  {| idle_states := idle_states_cluster_mt8173_a57;
     cap_states := cap_states_cluster_mt8173_a57 |}.
Definition idle_states_core_mt8173_a53 : list idle_state :=
  [Idle 6; Idle 6; Idle 0; Idle 0].
Definition idle_states_core_mt8173_a57 : list idle_state :=
  [Idle 15; Idle 15; Idle 0; Idle 0].
Definition cap_states_core_mt8173_a53 : list capacity_state :=
  [Cap 184 57; Cap 256 156; Cap 368 255; Cap 399 299; Cap 430 339;
   Cap 512 472; Cap 552 529; Cap 573 574].
Definition cap_states_core_mt8173_a57 : list capacity_state :=
  [Cap 256 316; Cap 358 374; Cap 512 640; Cap 614 885; Cap 716 1079;
   Cap 819 1376; Cap 921 1738; Cap 1024 2207].
Definition energy_core_mt8173_a53 : sched_group_energy :=
  {| idle_states := idle_states_core_mt8173_a53;
     cap_states := cap_states_core_mt8173_a53 |}.
Definition energy_core_mt8173_a57 : sched_group_energy :=
  {| idle_states := idle_states_core_mt8173_a57;
     cap_states := cap_states_core_mt8173_a57 |}.
Definition idle_states_cluster_mt6797_LL : list idle_state :=
  [Idle 184; Idle 184; Idle 147; Idle 4].
Definition idle_states_cluster_mt6797_L : list idle_state :=
  [Idle 184; Idle 184; Idle 147; Idle 4].
Definition idle_states_cluster_mt6797_b : list idle_state :=
  [Idle 171; Idle 171; Idle 100; Idle 18].
Definition cap_states_cluster_mt6797_LL : list capacity_state :=
  [Cap 184 174; Cap 256 107; Cap 368 138; Cap 399 145; Cap 430 144;
   Cap 512 150; Cap 552 165; Cap 573 164].
Definition cap_states_cluster_mt6797_L : list capacity_state :=
  [Cap 184 174; Cap 256 107; Cap 368 138; Cap 399 145; Cap 430 144;
   Cap 512 150; Cap 552 165; Cap 573 164].
Definition cap_states_cluster_mt6797_b : list capacity_state :=
  [Cap 256 56; Cap 358 89; Cap 512 78; Cap 614 47; Cap 716 101; Cap 819 122;
   Cap 921 103; Cap 1024 150].
Definition energy_cluster_mt6797_LL : sched_group_energy :=
  {| idle_states := idle_states_cluster_mt6797_LL;
     cap_states := cap_states_cluster_mt6797_LL |}.
Definition energy_cluster_mt6797_L : sched_group_energy :=
  {| idle_states := idle_states_cluster_mt6797_L;
     cap_states := cap_states_cluster_mt6797_L |}.
Definition energy_cluster_mt6797_b : sched_group_energy :=
  {| idle_states := idle_states_cluster_mt6797_b;
     cap_states := cap_states_cluster_mt6797_b |}.
Definition idle_states_core_mt6797_LL : list idle_state :=
  [Idle 6; Idle 6; Idle 0; Idle 0].
Definition idle_states_core_mt6797_L : list idle_state :=
  [Idle 6; Idle 6; Idle 0; Idle 0].
Definition idle_states_core_mt6797_b : list idle_state :=
  [Idle 15; Idle 15; Idle 0; Idle 0].
Definition cap_states_core_mt6797_LL : list capacity_state :=
  [Cap 184 57; Cap 256 156; Cap 368 255; Cap 399 299; Cap 430 339;
   Cap 512 472; Cap 552 529; Cap 573 574].
Definition cap_states_core_mt6797_L : list capacity_state :=
  [Cap 184 57; Cap 256 156; Cap 368 255; Cap 399 299; Cap 430 339;
   Cap 512 472; Cap 552 529; Cap 573 574].
Definition cap_states_core_mt6797_b : list capacity_state :=
  [Cap 256 316; Cap 358 374; Cap 512 640; Cap 614 885; Cap 716 1079;
   Cap 819 1376; Cap 921 1738; Cap 1024 2207].
Definition energy_core_mt6797_LL : sched_group_energy :=
  {| idle_states := idle_states_core_mt6797_LL;
     cap_states := cap_states_core_mt6797_LL |}.
Definition energy_core_mt6797_L : sched_group_energy :=
  {| idle_states := idle_states_core_mt6797_L;
     cap_states := cap_states_core_mt6797_L |}.
Definition energy_core_mt6797_b : sched_group_energy :=
  {| idle_states := idle_states_core_mt6797_b;
     cap_states := cap_states_core_mt6797_b |}.
Definition idle_states_system_hikey : list idle_state :=
  [Idle 0; Idle 0; Idle 0; Idle 0].
Definition cap_states_system_hikey : list capacity_state :=
  [Cap 1024 0].
Definition energy_system_hikey : sched_group_energy :=
  {| idle_states := idle_states_system_hikey;
     cap_states := cap_states_system_hikey |}.
Definition idle_states_cluster_hikey : list idle_state :=
  [Idle 107; Idle 107; Idle 47; Idle 0].
Definition cap_states_cluster_hikey : list capacity_state :=
  [Cap 178 16; Cap 369 29; Cap 622 47; Cap 819 75; Cap 1024 112].
Definition energy_cluster_hikey : sched_group_energy :=
  {| idle_states := idle_states_cluster_hikey;
     cap_states := cap_states_cluster_hikey |}.
Definition idle_states_core_hikey : list idle_state :=
  [Idle 15; Idle 15; Idle 0; Idle 0].
Definition cap_states_core_hikey : list capacity_state :=
  [Cap 178 69; Cap 369 125; Cap 622 224; Cap 819 367; Cap 1024 670].
Definition energy_core_hikey : sched_group_energy :=
  {| idle_states := idle_states_core_hikey;
     cap_states := cap_states_core_hikey |}.

(** struct energy_model: three arrays of three pointers, NULL where the
    initialiser stops. *)
Record energy_model := {
  em_core_energy : list (option sched_group_energy);
  em_cluster_energy : list (option sched_group_energy);
  em_system_energy : list (option sched_group_energy)
}.

Definition juno_model : energy_model :=
  {| em_core_energy := [Some energy_core_juno_a57; Some energy_core_juno_a53; None];
     em_cluster_energy :=
       [Some energy_cluster_juno_a57; Some energy_cluster_juno_a53; None];
     em_system_energy := [None; None; None] |}.

Definition hikey_model : energy_model :=
  {| em_core_energy := [Some energy_core_hikey; Some energy_core_hikey; None];
     em_cluster_energy := [Some energy_cluster_hikey; Some energy_cluster_hikey; None];
     em_system_energy := [Some energy_system_hikey; Some energy_system_hikey; None] |}.

Definition mt8173_model : energy_model :=
  {| em_core_energy :=
       [Some energy_core_mt8173_a53; Some energy_core_mt8173_a57; None];
     em_cluster_energy :=
       [Some energy_cluster_mt8173_a53; Some energy_cluster_mt8173_a57; None];
     em_system_energy := [None; None; None] |}.

Definition mt6797_model : energy_model :=
  {| em_core_energy :=
       [Some energy_core_mt6797_LL; Some energy_core_mt6797_L;
        Some energy_core_mt6797_b];
     em_cluster_energy :=
       [Some energy_cluster_mt6797_LL; Some energy_cluster_mt6797_L;
        Some energy_cluster_mt6797_b];
     em_system_energy := [None; None; None] |}.

(** The entries of [model_matches] before the terminator. *)
Definition model_matches : list (string * energy_model) :=
  [ ("arm,juno"%string, juno_model);
    ("hisilicon,hi6220-hikey"%string, hikey_model);
    ("mediatek,mt8173"%string, mt8173_model);
    ("mediatek,mt6797"%string, mt6797_model) ].

(** The three globals; [None] is the NULL they start with. *)
Record energy_globals := {
  core_energy : option (list (option sched_group_energy));
  cluster_energy : option (list (option sched_group_energy));
  system_energy : option (list (option sched_group_energy))
}.

Definition no_energy : energy_globals :=
  {| core_energy := None; cluster_energy := None; system_energy := None |}.

(** A call either returns or stops in a [BUG_ON]. *)
Inductive checked (A : Type) :=
  | Done (a : A)
  | BUG.
Arguments Done {A} a.
Arguments BUG {A}.

(** [set_energy_model]; [matched] is what [of_match_node(model_matches,
    of_root)] finds for the machine. *)
Definition set_energy_model (matched : option (string * energy_model))
    (gl : energy_globals) : checked energy_globals :=
  if is_Some_dec (core_energy gl) then BUG
  else if is_Some_dec (cluster_energy gl) then BUG
  else if is_Some_dec (system_energy gl) then BUG
  else
    match matched with
    | None => Done gl
    | Some (_, em) =>
        Done {| core_energy := Some (em_core_energy em);
                cluster_energy := Some (em_cluster_energy em);
                system_energy := Some (em_system_energy em) |}
    end.

(** [energy]; [cluster_id] is [cpu_topology[cpu].cluster_id]. *)
Definition energy (cluster_id : nat -> Z) (cpu : nat)
    (sge : list (option sched_group_energy)) : checked (option sched_group_energy) :=
  let idx := cluster_id cpu in
  if negb (idx =? 0) && negb (idx =? 1) && negb (idx =? 2) then BUG
  else Done (nth (Z.to_nat idx) sge None).

Definition cpu_core_energy (cluster_id : nat -> Z) (gl : energy_globals) (cpu : nat)
  : checked (option sched_group_energy) :=
  match core_energy gl with
  | Some sge => energy cluster_id cpu sge
  | None => Done None
  end.

Definition cpu_cluster_energy (cluster_id : nat -> Z) (gl : energy_globals) (cpu : nat)
  : checked (option sched_group_energy) :=
  match cluster_energy gl with
  | Some sge => energy cluster_id cpu sge
  | None => Done None
  end.

Definition cpu_system_energy (cluster_id : nat -> Z) (gl : energy_globals) (cpu : nat)
  : checked (option sched_group_energy) :=
  match system_energy gl with
  | Some sge => energy cluster_id cpu sge
  | None => Done None
  end.

(** A table the scheduler can walk: four idle states, and capacity
    states in strictly increasing capacity up to at most 1024. *)
Definition sge_ok (s : sched_group_energy) : Prop :=
  nr_idle_states s = 4%nat ∧ (0 < nr_cap_states s)%nat ∧
  StronglySorted Z.lt (map cap (cap_states s)) ∧
  Forall (fun c => 0 < cap c ≤ 1024) (cap_states s).

(** ** More scenarios *)

(** A genpd that some other subsystem registered as the provider of
    node 10: no CPU PM domain points to it. *)
Definition foreign_state : kstate :=
  {| genpds := {[ 5%nat := mk_genpd tbl_10_30_100 0 ]};
     cpu_pds := ∅;
     of_cpu_pd_list := [];
     providers := {[ 10%nat := 5%nat ]} |}.

(** Callbacks that answer with what they were given. *)
Definition echo_ops : cpu_pd_ops :=
  {| power_off := Some (fun idx prm mask => idx * 100 + prm * 10 + mask);
     power_on := Some (fun _ => 0) |}.



(** One state of 100 microseconds, nobody online, tolerance 20. *)
Definition one_domain_vetoed : kstate :=
  Eval vm_compute in
  state_after boot_state
    (cpu_pd_down_ok (quiet_ext 20 1000 0 0) 0%nat (one_domain tbl_100 1)).

(** A platform whose [kstrndup] succeeds when [name_ok] and whose
    [of_pm_genpd_init] answers [init_ret]. *)
Definition fail_ext (name_ok : bool) (init_ret : Z) : ext :=
  {| pm_qos_request := 20;
     tick_nohz_get_next_wakeup := fun _ => 0;
     ktime_get := 0;
     cpu_online_mask := 15;
     cpu_possible_mask := 15;
     nr_cpu_ids := 4;
     get_cpu_device := fun _ => true;
     genpd_dev_pm_attach := fun _ => 0;
     of_pm_genpd_init := fun _ gd => (init_ret, gd);
     of_genpd_add_provider_simple := fun _ _ => 0;
     pm_genpd_add_subdomain := fun _ _ => 0;
     of_device_is_available := fun _ => true;
     of_get_cpu_node := fun cpu => Some (100 + cpu)%nat;
     of_parse_phandle := fun _ => Some 10%nat;
     of_parse_phandle_with_args := fun _ => None;
     full_name := fun _ => "/cpus/domain"%string;
     kzalloc_genpd := fun _ => true;
     kstrndup := fun _ => name_ok;
     kzalloc_pd := fun _ => true;
     zalloc_cpumask_var := fun _ => true;
     stack_int := 0 |}.

(** Boot, the domain of node 10 is created, then the creation of the
    domain of node 11 fails: [of_pm_genpd_init] answers -22 ([-EINVAL]). *)
Definition booted_then_failed : kstate :=
  Eval vm_compute in
  state_after booted
    (of_init_cpu_pm_domain (fail_ext true (-22)) 11%nat no_ops booted).

(** Boot, then the batch over all four CPUs. *)
Definition booted_all : kstate :=
  Eval vm_compute in
  state_after boot_state (of_setup_cpu_pd 8 (quiet_ext 20 0 0 15) no_ops boot_state).

(** Boot, then CPUs 0, 1 and 3 are set up one by one, then CPU 2. *)
Definition booted_cpu0 : kstate :=
  Eval vm_compute in
  state_after boot_state
    (of_setup_cpu_pd_single 8 (quiet_ext 20 0 0 15) 0 no_ops boot_state).
Definition booted_cpu0_1 : kstate :=
  Eval vm_compute in
  state_after booted_cpu0
    (of_setup_cpu_pd_single 8 (quiet_ext 20 0 0 15) 1 no_ops booted_cpu0).
Definition booted_cpu013 : kstate :=
  Eval vm_compute in
  state_after booted_cpu0_1
    (of_setup_cpu_pd_single 8 (quiet_ext 20 0 0 15) 3 no_ops booted_cpu0_1).
Definition booted_cpu0123 : kstate :=
  Eval vm_compute in
  state_after booted_cpu013
    (of_setup_cpu_pd_single 8 (quiet_ext 20 0 0 15) 2 no_ops booted_cpu013).

(** Boot, then the domain of node 10 is resolved with its ancestors. *)
Definition resolved : kstate :=
  Eval vm_compute in
  state_after boot_state
    (of_get_cpu_domain 8 (quiet_ext 20 0 0 15) 10%nat no_ops 0 boot_state).

(** The three levels after a batch that found them in place. *)
Definition three_levels_all : kstate :=
  Eval vm_compute in
  state_after boot_state
    (of_setup_cpu_pd 8 (quiet_ext 20 0 0 15) no_ops three_levels).

(** Two CPUs in each of two clusters. *)
Definition two_clusters (cpu : nat) : Z := if (cpu <? 2)%nat then 0 else 1.

Definition juno_energy : energy_globals :=
  {| core_energy := Some (em_core_energy juno_model);
     cluster_energy := Some (em_cluster_energy juno_model);
     system_energy := Some (em_system_energy juno_model) |}.

(** * The earlier revision (drivers/base/power/cpu_domains.c)

    The file before domains recorded their CPUs and before the governor
    [cpu_pd_gov]: struct cpu_pm_domain has no [cpus] field (the record
    is reused, the field stays as it is), [cpu_pd_attach_cpu] takes no
    domain, and [of_setup_cpu_pd_single] does not look the domain up.
    [to_cpu_pd] and [cpu_pd_power_on] have the text of the later
    revision.  [cpu_pd_power_off] is not valid C in this revision (a
    comma precedes the colon of its conditional) and is left out.
    [of_pm_genpd_init e] stands for the call with the governor the
    revision passes. *)
Module Legacy.

Definition cpu_pd_attach_cpu (e : ext) (cpu : nat) (st : kstate)
  : outcome (kstate * Z) :=
  if negb (get_cpu_device e cpu) then Ok (st, - ENODEV)
  else Ok (st, genpd_dev_pm_attach e cpu).

Definition of_init_cpu_pm_domain (e : ext) (dn : device_node)
    (o : cpu_pd_ops) (st : kstate) : outcome (kstate * ptr_or_err) :=
  if negb (of_device_is_available e dn) then Ok (st, ErrPtr (- ENODEV))
  else if negb (kzalloc_genpd e dn) then
    (* fail: kfree(genpd->name) with genpd == NULL *)
    Fault NullDeref
  else
    let g := kzalloc (genpds st) in
    let gd0 := {| name := None; flags := 0; gpd_power_off := false;
                  gpd_power_on := false; states := []; state_idx := 0 |} in
    let st1 := with_genpds (<[g := gd0]> (genpds st)) st in
    let fail_genpd := with_genpds (delete g (genpds st1)) st1 in
    if negb (kstrndup e dn) then Ok (fail_genpd, ErrPtr (- ENOMEM))
    else
      let gd1 := {| name := Some (String.substring 0 CPU_PD_NAME_MAX (full_name e dn));
                    flags := 0; gpd_power_off := false; gpd_power_on := false;
                    states := []; state_idx := 0 |} in
      if negb (kzalloc_pd e dn) then Ok (fail_genpd, ErrPtr (- ENOMEM))
      else
        let p := kzalloc (cpu_pds st1) in
        let pd := {| ops := o; genpd := g; parent := None; cpus := 0 |} in
        let gd2 := {| name := name gd1;
                      flags := Z.lor (flags gd1) GENPD_FLAG_IRQ_SAFE;
                      gpd_power_off := true; gpd_power_on := true;
                      states := states gd1; state_idx := state_idx gd1 |} in
        let st2 := with_list (p :: of_cpu_pd_list st1)
                     (with_cpu_pds (<[p := pd]> (cpu_pds st1)) st1) in
        let '(ret, gd3) := of_pm_genpd_init e dn gd2 in
        let st3 := with_genpds (<[g := gd3]> (genpds st2)) st2 in
        if negb (ret =? 0) then
          Ok (with_cpu_pds (delete p (cpu_pds st3))
                (with_genpds (delete g (genpds st3)) st3), ErrPtr ret)
        else
          let ret' := of_genpd_add_provider_simple e dn g in
          let st4 := if ret' =? 0
                     then with_providers (<[dn := g]> (providers st3)) st3
                     else st3 in
          Ok (st4, Ptr g).

Fixpoint of_get_cpu_domain (fuel : nat) (e : ext) (dn : device_node)
    (o : cpu_pd_ops) (cpu : nat) (st : kstate) : outcome (kstate * ptr_or_err) :=
  match fuel with
  | O => OutOfFuel
  | S fuel' =>
      match of_genpd_get_from_provider st dn with
      | Ptr g => Ok (st, Ptr g)
      | ErrPtr _ =>
          do (st1, r) <- of_init_cpu_pm_domain e dn o st;
          match r with
          | ErrPtr err => Ok (st1, ErrPtr err)
          | Ptr g =>
              match of_parse_phandle_with_args e dn with
              | None => Ok (st1, Ptr g)
              | Some np =>
                  do (st2, pr) <- of_get_cpu_domain fuel' e np o cpu st1;
                  match pr with
                  | ErrPtr _ => Ok (st2, Ptr g)
                  | Ptr parent_g =>
                      let ret := pm_genpd_add_subdomain e g parent_g in
                      if negb (ret =? 0) then Ok (st2, ErrPtr ret)
                      else
                        do cpu_pd <- to_cpu_pd st2 g;
                        do parent_cpu_pd <- to_cpu_pd st2 parent_g;
                        match cpu_pd, parent_cpu_pd with
                        | Some c, Some pp =>
                            do pd <- deref (cpu_pds st2) c;
                            Ok (with_cpu_pds
                                  (<[c := set_parent (Some pp) pd]> (cpu_pds st2)) st2,
                                Ptr g)
                        | _, _ => Ok (st2, Ptr g)
                        end
                  end
              end
          end
      end
  end.

Definition of_setup_cpu_pd_single (fuel : nat) (e : ext) (cpu : nat)
    (o : cpu_pd_ops) (st : kstate) : outcome (kstate * Z) :=
  match of_get_cpu_node e cpu with
  | None => Ok (st, - ENODEV)
  | Some cpu_dn =>
      match of_parse_phandle e cpu_dn with
      | None => Ok (st, - ENODEV)
      | Some dn =>
          do (st1, r) <- of_get_cpu_domain fuel e dn o cpu st;
          match r with
          | ErrPtr err => Ok (st1, err)
          | Ptr g => cpu_pd_attach_cpu e cpu st1
          end
      end
  end.

Fixpoint of_setup_cpu_pd_loop (fuel : nat) (e : ext) (o : cpu_pd_ops)
    (todo : list nat) (ret : Z) (st : kstate) : outcome (kstate * Z) :=
  match todo with
  | [] => Ok (st, ret)
  | cpu :: rest =>
      do (st1, ret1) <- of_setup_cpu_pd_single fuel e cpu o st;
      if negb (ret1 =? 0) then Ok (st1, ret1)
      else of_setup_cpu_pd_loop fuel e o rest ret1 st1
  end.

Definition of_setup_cpu_pd (fuel : nat) (e : ext) (o : cpu_pd_ops) (st : kstate)
  : outcome (kstate * Z) :=
  of_setup_cpu_pd_loop fuel e o
    (for_each_cpu (nr_cpu_ids e) (cpu_possible_mask e)) (stack_int e) st.

End Legacy.

(** The state without the member masks, as the earlier revision sees
    it. *)
Definition forget_members (st : kstate) : kstate :=
  with_cpu_pds (set_cpus 0 <$> cpu_pds st) st.

(** What a call returned, seen without the member masks. *)
Definition forget_result {A} (r : outcome (kstate * A)) : outcome (kstate * A) :=
  match r with
  | Ok (st, a) => Ok (forget_members st, a)
  | Fault f => Fault f
  | OutOfFuel => OutOfFuel
  end.

(** * Properties *)

(** ** Machine integers *)

Lemma to_u64_small z : 0 ≤ z < 2 ^ 64 → to_u64 z = z.
Proof. intros H. unfold to_u64. apply Z.mod_small. lia. Qed.

Lemma to_s64_small z : - 2 ^ 63 ≤ z < 2 ^ 63 → to_s64 z = z.
Proof. intros H. unfold to_s64. rewrite Z.mod_small; lia. Qed.

Lemma state_sleep_ns_nonneg s : 0 ≤ state_sleep_ns s.
Proof. unfold state_sleep_ns, to_u64. apply Z.mod_pos_bound. lia. Qed.

Lemma qos_limit_ns_zero : qos_limit_ns 0 = 0.
Proof. reflexivity. Qed.

(** ** The scan of [cpu_pd_down_ok] *)

Lemma down_ok_loop_step tbl sl q i :
  down_ok_loop tbl sl q (S i) =
  if state_taken tbl sl q i then Z.of_nat i else down_ok_loop tbl sl q i.
Proof.
  unfold state_taken; simpl.
  destruct (_ >? _); simpl; [reflexivity|].
  destruct (_ <? _); reflexivity.
Qed.

Lemma down_ok_loop_taken tbl sl q k i :
  (i < k)%nat → state_taken tbl sl q i = true →
  (∀ j, (i < j < k)%nat → state_taken tbl sl q j = false) →
  down_ok_loop tbl sl q k = Z.of_nat i.
Proof.
  induction k as [|k IH]; intros Hik Ht Hn; [lia|].
  rewrite down_ok_loop_step.
  destruct (decide (i = k)) as [->|Hne].
  - by rewrite Ht.
  - rewrite (Hn k) by lia. apply IH; [lia|done|]. intros j Hj. apply Hn. lia.
Qed.

(** The loop ends at [-1] when no state passes the test, and otherwise
    at the deepest state that passes it. *)
Lemma down_ok_loop_inv tbl sl q k :
  (down_ok_loop tbl sl q k = -1 ∧
   ∀ j, (j < k)%nat → state_taken tbl sl q j = false) ∨
  (∃ i, (i < k)%nat ∧ down_ok_loop tbl sl q k = Z.of_nat i ∧
        state_taken tbl sl q i = true ∧
        ∀ j, (i < j < k)%nat → state_taken tbl sl q j = false).
Proof.
  induction k as [|k IH].
  - left. split; [reflexivity|]. intros j Hj. lia.
  - rewrite down_ok_loop_step. destruct (state_taken tbl sl q k) eqn:Hk.
    + right. exists k. repeat split; [lia|done|]. intros j Hj. lia.
    + destruct IH as [[Hm Hall]|(i & Hi & Hr & Ht & Hn)].
      * left. split; [done|]. intros j Hj.
        destruct (decide (j = k)) as [->|]; [done|]. apply Hall. lia.
      * right. exists i. repeat split; [lia|done|done|]. intros j Hj.
        destruct (decide (j = k)) as [->|]; [done|]. apply Hn. lia.
Qed.

Lemma state_taken_lookup tbl sl q i s :
  tbl !! i = Some s →
  state_taken tbl sl q i = true ↔
  state_sleep_ns s ≤ sl ∧ state_sleep_ns s < qos_limit_ns q.
Proof.
  intros Hi. unfold state_taken. rewrite nth_lookup, Hi. simpl.
  rewrite andb_true_iff, negb_true_iff, Z.gtb_ltb, Z.ltb_ge, Z.ltb_lt. done.
Qed.

(** With a zero tolerance the call stops at the first [return]. *)
Lemma cpu_pd_down_ok_early e g st r gd :
  to_cpu_pd st g = Ok r → genpds st !! g = Some gd →
  pm_qos_request e = 0 →
  cpu_pd_down_ok e g st =
    Ok (with_genpds (<[g := set_state_idx 0 gd]> (genpds st)) st, false).
Proof.
  intros Hl Hg Hq.
  unfold cpu_pd_down_ok. rewrite Hl. simpl. unfold deref. rewrite Hg. simpl.
  by rewrite Hq.
Qed.

(** Past the two early returns the call is the scan. *)
Lemma cpu_pd_down_ok_scan e g st p pd gd :
  to_cpu_pd st g = Ok (Some p) → cpu_pds st !! p = Some pd →
  genpds st !! g = Some gd →
  pm_qos_request e ≠ 0 → 0 < sleep_ns_of e (cpus pd) →
  cpu_pd_down_ok e g st =
    let i := down_ok_loop (states gd) (sleep_ns_of e (cpus pd)) (pm_qos_request e)
               (state_count gd) in
    Ok (with_genpds (<[g := set_state_idx (if i >=? 0 then i else 0) gd]> (genpds st)) st,
        i >=? 0).
Proof.
  intros Hl Hp Hg Hq Hs. unfold cpu_pd_down_ok.
  rewrite Hl. simpl. unfold deref. rewrite Hg. simpl.
  destruct (Z.eqb_spec (pm_qos_request e) 0) as [|_]; [done|].
  rewrite Hp. simpl.
  destruct (Z.leb_spec (sleep_ns_of e (cpus pd)) 0); [lia|].
  destruct (_ >=? 0); reflexivity.
Qed.

(** A call that returns has only written [state_idx] of its own genpd. *)
Lemma cpu_pd_down_ok_inv e g st st' b :
  cpu_pd_down_ok e g st = Ok (st', b) →
  ∃ gd i, genpds st !! g = Some gd ∧
          st' = with_genpds (<[g := set_state_idx i gd]> (genpds st)) st.
Proof.
  unfold cpu_pd_down_ok. intros H.
  destruct (to_cpu_pd st g) as [r|f|]; simpl in H; try discriminate.
  unfold deref in H.
  destruct (genpds st !! g) as [gd|] eqn:Hg; simpl in H; [|discriminate].
  exists gd.
  destruct (pm_qos_request e =? 0); [injection H as <- <-; by eexists|].
  destruct r as [p|]; simpl in H; [|discriminate]. unfold deref in H.
  destruct (cpu_pds st !! p) as [pd|]; simpl in H; [|discriminate].
  destruct (sleep_ns_of e (cpus pd) <=? 0); [injection H as <- <-; by eexists|].
  destruct (_ >=? 0); injection H as <- <-; by eexists.
Qed.

(** ** Depth selection *)

(** C1, as the code has it: for every domain whose table has total costs
    of 10, 30 and 100 microseconds at indices 0, 1 and 2, with a latency
    tolerance of 20 microseconds and a sleep window of 150 microseconds,
    [cpu_pd_down_ok] permits power-down and sets [state_idx] to 0: the
    scan from the deepest state takes the first state that fits the
    window and costs strictly less than the tolerance, and stops there. *)
Theorem cpu_pd_down_ok_table_10_30_100 e g st p pd gd :
  to_cpu_pd st g = Ok (Some p) → cpu_pds st !! p = Some pd →
  genpds st !! g = Some gd →
  map state_sleep_ns (states gd) =
    [10 * NSEC_PER_USEC; 30 * NSEC_PER_USEC; 100 * NSEC_PER_USEC] →
  pm_qos_request e = 20 →
  sleep_ns_of e (cpus pd) = 150 * NSEC_PER_USEC →
  cpu_pd_down_ok e g st =
    Ok (with_genpds (<[g := set_state_idx 0 gd]> (genpds st)) st, true).
Proof.
  intros Hl Hp Hg Ht Hq Hs.
  rewrite (cpu_pd_down_ok_scan e g st p pd gd) by (try done; rewrite ?Hq, ?Hs; done).
  rewrite Hq, Hs. unfold state_count.
  destruct (states gd) as [|s0 [|s1 [|s2 [|]]]]; try discriminate.
  injection Ht as H0 H1 H2.
  cbn [length down_ok_loop nth]. rewrite H0, H1, H2. reflexivity.
Qed.

Lemma cpu_pd_down_ok_table_10_30_100_witness :
  cpu_pd_down_ok (quiet_ext 20 1000 151000 1) 0%nat (one_domain tbl_10_30_100 2) =
    Ok (with_genpds (<[0%nat := set_state_idx 0 (mk_genpd tbl_10_30_100 2)]>
                       (genpds (one_domain tbl_10_30_100 2)))
          (one_domain tbl_10_30_100 2), true).
Proof.
  apply (cpu_pd_down_ok_table_10_30_100 (quiet_ext 20 1000 151000 1) 0%nat
           (one_domain tbl_10_30_100 2) 0%nat (mk_pd 0 None 1)
           (mk_genpd tbl_10_30_100 2));
    reflexivity.
Defined.

(** C1 as stated fails: table 10/30/100, tolerance 20 and window 150
    select index 0, not index 2. *)
Lemma cpu_pd_down_ok_deepest_not_selected :
  map state_sleep_ns tbl_10_30_100 =
    [10 * NSEC_PER_USEC; 30 * NSEC_PER_USEC; 100 * NSEC_PER_USEC] ∧
  pm_qos_request (quiet_ext 20 1000 151000 1) = 20 ∧
  sleep_ns_of (quiet_ext 20 1000 151000 1) 1 = 150 * NSEC_PER_USEC ∧
  down_ok_result (quiet_ext 20 1000 151000 1) 0%nat (one_domain tbl_10_30_100 0) =
    Ok (true, Some 0) ∧
  down_ok_result (quiet_ext 20 1000 151000 1) 0%nat (one_domain tbl_10_30_100 0) ≠
    Ok (true, Some 2).
Proof. vm_compute. repeat split; try reflexivity. discriminate. Qed.

(** C2, as the code has it: whenever the scan from the deepest state
    reaches a state whose total cost fits the sleep window and is
    strictly less than the tolerance, it stops and that state is the one
    selected: power-down is permitted and [state_idx] is its index. *)
Theorem cpu_pd_down_ok_break_accepts e g st p pd gd i s :
  to_cpu_pd st g = Ok (Some p) → cpu_pds st !! p = Some pd →
  genpds st !! g = Some gd →
  0 < sleep_ns_of e (cpus pd) →
  states gd !! i = Some s →
  state_sleep_ns s ≤ sleep_ns_of e (cpus pd) →
  state_sleep_ns s < qos_limit_ns (pm_qos_request e) →
  (∀ j s', (i < j)%nat → states gd !! j = Some s' →
     ¬ (state_sleep_ns s' ≤ sleep_ns_of e (cpus pd) ∧
        state_sleep_ns s' < qos_limit_ns (pm_qos_request e))) →
  cpu_pd_down_ok e g st =
    Ok (with_genpds (<[g := set_state_idx (Z.of_nat i) gd]> (genpds st)) st, true).
Proof.
  intros Hl Hp Hg Hs Hi Hfit Hq Hdeep.
  assert (pm_qos_request e ≠ 0) as Hq0.
  { intros Heq. rewrite Heq, qos_limit_ns_zero in Hq.
    pose proof (state_sleep_ns_nonneg s). lia. }
  rewrite (cpu_pd_down_ok_scan e g st p pd gd) by done.
  cbv zeta. unfold state_count.
  rewrite (down_ok_loop_taken _ _ _ _ i).
  - destruct (Z.geb_spec (Z.of_nat i) 0); [done|lia].
  - by eapply lookup_lt_Some.
  - by apply (state_taken_lookup _ _ _ _ s).
  - intros j [Hj1 Hj2].
    destruct (lookup_lt_is_Some_2 (states gd) j Hj2) as [s' Hs'].
    destruct (state_taken (states gd) _ _ j) eqn:Ht; [|done].
    apply (state_taken_lookup _ _ _ _ s' Hs') in Ht. by destruct (Hdeep j s' Hj1 Hs').
Qed.

(** Table 10/30/100, tolerance 150, window 50: index 1 is selected. *)
Lemma cpu_pd_down_ok_break_accepts_witness :
  cpu_pd_down_ok (quiet_ext 150 1000 51000 1) 0%nat (one_domain tbl_10_30_100 0) =
    Ok (with_genpds (<[0%nat := set_state_idx 1 (mk_genpd tbl_10_30_100 0)]>
                       (genpds (one_domain tbl_10_30_100 0)))
          (one_domain tbl_10_30_100 0), true).
Proof.
  apply (cpu_pd_down_ok_break_accepts (quiet_ext 150 1000 51000 1) 0%nat
           (one_domain tbl_10_30_100 0) 0%nat (mk_pd 0 None 1)
           (mk_genpd tbl_10_30_100 0) 1%nat
           {| power_off_latency_ns := 5000; power_on_latency_ns := 5000;
              residency_ns := 20000; param := 1 |});
    try reflexivity.
  - vm_compute. discriminate.
  - intros [|[|[|j]]] s' Hj Hs'; try lia.
    + injection Hs' as <-. vm_compute. intros [H _]. apply H. reflexivity.
    + discriminate.
Defined.

(** C2 as stated fails: table 10/30/100, tolerance 150 and window 150
    permit power-down with index 2, and window 50 permits it with
    index 1; neither is a veto with index 0. *)
Lemma cpu_pd_down_ok_break_is_not_veto :
  sleep_ns_of (quiet_ext 150 1000 151000 1) 1 = 150 * NSEC_PER_USEC ∧
  down_ok_result (quiet_ext 150 1000 151000 1) 0%nat (one_domain tbl_10_30_100 0) =
    Ok (true, Some 2) ∧
  sleep_ns_of (quiet_ext 150 1000 51000 1) 1 = 50 * NSEC_PER_USEC ∧
  down_ok_result (quiet_ext 150 1000 51000 1) 0%nat (one_domain tbl_10_30_100 0) =
    Ok (true, Some 1) ∧
  down_ok_result (quiet_ext 150 1000 151000 1) 0%nat (one_domain tbl_10_30_100 0) ≠
    Ok (false, Some 0).
Proof. vm_compute. repeat split; try reflexivity. discriminate. Qed.

(** ** Early vetoes and the frame *)

(** C7: for every domain and every assignment of wakeup times, when the
    latency tolerance is 0 [cpu_pd_down_ok] returns false and [state_idx]
    is 0 after the call. *)
Theorem cpu_pd_down_ok_qos_zero e g st r gd :
  to_cpu_pd st g = Ok r → genpds st !! g = Some gd →
  pm_qos_request e = 0 →
  cpu_pd_down_ok e g st =
    Ok (with_genpds (<[g := set_state_idx 0 gd]> (genpds st)) st, false) ∧
  down_ok_result e g st = Ok (false, Some 0).
Proof.
  intros Hl Hg Hq.
  pose proof (cpu_pd_down_ok_early e g st r gd Hl Hg Hq) as Heq.
  split; [done|].
  unfold down_ok_result. rewrite Heq. simpl. by rewrite lookup_insert_eq.
Qed.

Lemma cpu_pd_down_ok_qos_zero_witness :
  cpu_pd_down_ok (quiet_ext 0 1000 151000 1) 0%nat (one_domain tbl_10_30_100 2) =
    Ok (with_genpds (<[0%nat := set_state_idx 0 (mk_genpd tbl_10_30_100 2)]>
                       (genpds (one_domain tbl_10_30_100 2)))
          (one_domain tbl_10_30_100 2), false) ∧
  down_ok_result (quiet_ext 0 1000 151000 1) 0%nat (one_domain tbl_10_30_100 2) =
    Ok (false, Some 0).
Proof.
  apply (cpu_pd_down_ok_qos_zero (quiet_ext 0 1000 151000 1) 0%nat
           (one_domain tbl_10_30_100 2) (Some 0%nat) (mk_genpd tbl_10_30_100 2));
    reflexivity.
Defined.

(** C9: a call of [cpu_pd_down_ok] that returns has changed nothing but
    [state_idx] of its own genpd: the CPU PM domains (members, parent
    links, callbacks), the list, the providers, the other fields of the
    genpd (idle-state table included) and every other genpd are as
    before. *)
Theorem cpu_pd_down_ok_frame e g st st' b :
  cpu_pd_down_ok e g st = Ok (st', b) →
  cpu_pds st' = cpu_pds st ∧
  of_cpu_pd_list st' = of_cpu_pd_list st ∧
  providers st' = providers st ∧
  (∀ g', g' ≠ g → genpds st' !! g' = genpds st !! g') ∧
  ∃ gd i, genpds st !! g = Some gd ∧ genpds st' !! g = Some (set_state_idx i gd).
Proof.
  intros H. destruct (cpu_pd_down_ok_inv e g st st' b H) as (gd & i & Hg & ->).
  simpl. repeat split.
  - intros g' Hne. by rewrite lookup_insert_ne.
  - exists gd, i. by rewrite lookup_insert_eq.
Qed.

Lemma cpu_pd_down_ok_frame_witness :
  cpu_pds one_domain_decided = cpu_pds (one_domain tbl_10_30_100 2) ∧
  of_cpu_pd_list one_domain_decided = of_cpu_pd_list (one_domain tbl_10_30_100 2) ∧
  providers one_domain_decided = providers (one_domain tbl_10_30_100 2) ∧
  (∀ g', g' ≠ 0%nat →
     genpds one_domain_decided !! g' = genpds (one_domain tbl_10_30_100 2) !! g') ∧
  ∃ gd i, genpds (one_domain tbl_10_30_100 2) !! 0%nat = Some gd ∧
          genpds one_domain_decided !! 0%nat = Some (set_state_idx i gd).
Proof.
  apply (cpu_pd_down_ok_frame (quiet_ext 20 1000 151000 1) 0%nat
           (one_domain tbl_10_30_100 2) one_domain_decided true).
  reflexivity.
Defined.

(** A wakeup that is already due gives a window of at least 2^63. *)
Lemma sleep_ns_of_past_wakeup e members :
  - 2 ^ 63 ≤ earliest_wakeup e members - ktime_get e < 0 →
  2 ^ 63 ≤ sleep_ns_of e members.
Proof.
  intros H. unfold sleep_ns_of, ktime_to_ns, ktime_sub.
  rewrite to_s64_small by lia. unfold to_u64.
  rewrite <- (Z.mod_add _ 1) by lia. rewrite Z.mod_small; lia.
Qed.

(** C6, the code at the failing input: CPU 0, the online member, should
    have woken at 500 ns and the clock reads 1000 ns.  The difference,
    -500 ns, is stored in the [u64] [sleep_ns] as 2^64 - 500, the test
    [sleep_ns <= 0] does not fire, and power-down is permitted. *)
Lemma cpu_pd_down_ok_missed_wakeup :
  earliest_wakeup (quiet_ext 20 1000 500 1) 1 = 500 ∧
  ktime_sub (earliest_wakeup (quiet_ext 20 1000 500 1) 1)
            (ktime_get (quiet_ext 20 1000 500 1)) = -500 ∧
  sleep_ns_of (quiet_ext 20 1000 500 1) 1 = 2 ^ 64 - 500 ∧
  down_ok_result (quiet_ext 20 1000 500 1) 0%nat (one_domain tbl_10_30_100 0) =
    Ok (true, Some 0).
Proof. vm_compute. repeat split; reflexivity. Qed.

(** ** Domains without an online member *)

Lemma filter_nil_all_false {A} (f : A → bool) l :
  (∀ x, f x = false) → List.filter f l = [].
Proof. intros H. induction l as [|a l IH]; simpl; [done|]. by rewrite H. Qed.

Lemma earliest_wakeup_offline e members :
  (∀ cpu, cpumask_test_cpu cpu members = true →
          cpumask_test_cpu cpu (cpu_online_mask e) = false) →
  earliest_wakeup e members = KTIME_MAX.
Proof.
  intros H. unfold earliest_wakeup, for_each_cpu_and.
  rewrite filter_nil_all_false; [reflexivity|].
  intros cpu. destruct (cpumask_test_cpu cpu members) eqn:E; [|done].
  by rewrite (H cpu E).
Qed.

(** C3, as the code has it: for every domain all of whose member CPUs
    are offline, the earliest wakeup is the finite maximum [KTIME_MAX],
    the sleep window is [KTIME_MAX - now], which is positive, and
    [cpu_pd_down_ok] vetoes exactly when the tolerance is 0 or no state
    of the table has a total cost that fits this window and is strictly
    less than the tolerance. *)
Theorem cpu_pd_down_ok_all_offline e g st p pd gd :
  to_cpu_pd st g = Ok (Some p) → cpu_pds st !! p = Some pd →
  genpds st !! g = Some gd →
  (∀ cpu, cpumask_test_cpu cpu (cpus pd) = true →
          cpumask_test_cpu cpu (cpu_online_mask e) = false) →
  0 ≤ ktime_get e < KTIME_MAX →
  earliest_wakeup e (cpus pd) = KTIME_MAX ∧
  sleep_ns_of e (cpus pd) = KTIME_MAX - ktime_get e ∧
  0 < sleep_ns_of e (cpus pd) ∧
  ∃ st' b, cpu_pd_down_ok e g st = Ok (st', b) ∧
    (b = false ↔
     pm_qos_request e = 0 ∨
     ∀ s, s ∈ states gd →
       ¬ (state_sleep_ns s ≤ KTIME_MAX - ktime_get e ∧
          state_sleep_ns s < qos_limit_ns (pm_qos_request e))).
Proof.
  intros Hl Hp Hg Hoff Hnow.
  pose proof (earliest_wakeup_offline e (cpus pd) Hoff) as He.
  assert (sleep_ns_of e (cpus pd) = KTIME_MAX - ktime_get e) as Hs.
  { unfold sleep_ns_of, ktime_to_ns, ktime_sub. rewrite He.
    unfold KTIME_MAX in *. rewrite to_s64_small, to_u64_small; lia. }
  split; [done|]. split; [done|]. split; [lia|].
  destruct (Z.eq_dec (pm_qos_request e) 0) as [Hq|Hq].
  { eexists _, false. split; [by eapply cpu_pd_down_ok_early|]. tauto. }
  rewrite (cpu_pd_down_ok_scan e g st p pd gd) by (try done; lia).
  cbv zeta. unfold state_count. rewrite Hs. eexists _, _. split; [reflexivity|].
  set (w := KTIME_MAX - ktime_get e).
  destruct (down_ok_loop_inv (states gd) w (pm_qos_request e) (length (states gd)))
    as [[Hm Hall]|(i & Hi & Hr & Ht & _)].
  - rewrite Hm. split; [|done]. intros _. right. intros s Hin Hacc.
    apply list_elem_of_lookup in Hin as [i Hi].
    apply (state_taken_lookup _ _ _ _ _ Hi) in Hacc.
    rewrite Hall in Hacc; [done|]. by eapply lookup_lt_Some.
  - rewrite Hr. destruct (Z.geb_spec (Z.of_nat i) 0); [|lia].
    split; [done|]. intros [?|Hnone]; [done|].
    destruct (lookup_lt_is_Some_2 (states gd) i Hi) as [s Hsi].
    apply (state_taken_lookup _ _ _ _ _ Hsi) in Ht.
    destruct (Hnone s); [|done]. apply list_elem_of_lookup. by exists i.
Qed.

Lemma cpu_pd_down_ok_all_offline_witness :
  earliest_wakeup (quiet_ext 20 1000 0 0) (cpus (mk_pd 0 None 1)) = KTIME_MAX ∧
  sleep_ns_of (quiet_ext 20 1000 0 0) (cpus (mk_pd 0 None 1)) =
    KTIME_MAX - ktime_get (quiet_ext 20 1000 0 0) ∧
  0 < sleep_ns_of (quiet_ext 20 1000 0 0) (cpus (mk_pd 0 None 1)) ∧
  ∃ st' b,
    cpu_pd_down_ok (quiet_ext 20 1000 0 0) 0%nat (one_domain tbl_10_30_100 0) =
      Ok (st', b) ∧
    (b = false ↔
     pm_qos_request (quiet_ext 20 1000 0 0) = 0 ∨
     ∀ s, s ∈ states (mk_genpd tbl_10_30_100 0) →
       ¬ (state_sleep_ns s ≤ KTIME_MAX - ktime_get (quiet_ext 20 1000 0 0) ∧
          state_sleep_ns s < qos_limit_ns (pm_qos_request (quiet_ext 20 1000 0 0)))).
Proof.
  apply (cpu_pd_down_ok_all_offline (quiet_ext 20 1000 0 0) 0%nat
           (one_domain tbl_10_30_100 0) 0%nat (mk_pd 0 None 1)
           (mk_genpd tbl_10_30_100 0)).
  - reflexivity.
  - reflexivity.
  - reflexivity.
  - intros cpu _. unfold cpumask_test_cpu. simpl. apply Z.testbit_0_l.
  - vm_compute. split; [discriminate|reflexivity].
Defined.

(** C3 as stated fails: every member is offline, the table is not empty
    and the tolerance is 20, not 0, yet the call vetoes, because the one
    state costs 100 microseconds. *)
Lemma cpu_pd_down_ok_offline_veto_nonzero_qos :
  (∀ cpu, cpumask_test_cpu cpu (cpus (mk_pd 0 None 1)) = true →
          cpumask_test_cpu cpu (cpu_online_mask (quiet_ext 20 1000 0 0)) = false) ∧
  tbl_100 ≠ [] ∧
  pm_qos_request (quiet_ext 20 1000 0 0) ≠ 0 ∧
  down_ok_result (quiet_ext 20 1000 0 0) 0%nat (one_domain tbl_100 0) = Ok (false, Some 0).
Proof.
  split; [|split; [|split]].
  - intros cpu _. unfold cpumask_test_cpu. simpl. apply Z.testbit_0_l.
  - discriminate.
  - discriminate.
  - reflexivity.
Qed.

(** ** Membership propagation *)

Lemma cpumask_test_set cpu m : cpumask_test_cpu cpu (cpumask_set_cpu cpu m) = true.
Proof.
  unfold cpumask_test_cpu, cpumask_set_cpu.
  rewrite Z.lor_spec, Z.shiftl_1_l, Z.pow2_bits_true by lia.
  apply orb_true_r.
Qed.

Lemma cpumask_test_set_other cpu cpu' m :
  cpu' ≠ cpu → cpumask_test_cpu cpu' (cpumask_set_cpu cpu m) = cpumask_test_cpu cpu' m.
Proof.
  intros Hne. unfold cpumask_test_cpu, cpumask_set_cpu.
  rewrite Z.lor_spec, Z.shiftl_1_l, Z.pow2_bits_false by lia.
  apply orb_false_r.
Qed.

Lemma cpumask_set_set cpu m :
  cpumask_set_cpu cpu (cpumask_set_cpu cpu m) = cpumask_set_cpu cpu m.
Proof. unfold cpumask_set_cpu. by rewrite <- Z.lor_assoc, Z.lor_diag. Qed.

Lemma add_member_twice cpu pd : add_member cpu (add_member cpu pd) = add_member cpu pd.
Proof. unfold add_member, set_cpus. simpl. by rewrite cpumask_set_set. Qed.

Lemma with_cpu_pds_same st : with_cpu_pds (cpu_pds st) st = st.
Proof. by destruct st. Qed.

(** A failed generic attach keeps the loop from running at all. *)
Lemma attach_loop_failed fuel ret cpu h x :
  ret ≠ 0 → attach_loop fuel ret cpu h x = Ok h.
Proof.
  intros Hr. destruct fuel, x; simpl; try done;
    by destruct (Z.eqb_spec ret 0).
Qed.

(** The chain only depends on the parent links. *)
Lemma parent_chain_same_links h h1 x l :
  (∀ q, parent <$> h !! q = parent <$> h1 !! q) →
  parent_chain h x l → parent_chain h1 x l.
Proof.
  intros Hlinks. induction 1 as [|q qd l Hq _ IH]; [constructor|].
  pose proof (Hlinks q) as Hq1. rewrite Hq in Hq1. simpl in Hq1.
  destruct (h1 !! q) as [qd1|] eqn:E; [|discriminate].
  injection Hq1 as Hq1. apply (chain_up _ q qd1); [done|]. by rewrite <- Hq1.
Qed.

Lemma add_member_links (h : gmap nat cpu_pm_domain) p pd cpu q :
  h !! p = Some pd →
  parent <$> h !! q = parent <$> <[p := add_member cpu pd]> h !! q.
Proof.
  intros Hp. destruct (decide (p = q)) as [->|Hne].
  - by rewrite lookup_insert_eq, Hp.
  - by rewrite lookup_insert_ne.
Qed.

(** With fuel for the whole chain the loop returns, having added the CPU
    to every domain of the chain and to no other. *)
Lemma attach_loop_chain cpu l : ∀ fuel h x,
  parent_chain h x l → (length l ≤ fuel)%nat →
  ∃ h', attach_loop fuel 0 cpu h x = Ok h' ∧
        (∀ q, q ∈ l → ∃ pd, h !! q = Some pd ∧ h' !! q = Some (add_member cpu pd)) ∧
        (∀ q, q ∉ l → h' !! q = h !! q).
Proof.
  induction l as [|p l IH]; intros fuel h x Hc Hf;
    inversion Hc as [|p' pd l' Hp Hup]; subst.
  - exists h. split; [by destruct fuel|]. split; [|done].
    intros q Hq. by apply elem_of_nil in Hq.
  - destruct fuel as [|fuel]; [simpl in Hf; lia|].
    simpl. unfold deref. rewrite Hp. simpl. fold (add_member cpu pd).
    destruct (IH fuel (<[p := add_member cpu pd]> h) (parent pd))
      as (h' & Hrun & Hin & Hout).
    { eapply parent_chain_same_links; [|exact Hup].
      intros q. by apply add_member_links. }
    { simpl in Hf. lia. }
    exists h'. split; [exact Hrun|]. split.
    + intros q Hq. destruct (decide (q = p)) as [->|Hne].
      * exists pd. split; [done|].
        destruct (decide (p ∈ l)) as [Hpl|Hpl].
        -- destruct (Hin p Hpl) as (pd1 & H1' & H2'). rewrite lookup_insert_eq in H1'.
           injection H1' as <-. by rewrite H2', add_member_twice.
        -- by rewrite (Hout p Hpl), lookup_insert_eq.
      * apply elem_of_cons in Hq as [?|Hq]; [done|].
        destruct (Hin q Hq) as (pd1 & H1' & H2').
        rewrite lookup_insert_ne in H1' by done. by exists pd1.
    + intros q Hq. apply not_elem_of_cons in Hq as [Hne Hq].
      by rewrite (Hout q Hq), lookup_insert_ne.
Qed.

(** A loop that came to its end walked a finite chain. *)
Lemma attach_loop_ok_chain cpu : ∀ fuel h x h',
  attach_loop fuel 0 cpu h x = Ok h' →
  ∃ l, parent_chain h x l ∧ (length l ≤ fuel)%nat.
Proof.
  induction fuel as [|fuel IH]; intros h x h' Hrun.
  - destruct x; [discriminate|]. exists []. split; [constructor|simpl; lia].
  - destruct x as [p|]; [|exists []; split; [constructor|simpl; lia]].
    simpl in Hrun. unfold deref in Hrun.
    destruct (h !! p) as [pd|] eqn:Hp; [|discriminate]. simpl in Hrun.
    fold (add_member cpu pd) in Hrun.
    destruct (IH _ _ _ Hrun) as (l & Hc & Hlen).
    exists (p :: l). split; [|simpl; lia].
    apply (chain_up _ p pd); [done|].
    eapply parent_chain_same_links; [|exact Hc].
    intros q. symmetry. by apply add_member_links.
Qed.

Lemma attach_loop_idem cpu fuel h x h' :
  attach_loop fuel 0 cpu h x = Ok h' → attach_loop fuel 0 cpu h' x = Ok h'.
Proof.
  intros Hrun.
  destruct (attach_loop_ok_chain _ _ _ _ _ Hrun) as (l & Hc & Hlen).
  destruct (attach_loop_chain cpu l fuel h x Hc Hlen) as (h1 & Hrun1 & Hin & Hout).
  rewrite Hrun in Hrun1. injection Hrun1 as <-.
  assert (parent_chain h' x l) as Hc'.
  { eapply parent_chain_same_links; [|exact Hc]. intros q.
    destruct (decide (q ∈ l)) as [Hq|Hq].
    - destruct (Hin q Hq) as (pd & -> & ->). done.
    - by rewrite (Hout q Hq). }
  destruct (attach_loop_chain cpu l fuel h' x Hc' Hlen) as (h2 & Hrun2 & Hin2 & Hout2).
  rewrite Hrun2. f_equal. apply map_eq. intros q.
  destruct (decide (q ∈ l)) as [Hq|Hq].
  - destruct (Hin2 q Hq) as (pd1 & H1 & ->).
    destruct (Hin q Hq) as (pd & _ & H2). rewrite H2 in H1. injection H1 as <-.
    by rewrite add_member_twice.
  - by apply Hout2.
Qed.

Lemma three_levels_chain :
  parent_chain (cpu_pds three_levels) (Some 0%nat) [0%nat; 1%nat; 2%nat].
Proof.
  apply (chain_up _ 0%nat (mk_pd 0 (Some 1%nat) 0)); [reflexivity|].
  apply (chain_up _ 1%nat (mk_pd 1 (Some 2%nat) 0)); [reflexivity|].
  apply (chain_up _ 2%nat (mk_pd 2 None 0)); [reflexivity|]. constructor.
Defined.

(** C4, as the code has it: once the leaf is resolved and the CPU has a
    device, a generic attach that succeeds (returns 0) makes
    [cpu_pd_attach_cpu] add the CPU to the member set of the leaf and of
    every ancestor on the parent chain, and to no other set; a generic
    attach that reports a failure leaves every member set as it was and
    its error code is returned. *)
Theorem cpu_pd_attach_cpu_propagates fuel e leaf cpu st l :
  get_cpu_device e cpu = true →
  parent_chain (cpu_pds st) (Some leaf) l → (length l ≤ fuel)%nat →
  if genpd_dev_pm_attach e cpu =? 0 then
    ∃ st', cpu_pd_attach_cpu fuel e (Some leaf) cpu st = Ok (st', 0) ∧
      leaf ∈ l ∧
      (∀ q, q ∈ l → ∃ pd, cpu_pds st !! q = Some pd ∧
                          cpu_pds st' !! q = Some (add_member cpu pd) ∧
                          cpumask_test_cpu cpu (cpus (add_member cpu pd)) = true) ∧
      (∀ q, q ∉ l → cpu_pds st' !! q = cpu_pds st !! q)
  else
    cpu_pd_attach_cpu fuel e (Some leaf) cpu st = Ok (st, genpd_dev_pm_attach e cpu).
Proof.
  intros Hdev Hc Hlen. unfold cpu_pd_attach_cpu. rewrite Hdev. simpl negb. cbv iota.
  destruct (Z.eqb_spec (genpd_dev_pm_attach e cpu) 0) as [Hr|Hr].
  - rewrite Hr.
    destruct (attach_loop_chain cpu l fuel (cpu_pds st) (Some leaf) Hc Hlen)
      as (h' & Hrun & Hin & Hout).
    rewrite Hrun. simpl. eexists. split; [reflexivity|]. simpl.
    split; [inversion Hc; apply elem_of_cons; by left|]. split; [|exact Hout].
    intros q Hq. destruct (Hin q Hq) as (pd & H1 & H2). exists pd.
    repeat split; try done. apply cpumask_test_set.
  - rewrite attach_loop_failed by done. simpl. by rewrite with_cpu_pds_same.
Qed.

(** CPU 3 attached to the leaf of leaf -> middle -> root. *)
Lemma cpu_pd_attach_cpu_propagates_witness :
  ∃ st', cpu_pd_attach_cpu 8 (quiet_ext 20 0 0 15) (Some 0%nat) 3 three_levels =
           Ok (st', 0) ∧
    0%nat ∈ [0%nat; 1%nat; 2%nat] ∧
    (∀ q, q ∈ [0%nat; 1%nat; 2%nat] →
       ∃ pd, cpu_pds three_levels !! q = Some pd ∧
             cpu_pds st' !! q = Some (add_member 3 pd) ∧
             cpumask_test_cpu 3 (cpus (add_member 3 pd)) = true) ∧
    (∀ q, q ∉ [0%nat; 1%nat; 2%nat] → cpu_pds st' !! q = cpu_pds three_levels !! q).
Proof.
  apply (cpu_pd_attach_cpu_propagates 8 (quiet_ext 20 0 0 15) 0%nat 3 three_levels
           [0%nat; 1%nat; 2%nat]).
  - reflexivity.
  - exact three_levels_chain.
  - simpl. lia.
Defined.

(** C4 as stated fails: the generic attach of CPU 3 reports -EEXIST and
    CPU 3 is put in no member set, neither the leaf's nor an ancestor's. *)
Lemma cpu_pd_attach_cpu_failed_attach_no_members :
  parent_chain (cpu_pds three_levels) (Some 0%nat) [0%nat; 1%nat; 2%nat] ∧
  get_cpu_device busy_ext 3 = true ∧
  genpd_dev_pm_attach busy_ext 3 = -17 ∧
  cpu_pd_attach_cpu 8 busy_ext (Some 0%nat) 3 three_levels = Ok (three_levels, -17) ∧
  members three_levels = [(2%nat, 0); (1%nat, 0); (0%nat, 0)] ∧
  cpumask_test_cpu 3 0 = false.
Proof.
  split; [exact three_levels_chain|].
  vm_compute. repeat split; reflexivity.
Qed.

(** C8: once a CPU is attached to a domain, attaching it again to the
    same domain changes nothing, whatever the device lookup and the
    generic attach answer the second time: every member set, on the
    chain or off it, is as the first attach left it. *)
Theorem cpu_pd_attach_cpu_twice fuel e e' x cpu st st1 :
  cpu_pd_attach_cpu fuel e x cpu st = Ok (st1, 0) →
  ∃ r, cpu_pd_attach_cpu fuel e' x cpu st1 = Ok (st1, r).
Proof.
  unfold cpu_pd_attach_cpu. intros H.
  destruct (get_cpu_device e cpu); simpl in H; [|discriminate].
  destruct (attach_loop fuel (genpd_dev_pm_attach e cpu) cpu (cpu_pds st) x)
    as [h| |] eqn:Hrun; simpl in H; try discriminate.
  injection H as <- Hr. rewrite Hr in Hrun.
  destruct (get_cpu_device e' cpu); simpl; [|by eexists].
  exists (genpd_dev_pm_attach e' cpu).
  destruct (Z.eq_dec (genpd_dev_pm_attach e' cpu) 0) as [Hr'|Hr'].
  - rewrite Hr', (attach_loop_idem _ _ _ _ _ Hrun). reflexivity.
  - rewrite attach_loop_failed by done. reflexivity.
Qed.

Lemma cpu_pd_attach_cpu_twice_witness :
  ∃ r, cpu_pd_attach_cpu 8 (quiet_ext 20 0 0 15) (Some 0%nat) 3 three_levels_cpu3 =
       Ok (three_levels_cpu3, r).
Proof.
  apply (cpu_pd_attach_cpu_twice 8 (quiet_ext 20 0 0 15) (quiet_ext 20 0 0 15)
           (Some 0%nat) 3 three_levels).
  reflexivity.
Defined.

(** ** The batch over the possible CPUs *)





(** ** Registered domains and the lookup *)

Lemma grows_refl st : grows st st.
Proof. split; [done|]. intros q pd H. by exists pd. Qed.

Lemma grows_same st st' :
  of_cpu_pd_list st' = of_cpu_pd_list st → cpu_pds st' = cpu_pds st → grows st st'.
Proof.
  intros Hl Hh. split; [by rewrite Hl|]. intros q pd H. exists pd. by rewrite Hh.
Qed.

Lemma grows_trans st1 st2 st3 : grows st1 st2 → grows st2 st3 → grows st1 st3.
Proof.
  intros [Hl1 Hh1] [Hl2 Hh2]. split; [by auto|].
  intros q pd H. destruct (Hh1 q pd H) as (pd' & H' & Hg').
  destruct (Hh2 q pd' H') as (pd'' & H'' & Hg''). exists pd''. split; [done|congruence].
Qed.

Lemma to_cpu_pd_from_found h l d p :
  to_cpu_pd_from h l d = Ok (Some p) →
  p ∈ l ∧ ∃ pd, h !! p = Some pd ∧ genpd pd = d.
Proof.
  induction l as [|q l IH]; simpl; [discriminate|].
  unfold deref. destruct (h !! q) as [qd|] eqn:Hq; simpl; [|discriminate].
  destruct (Nat.eqb_spec (genpd qd) d) as [Heq|Hne].
  - intros [= <-]. split; [apply elem_of_cons; by left|]. by exists qd.
  - intros H. destruct (IH H) as [Hin Hpd]. split; [apply elem_of_cons; by right|done].
Qed.

Lemma to_cpu_pd_from_registered h l d p pd :
  p ∈ l → h !! p = Some pd → genpd pd = d →
  to_cpu_pd_from h l d ≠ Ok None.
Proof.
  intros Hin Hp Hg. induction l as [|q l IH]; [by apply elem_of_nil in Hin|].
  simpl. unfold deref. destruct (h !! q) as [qd|] eqn:Hq; simpl; [|discriminate].
  destruct (Nat.eqb_spec (genpd qd) d) as [Heq|Hne]; [discriminate|].
  apply IH. apply elem_of_cons in Hin as [->|Hin]; [|done]. congruence.
Qed.

Lemma to_cpu_pd_from_live h l d :
  Forall (fun p => is_Some (h !! p)) l → ∃ r, to_cpu_pd_from h l d = Ok r.
Proof.
  induction 1 as [|q l [qd Hq] _ IH]; simpl; [by eexists|].
  unfold deref. rewrite Hq. simpl. destruct (Nat.eqb _ _); [by eexists|done].
Qed.

Lemma to_cpu_pd_never_null g st : registered g st → to_cpu_pd st g ≠ Ok None.
Proof. intros (p & pd & Hin & Hp & Hg). by eapply to_cpu_pd_from_registered. Qed.

Lemma registered_live_lookup g st :
  registered g st → registry_live st →
  ∃ p pd, to_cpu_pd st g = Ok (Some p) ∧ cpu_pds st !! p = Some pd ∧ genpd pd = g.
Proof.
  intros Hreg Hlive. pose proof (to_cpu_pd_never_null g st Hreg) as Hn.
  destruct (to_cpu_pd_from_live (cpu_pds st) (of_cpu_pd_list st) g Hlive) as [r Hr].
  unfold to_cpu_pd in *. rewrite Hr in *. destruct r as [p|]; [|done].
  apply to_cpu_pd_from_found in Hr as (_ & pd & Hp & Hg). by exists p, pd.
Qed.

(** *** Every function of the file keeps the registrations *)

Lemma attach_loop_genpd cpu : ∀ fuel ret h x h',
  attach_loop fuel ret cpu h x = Ok h' →
  ∀ q pd, h !! q = Some pd → ∃ pd', h' !! q = Some pd' ∧ genpd pd' = genpd pd.
Proof.
  induction fuel as [|fuel IH]; intros ret h x h' Hrun q pd Hq.
  - destruct x; simpl in Hrun; [destruct (ret =? 0)|]; try discriminate;
      injection Hrun as <-; by exists pd.
  - destruct x as [p|]; simpl in Hrun; [|injection Hrun as <-; by exists pd].
    destruct (ret =? 0); [|injection Hrun as <-; by exists pd].
    unfold deref in Hrun. destruct (h !! p) as [pd0|] eqn:Hp; [|discriminate].
    simpl in Hrun. destruct (decide (p = q)) as [->|Hne].
    + rewrite Hq in Hp. injection Hp as <-.
      destruct (IH _ _ _ _ Hrun q (set_cpus (cpumask_set_cpu cpu (cpus pd)) pd))
        as (pd' & H1 & H2); [by rewrite lookup_insert_eq|]. by exists pd'.
    + apply (IH _ _ _ _ Hrun q pd). by rewrite lookup_insert_ne.
Qed.

Lemma cpu_pd_attach_cpu_grows fuel e x cpu st st' r :
  cpu_pd_attach_cpu fuel e x cpu st = Ok (st', r) → grows st st'.
Proof.
  unfold cpu_pd_attach_cpu. intros H.
  destruct (get_cpu_device e cpu); simpl in H; [|injection H as <- _; apply grows_refl].
  destruct (attach_loop _ _ _ _ _) as [h| |] eqn:Hrun; simpl in H; try discriminate.
  injection H as <- _. split; [done|]. simpl. by eapply attach_loop_genpd.
Qed.

Lemma kzalloc_fresh {A} (h : gmap nat A) : h !! kzalloc h = None.
Proof. apply not_elem_of_dom. apply is_fresh. Qed.

(** Whatever way [of_init_cpu_pm_domain] returns, it frees nothing but
    what it allocated itself. *)
Lemma of_init_cpu_pm_domain_grows e dn o st st' r :
  of_init_cpu_pm_domain e dn o st = Ok (st', r) → grows st st'.
Proof.
  unfold of_init_cpu_pm_domain. intros H.
  destruct (of_device_is_available e dn); simpl in H;
    [|injection H as <- _; by apply grows_same].
  destruct (kzalloc_genpd e dn); simpl in H; [|discriminate].
  destruct (kstrndup e dn); simpl in H; [|injection H as <- _; by apply grows_same].
  destruct (kzalloc_pd e dn); simpl in H; [|injection H as <- _; by apply grows_same].
  destruct (zalloc_cpumask_var e dn); simpl in H;
    [|injection H as <- _; by apply grows_same].
  destruct (of_pm_genpd_init e dn _) as [ret gd3].
  assert (∀ q pd, cpu_pds st !! q = Some pd → q ≠ kzalloc (cpu_pds st)) as Hne.
  { intros q pd Hq ->. by rewrite kzalloc_fresh in Hq. }
  destruct (ret =? 0); simpl in H.
  - destruct (of_genpd_add_provider_simple e dn _ =? 0); injection H as <- _.
    all: split; simpl; [intros q Hq; apply elem_of_cons; by right|].
    all: intros q pd Hq; exists pd; split; [|done].
    all: rewrite lookup_insert_ne; [done|]; intros Heq; by apply (Hne q pd Hq).
  - injection H as <- _. split; simpl; [intros q Hq; apply elem_of_cons; by right|].
    intros q pd Hq. exists pd. split; [|done].
    rewrite lookup_delete_ne, lookup_insert_ne; [done| |];
      intros Heq; by apply (Hne q pd Hq).
Qed.

Lemma of_get_cpu_domain_grows e o cpu : ∀ fuel dn st st' r,
  of_get_cpu_domain fuel e dn o cpu st = Ok (st', r) → grows st st'.
Proof.
  induction fuel as [|fuel IH]; intros dn st st' r H; [discriminate|].
  cbn [of_get_cpu_domain] in H.
  destruct (of_genpd_get_from_provider st dn) as [g0|err0].
  { injection H as <- _. apply grows_refl. }
  destruct (of_init_cpu_pm_domain e dn o st) as [[st1 r1]|f|] eqn:Hinit;
    cbn [bind] in H; try discriminate.
  apply of_init_cpu_pm_domain_grows in Hinit.
  destruct r1 as [g|err]; [|injection H as <- _; exact Hinit].
  destruct (of_parse_phandle_with_args e dn) as [np|]; [|injection H as <- _; exact Hinit].
  destruct (of_get_cpu_domain fuel e np o cpu st1) as [[st2 pr]|f|] eqn:Hrec;
    cbn [bind] in H; try discriminate.
  apply IH in Hrec. pose proof (grows_trans _ _ _ Hinit Hrec) as H12.
  destruct pr as [pg|perr]; [|injection H as <- _; exact H12].
  destruct (negb _); [injection H as <- _; exact H12|].
  destruct (to_cpu_pd st2 g) as [c|f|]; cbn [bind] in H; try discriminate.
  destruct (to_cpu_pd st2 pg) as [pp|f|]; cbn [bind] in H; try discriminate.
  destruct c as [c|], pp as [pp|]; try (injection H as <- _; exact H12).
  unfold deref in H. destruct (cpu_pds st2 !! c) as [pd|] eqn:Hc; cbn [bind] in H;
    [|discriminate].
  injection H as <- _. eapply grows_trans; [exact H12|].
  split; [done|]. simpl. intros q qd Hq.
  destruct (decide (c = q)) as [->|Hne].
  - rewrite lookup_insert_eq. eexists. split; [done|]. simpl. congruence.
  - rewrite lookup_insert_ne by done. by exists qd.
Qed.

Lemma of_setup_cpu_pd_single_grows fuel e cpu o st st' r :
  of_setup_cpu_pd_single fuel e cpu o st = Ok (st', r) → grows st st'.
Proof.
  unfold of_setup_cpu_pd_single. intros H.
  destruct (of_get_cpu_node e cpu) as [cpu_dn|]; [|injection H as <- _; apply grows_refl].
  destruct (of_parse_phandle e cpu_dn) as [dn|]; [|injection H as <- _; apply grows_refl].
  destruct (of_get_cpu_domain fuel e dn o cpu st) as [[st1 r1]|f|] eqn:Hget;
    cbn [bind] in H; try discriminate.
  apply of_get_cpu_domain_grows in Hget.
  destruct r1 as [g|err]; [|injection H as <- _; exact Hget].
  destruct (to_cpu_pd st1 g) as [[p|]|f|]; cbn [bind] in H; try discriminate.
  - apply cpu_pd_attach_cpu_grows in H. by eapply grows_trans.
  - injection H as <- _. exact Hget.
Qed.

Lemma of_setup_cpu_pd_loop_grows fuel e o todo : ∀ ret st st' r,
  of_setup_cpu_pd_loop fuel e o todo ret st = Ok (st', r) → grows st st'.
Proof.
  induction todo as [|cpu todo IH]; intros ret st st' r H.
  - injection H as <- _. apply grows_refl.
  - cbn [of_setup_cpu_pd_loop] in H.
    destruct (of_setup_cpu_pd_single fuel e cpu o st) as [[st1 r1]|f|] eqn:Hone;
      cbn [bind] in H; try discriminate.
    apply of_setup_cpu_pd_single_grows in Hone.
    destruct (negb _); [injection H as <- _; exact Hone|].
    apply IH in H. by eapply grows_trans.
Qed.

(** C10, the code at the failing input.  At boot
    [of_init_cpu_pm_domain] creates and registers the domain of node 10:
    it returns genpd 0, [to_cpu_pd] finds the entry and
    [cpu_pd_power_on] and [cpu_pd_power_off] return.  Then
    [of_init_cpu_pm_domain] is called for node 11 and [of_pm_genpd_init]
    answers -22.  The [fail] path frees the entry that [list_add_rcu]
    has linked at the head of [of_cpu_pd_list] and does not unlink it.
    The entry of genpd 0 is still allocated and linked, but from then
    on the lookup for genpd 0 reads the freed head before it reaches
    it: [to_cpu_pd], [cpu_pd_power_on] and [cpu_pd_power_off] use freed
    memory. *)
Lemma of_init_cpu_pm_domain_freed_entry_stays_linked :
  of_init_cpu_pm_domain (quiet_ext 20 0 0 15) 10%nat no_ops boot_state =
    Ok (booted, Ptr 0%nat) ∧
  of_cpu_pd_list booted = [0%nat] ∧
  to_cpu_pd booted 0%nat = Ok (Some 0%nat) ∧
  cpu_pd_power_on 0%nat booted = Ok 0 ∧
  cpu_pd_power_off 0%nat booted = Ok 0 ∧
  of_init_cpu_pm_domain (fail_ext true (-22)) 11%nat no_ops booted =
    Ok (booted_then_failed, ErrPtr (-22)) ∧
  of_cpu_pd_list booted_then_failed = [1%nat; 0%nat] ∧
  cpu_pds booted_then_failed !! 1%nat = None ∧
  genpd <$> cpu_pds booted_then_failed !! 0%nat = Some 0%nat ∧
  to_cpu_pd booted_then_failed 0%nat = Fault Dangling ∧
  cpu_pd_power_on 0%nat booted_then_failed = Fault Dangling ∧
  cpu_pd_power_off 0%nat booted_then_failed = Fault Dangling.
Proof. vm_compute. repeat split; reflexivity. Qed.

(** * Further properties *)

(** ** Facts about the scenarios *)

Lemma three_levels_registered : registered 0%nat three_levels.
Proof.
  exists 0%nat, (mk_pd 0 (Some 1%nat) 0). repeat split.
  apply elem_of_cons; right. apply elem_of_cons; right. apply elem_of_cons; by left.
Defined.

Lemma three_levels_live : registry_live three_levels.
Proof. repeat constructor; by eexists. Defined.

Lemma booted_all_steps : rtc kstep boot_state booted_all.
Proof.
  apply rtc_once.
  apply (step_setup 8 (quiet_ext 20 0 0 15) no_ops boot_state booted_all 0).
  reflexivity.
Defined.


Lemma sim_dt_chain :
  dt_chain (quiet_ext 20 0 0 15) 10%nat [10%nat; 11%nat; 12%nat].
Proof.
  apply dt_up with 11%nat; [reflexivity|].
  apply dt_up with 12%nat; [reflexivity|].
  apply dt_top. reflexivity.
Defined.

(** ** The lookup [to_cpu_pd] *)

Lemma to_cpu_pd_from_first h l d p :
  to_cpu_pd_from h l d = Ok (Some p) →
  ∃ l1 l2 pd, l = l1 ++ p :: l2 ∧ h !! p = Some pd ∧ genpd pd = d ∧
    ∀ q, q ∈ l1 → ∃ qd, h !! q = Some qd ∧ genpd qd ≠ d.
Proof.
  induction l as [|q l IH]; simpl; [discriminate|].
  unfold deref. destruct (h !! q) as [qd|] eqn:Hq; simpl; [|discriminate].
  destruct (Nat.eqb_spec (genpd qd) d) as [Heq|Hne].
  - intros [= <-]. exists [], l, qd. repeat split; try done.
    intros q' Hq'. by apply elem_of_nil in Hq'.
  - intros H. destruct (IH H) as (l1 & l2 & pd & -> & Hp & Hg & Hbefore).
    exists (q :: l1), l2, pd. repeat split; try done.
    intros q' Hq'. apply elem_of_cons in Hq' as [->|Hq']; [by exists qd|by apply Hbefore].
Qed.

(** X1: the entry [to_cpu_pd] returns is on [of_cpu_pd_list], is allocated
    and points to the genpd asked for, and it is the first such entry:
    every entry linked before it (registered later, since [list_add_rcu]
    adds at the head) is allocated and points to another genpd. *)
Theorem to_cpu_pd_first_match st d p :
  to_cpu_pd st d = Ok (Some p) →
  ∃ l1 l2 pd, of_cpu_pd_list st = l1 ++ p :: l2 ∧
    cpu_pds st !! p = Some pd ∧ genpd pd = d ∧
    ∀ q, q ∈ l1 → ∃ qd, cpu_pds st !! q = Some qd ∧ genpd qd ≠ d.
Proof. apply to_cpu_pd_from_first. Qed.

Lemma to_cpu_pd_first_match_witness :
  ∃ l1 l2 pd, of_cpu_pd_list three_levels = l1 ++ 1%nat :: l2 ∧
    cpu_pds three_levels !! 1%nat = Some pd ∧ genpd pd = 1%nat ∧
    ∀ q, q ∈ l1 → ∃ qd, cpu_pds three_levels !! q = Some qd ∧ genpd qd ≠ 1%nat.
Proof. apply (to_cpu_pd_first_match three_levels 1%nat 1%nat). reflexivity. Defined.

Lemma to_cpu_pd_from_none h l d :
  to_cpu_pd_from h l d = Ok None ↔
  ∀ q, q ∈ l → ∃ qd, h !! q = Some qd ∧ genpd qd ≠ d.
Proof.
  induction l as [|q l IH]; simpl.
  - split; [|done]. intros _ q Hq. by apply elem_of_nil in Hq.
  - unfold deref. destruct (h !! q) as [qd|] eqn:Hq; simpl.
    + destruct (Nat.eqb_spec (genpd qd) d) as [Heq|Hne].
      * split; [discriminate|]. intros H.
        destruct (H q) as (qd' & Hq' & Hne); [apply elem_of_cons; by left|].
        congruence.
      * rewrite IH. split.
        -- intros H q' Hq'. apply elem_of_cons in Hq' as [->|Hq']; [by exists qd|by apply H].
        -- intros H q' Hq'. apply H. apply elem_of_cons. by right.
    + split; [discriminate|]. intros H.
      destruct (H q) as (qd' & Hq' & _); [apply elem_of_cons; by left|]. congruence.
Qed.

(** X2: [to_cpu_pd] returns NULL exactly when every entry of
    [of_cpu_pd_list] is allocated and points to another genpd. *)
Theorem to_cpu_pd_null_iff st d :
  to_cpu_pd st d = Ok None ↔
  ∀ q, q ∈ of_cpu_pd_list st → ∃ qd, cpu_pds st !! q = Some qd ∧ genpd qd ≠ d.
Proof. apply to_cpu_pd_from_none. Qed.

(** ** The decision of [cpu_pd_down_ok] *)

(** A call that returns went through the lookups. *)
Lemma cpu_pd_down_ok_cases e g st st' b :
  cpu_pd_down_ok e g st = Ok (st', b) →
  ∃ r gd, to_cpu_pd st g = Ok r ∧ genpds st !! g = Some gd ∧
    ((pm_qos_request e = 0 ∧ b = false ∧
      st' = with_genpds (<[g := set_state_idx 0 gd]> (genpds st)) st) ∨
     (pm_qos_request e ≠ 0 ∧
      ∃ p pd, r = Some p ∧ cpu_pds st !! p = Some pd ∧
        ((sleep_ns_of e (cpus pd) ≤ 0 ∧ b = false ∧
          st' = with_genpds (<[g := set_state_idx 0 gd]> (genpds st)) st) ∨
         (0 < sleep_ns_of e (cpus pd) ∧
          let i := down_ok_loop (states gd) (sleep_ns_of e (cpus pd))
                     (pm_qos_request e) (state_count gd) in
          b = (i >=? 0) ∧
          st' = with_genpds
                  (<[g := set_state_idx (if i >=? 0 then i else 0) gd]> (genpds st)) st)))).
Proof.
  unfold cpu_pd_down_ok. intros H.
  destruct (to_cpu_pd st g) as [r|f|]; simpl in H; try discriminate.
  unfold deref in H.
  destruct (genpds st !! g) as [gd|] eqn:Hg; simpl in H; [|discriminate].
  exists r, gd. split; [done|]. split; [done|].
  destruct (Z.eqb_spec (pm_qos_request e) 0) as [Hq|Hq].
  { left. by injection H as <- <-. }
  right. split; [done|].
  destruct r as [p|]; simpl in H; [|discriminate]. unfold deref in H.
  destruct (cpu_pds st !! p) as [pd|] eqn:Hp; simpl in H; [|discriminate].
  exists p, pd. split; [done|]. split; [done|].
  destruct (Z.leb_spec (sleep_ns_of e (cpus pd)) 0) as [Hs|Hs].
  { left. by injection H as <- <-. }
  right. split; [done|]. cbv zeta.
  destruct (_ >=? 0); by injection H as <- <-.
Qed.



(** X4: whenever [cpu_pd_down_ok] returns false, [state_idx] is set to 0
    and one of three things holds: the tolerance is 0, the sleep window
    is 0, or no state of the table has a total cost that fits the window
    and is below the tolerance. *)
Theorem cpu_pd_down_ok_veto e g st st' :
  cpu_pd_down_ok e g st = Ok (st', false) →
  ∃ gd, genpds st !! g = Some gd ∧
    st' = with_genpds (<[g := set_state_idx 0 gd]> (genpds st)) st ∧
    (pm_qos_request e = 0 ∨
     ∃ p pd, to_cpu_pd st g = Ok (Some p) ∧ cpu_pds st !! p = Some pd ∧
       (sleep_ns_of e (cpus pd) = 0 ∨
        ∀ s, s ∈ states gd →
          ¬ (state_sleep_ns s ≤ sleep_ns_of e (cpus pd) ∧
             state_sleep_ns s < qos_limit_ns (pm_qos_request e)))).
Proof.
  intros H.
  destruct (cpu_pd_down_ok_cases _ _ _ _ _ H)
    as (r & gd & Hl & Hg & [(Hq & _ & ->)|(Hq & p & pd & -> & Hp & [(Hs & _ & ->)|(Hs & Hb & ->)])]).
  - exists gd. repeat split; try done. by left.
  - exists gd. repeat split; try done. right. exists p, pd. repeat split; try done.
    left. assert (0 ≤ sleep_ns_of e (cpus pd)); [|lia].
    unfold sleep_ns_of, to_u64. apply Z.mod_pos_bound. lia.
  - cbv zeta in *. unfold state_count in *.
    destruct (down_ok_loop_inv (states gd) (sleep_ns_of e (cpus pd)) (pm_qos_request e)
                (length (states gd))) as [[Hm Hall]|(i & Hi & Hr & Ht & Hn)].
    + rewrite Hm. simpl. exists gd. repeat split; try done. right.
      exists p, pd. repeat split; try done. right. intros s Hin Hacc.
      apply list_elem_of_lookup in Hin as [i Hi].
      apply (state_taken_lookup _ _ _ _ _ Hi) in Hacc.
      rewrite Hall in Hacc; [done|]. by eapply lookup_lt_Some.
    + rewrite Hr in Hb. destruct (Z.geb_spec (Z.of_nat i) 0); [discriminate|lia].
Qed.

Lemma cpu_pd_down_ok_veto_witness :
  ∃ gd, genpds (one_domain tbl_100 1) !! 0%nat = Some gd ∧
    one_domain_vetoed =
      with_genpds (<[0%nat := set_state_idx 0 gd]> (genpds (one_domain tbl_100 1)))
        (one_domain tbl_100 1) ∧
    (pm_qos_request (quiet_ext 20 1000 0 0) = 0 ∨
     ∃ p pd, to_cpu_pd (one_domain tbl_100 1) 0%nat = Ok (Some p) ∧
       cpu_pds (one_domain tbl_100 1) !! p = Some pd ∧
       (sleep_ns_of (quiet_ext 20 1000 0 0) (cpus pd) = 0 ∨
        ∀ s, s ∈ states gd →
          ¬ (state_sleep_ns s ≤ sleep_ns_of (quiet_ext 20 1000 0 0) (cpus pd) ∧
             state_sleep_ns s < qos_limit_ns (pm_qos_request (quiet_ext 20 1000 0 0))))).
Proof.
  apply (cpu_pd_down_ok_veto (quiet_ext 20 1000 0 0) 0%nat (one_domain tbl_100 1)
           one_domain_vetoed).
  reflexivity.
Defined.

(** X5: a genpd with no idle state ([state_count] 0) is never allowed
    to power down: every call of [cpu_pd_down_ok] that returns answers
    false and sets [state_idx] to 0. *)
Theorem cpu_pd_down_ok_empty_table e g st st' b gd :
  genpds st !! g = Some gd → states gd = [] →
  cpu_pd_down_ok e g st = Ok (st', b) →
  b = false ∧ st' = with_genpds (<[g := set_state_idx 0 gd]> (genpds st)) st.
Proof.
  intros Hg Hempty H.
  destruct (cpu_pd_down_ok_cases _ _ _ _ _ H)
    as (r & gd' & Hl & Hg' & Hcases).
  rewrite Hg in Hg'. injection Hg' as <-.
  destruct Hcases as [(Hq & -> & ->)|(Hq & p & pd & -> & Hp & [(Hs & -> & ->)|(Hs & Hb & ->)])];
    try done.
  cbv zeta in *. unfold state_count in *. rewrite Hempty in *. simpl in *. by subst b.
Qed.

Lemma cpu_pd_down_ok_empty_table_witness :
  false = false ∧
  state_after boot_state
    (cpu_pd_down_ok (quiet_ext 20 1000 151000 1) 0%nat (one_domain [] 3)) =
  with_genpds (<[0%nat := set_state_idx 0 (mk_genpd [] 3)]> (genpds (one_domain [] 3)))
    (one_domain [] 3).
Proof.
  apply (cpu_pd_down_ok_empty_table (quiet_ext 20 1000 151000 1) 0%nat (one_domain [] 3)
           _ false (mk_genpd [] 3)); reflexivity.
Defined.

(** X6: for a genpd that no entry of [of_cpu_pd_list] points to,
    [to_cpu_pd] returns NULL and the three callers use it unchecked:
    [cpu_pd_power_on] and [cpu_pd_power_off] dereference NULL, and so
    does [cpu_pd_down_ok] unless the tolerance is 0 (it then returns
    before it reads [pd->cpus]). *)
Theorem unregistered_genpd_null_deref e g st gd :
  to_cpu_pd st g = Ok None → genpds st !! g = Some gd →
  (pm_qos_request e ≠ 0 → cpu_pd_down_ok e g st = Fault NullDeref) ∧
  cpu_pd_power_on g st = Fault NullDeref ∧
  cpu_pd_power_off g st = Fault NullDeref.
Proof.
  intros Hl Hg. repeat split.
  - intros Hq. unfold cpu_pd_down_ok. rewrite Hl. simpl. unfold deref. rewrite Hg. simpl.
    by destruct (Z.eqb_spec (pm_qos_request e) 0).
  - unfold cpu_pd_power_on. by rewrite Hl.
  - unfold cpu_pd_power_off. by rewrite Hl.
Qed.

Lemma unregistered_genpd_null_deref_witness :
  (pm_qos_request (quiet_ext 20 1000 151000 1) ≠ 0 →
   cpu_pd_down_ok (quiet_ext 20 1000 151000 1) 5%nat foreign_state = Fault NullDeref) ∧
  cpu_pd_power_on 5%nat foreign_state = Fault NullDeref ∧
  cpu_pd_power_off 5%nat foreign_state = Fault NullDeref.
Proof.
  apply (unregistered_genpd_null_deref (quiet_ext 20 1000 151000 1) 5%nat foreign_state
           (mk_genpd tbl_10_30_100 0)); reflexivity.
Defined.






Lemma earliest_fold_spec (f : nat → Z) l : ∀ init,
  let r := fold_left (fun earliest cpu => if earliest >? f cpu then f cpu else earliest)
             l init in
  r ≤ init ∧ (∀ cpu, cpu ∈ l → r ≤ f cpu) ∧ (r = init ∨ ∃ cpu, cpu ∈ l ∧ r = f cpu).
Proof.
  induction l as [|c l IH]; intros init; simpl.
  - repeat split; [lia| |by left]. intros cpu Hc. by apply elem_of_nil in Hc.
  - destruct (IH (if init >? f c then f c else init)) as (Hle & Hall & Hatt).
    destruct (Z.gtb_spec init (f c)) as [Hgt|Hgt].
    + repeat split; [lia| |].
      * intros cpu Hc. apply elem_of_cons in Hc as [->|Hc]; [done|by apply Hall].
      * right. destruct Hatt as [->|(cpu & Hc & ->)].
        -- exists c. split; [apply elem_of_cons; by left|done].
        -- exists cpu. split; [apply elem_of_cons; by right|done].
    + repeat split; [lia| |].
      * intros cpu Hc. apply elem_of_cons in Hc as [->|Hc]; [lia|by apply Hall].
      * destruct Hatt as [->|(cpu & Hc & ->)]; [by left|].
        right. exists cpu. split; [apply elem_of_cons; by right|done].
Qed.

Lemma for_each_cpu_and_elem nr m1 m2 cpu :
  cpu ∈ for_each_cpu_and nr m1 m2 ↔
  (cpu < nr)%nat ∧ cpumask_test_cpu cpu m1 = true ∧ cpumask_test_cpu cpu m2 = true.
Proof.
  unfold for_each_cpu_and. rewrite list_elem_of_In, filter_In, in_seq, andb_true_iff.
  intuition lia.
Qed.

(** X8: the [earliest_wakeup] that [cpu_pd_down_ok] computes is at most
    [KTIME_MAX], is at most the next wakeup of every member CPU that is
    online, and is either [KTIME_MAX] or the next wakeup of such a
    CPU. *)
Theorem earliest_wakeup_least e members :
  earliest_wakeup e members ≤ KTIME_MAX ∧
  (∀ cpu, (cpu < nr_cpu_ids e)%nat →
     cpumask_test_cpu cpu members = true →
     cpumask_test_cpu cpu (cpu_online_mask e) = true →
     earliest_wakeup e members ≤ tick_nohz_get_next_wakeup e cpu) ∧
  (earliest_wakeup e members = KTIME_MAX ∨
   ∃ cpu, (cpu < nr_cpu_ids e)%nat ∧
     cpumask_test_cpu cpu members = true ∧
     cpumask_test_cpu cpu (cpu_online_mask e) = true ∧
     earliest_wakeup e members = tick_nohz_get_next_wakeup e cpu).
Proof.
  unfold earliest_wakeup.
  destruct (earliest_fold_spec (tick_nohz_get_next_wakeup e)
              (for_each_cpu_and (nr_cpu_ids e) members (cpu_online_mask e))
              (ktime_set KTIME_SEC_MAX 0)) as (Hle & Hall & Hatt).
  change (ktime_set KTIME_SEC_MAX 0) with KTIME_MAX in *.
  split; [exact Hle|]. split.
  - intros cpu Hn Hm Ho. apply Hall. by apply for_each_cpu_and_elem.
  - destruct Hatt as [?|(cpu & Hc & Heq)]; [by left|]. right.
    apply for_each_cpu_and_elem in Hc as (? & ? & ?). by exists cpu.
Qed.

Lemma to_u64_to_s64 z : to_u64 (to_s64 z) = to_u64 z.
Proof.
  unfold to_u64, to_s64.
  rewrite <- Zminus_mod_idemp_l, Z.mod_mod by lia.
  rewrite Zminus_mod_idemp_l.
  replace (z + 2 ^ 63 - 2 ^ 63) with z by lia. done.
Qed.

(** X9: with 64-bit times, the test [sleep_ns <= 0] of
    [cpu_pd_down_ok] on the u64 [sleep_ns] fires exactly when the
    earliest wakeup equals the current time; no earliest wakeup in the
    past makes it fire. *)
Theorem sleep_ns_zero_iff e members :
  - 2 ^ 63 ≤ earliest_wakeup e members < 2 ^ 63 →
  - 2 ^ 63 ≤ ktime_get e < 2 ^ 63 →
  (sleep_ns_of e members <=? 0) = true ↔ earliest_wakeup e members = ktime_get e.
Proof.
  intros He Hn. unfold sleep_ns_of, ktime_to_ns, ktime_sub. rewrite to_u64_to_s64.
  rewrite Z.leb_le. unfold to_u64.
  pose proof (Z.mod_pos_bound (earliest_wakeup e members - ktime_get e) (2 ^ 64)) as Hb.
  split.
  - intros H0. assert ((earliest_wakeup e members - ktime_get e) mod 2 ^ 64 = 0) as Hz by lia.
    apply Z.mod_divide in Hz; [|lia]. destruct Hz as [k Hk].
    assert (k = 0) by lia. lia.
  - intros ->. rewrite Z.sub_diag. done.
Qed.

Lemma sleep_ns_zero_iff_witness :
  (sleep_ns_of (quiet_ext 20 1000 500 1) 1 <=? 0) = true ↔
  earliest_wakeup (quiet_ext 20 1000 500 1) 1 = ktime_get (quiet_ext 20 1000 500 1).
Proof.
  apply (sleep_ns_zero_iff (quiet_ext 20 1000 500 1) 1).
  - vm_compute. split; [discriminate|reflexivity].
  - vm_compute. split; [discriminate|reflexivity].
Defined.

(** X10: for a registered domain whose list entries and genpd are
    allocated, [cpu_pd_down_ok] returns a decision, whatever the
    platform answers: it neither dereferences NULL nor reads freed
    memory. *)
Theorem cpu_pd_down_ok_returns e g st gd :
  registered g st → registry_live st → genpds st !! g = Some gd →
  ∃ st' b, cpu_pd_down_ok e g st = Ok (st', b).
Proof.
  intros Hreg Hlive Hg.
  destruct (registered_live_lookup g st Hreg Hlive) as (p & pd & Hl & Hp & _).
  unfold cpu_pd_down_ok. rewrite Hl. simpl. unfold deref. rewrite Hg. simpl.
  destruct (_ =? 0); [by eexists _, _|]. rewrite Hp. simpl.
  destruct (_ <=? 0); [by eexists _, _|].
  destruct (_ >=? 0); by eexists _, _.
Qed.

Lemma cpu_pd_down_ok_returns_witness :
  ∃ st' b, cpu_pd_down_ok (quiet_ext 20 1000 151000 1) 0%nat three_levels = Ok (st', b).
Proof.
  apply (cpu_pd_down_ok_returns (quiet_ext 20 1000 151000 1) 0%nat three_levels
           (mk_genpd tbl_10_30_100 0)).
  - exact three_levels_registered.
  - exact three_levels_live.
  - reflexivity.
Defined.

(** ** Attaching: termination and members *)

(** X11: when the CPU has a device and the generic attach succeeds,
    [cpu_pd_attach_cpu] returns 0 within [fuel] iterations of its
    [while] loop exactly when the parent pointers from the domain reach
    NULL through at most [fuel] allocated domains; a dangling or cyclic
    parent pointer keeps it from returning. *)
Theorem cpu_pd_attach_cpu_returns_iff fuel e x cpu st :
  get_cpu_device e cpu = true → genpd_dev_pm_attach e cpu = 0 →
  (∃ st', cpu_pd_attach_cpu fuel e x cpu st = Ok (st', 0)) ↔
  (∃ l, parent_chain (cpu_pds st) x l ∧ (length l ≤ fuel)%nat).
Proof.
  intros Hdev Hret. unfold cpu_pd_attach_cpu. rewrite Hdev, Hret. simpl. split.
  - intros [st' H].
    destruct (attach_loop fuel 0 cpu (cpu_pds st) x) as [h| |] eqn:Hrun; try discriminate.
    by eapply attach_loop_ok_chain.
  - intros (l & Hc & Hlen).
    destruct (attach_loop_chain cpu l fuel (cpu_pds st) x Hc Hlen) as (h' & -> & _).
    by eexists.
Qed.

Lemma cpu_pd_attach_cpu_returns_iff_witness :
  (∃ st', cpu_pd_attach_cpu 2 (quiet_ext 20 0 0 15) (Some 0%nat) 3 three_levels =
            Ok (st', 0)) ↔
  (∃ l, parent_chain (cpu_pds three_levels) (Some 0%nat) l ∧ (length l ≤ 2)%nat).
Proof.
  apply (cpu_pd_attach_cpu_returns_iff 2 (quiet_ext 20 0 0 15) (Some 0%nat) 3 three_levels);
    reflexivity.
Defined.

Lemma keeps_members_refl st : keeps_members st st.
Proof. intros q pd H. by exists pd. Qed.

Lemma keeps_members_same st st' : cpu_pds st' = cpu_pds st → keeps_members st st'.
Proof. intros Hh q pd H. exists pd. by rewrite Hh. Qed.

Lemma keeps_members_trans st1 st2 st3 :
  keeps_members st1 st2 → keeps_members st2 st3 → keeps_members st1 st3.
Proof.
  intros H1 H2 q pd H. destruct (H1 q pd H) as (pd' & H' & Hg' & Ho' & Hm').
  destruct (H2 q pd' H') as (pd'' & H'' & Hg'' & Ho'' & Hm''). exists pd''.
  repeat split; [done|congruence|congruence|]. intros c Hc. by apply Hm'', Hm'.
Qed.

Lemma cpumask_test_set_keeps cpu c m :
  cpumask_test_cpu c m = true → cpumask_test_cpu c (cpumask_set_cpu cpu m) = true.
Proof.
  unfold cpumask_test_cpu, cpumask_set_cpu. rewrite Z.lor_spec. intros ->. done.
Qed.

Lemma attach_loop_keeps cpu : ∀ fuel ret h x h',
  attach_loop fuel ret cpu h x = Ok h' →
  ∀ q pd, h !! q = Some pd →
    ∃ pd', h' !! q = Some pd' ∧ genpd pd' = genpd pd ∧ ops pd' = ops pd ∧
      ∀ c, cpumask_test_cpu c (cpus pd) = true → cpumask_test_cpu c (cpus pd') = true.
Proof.
  induction fuel as [|fuel IH]; intros ret h x h' Hrun q pd Hq.
  - destruct x; simpl in Hrun; [destruct (ret =? 0)|]; try discriminate;
      injection Hrun as <-; by exists pd.
  - destruct x as [p|]; simpl in Hrun; [|injection Hrun as <-; by exists pd].
    destruct (ret =? 0); [|injection Hrun as <-; by exists pd].
    unfold deref in Hrun. destruct (h !! p) as [pd0|] eqn:Hp; [|discriminate].
    simpl in Hrun. destruct (decide (p = q)) as [->|Hne].
    + rewrite Hq in Hp. injection Hp as <-.
      destruct (IH _ _ _ _ Hrun q (set_cpus (cpumask_set_cpu cpu (cpus pd)) pd))
        as (pd' & H1 & H2 & H3 & H4); [by rewrite lookup_insert_eq|].
      exists pd'. repeat split; try done. intros c Hc. apply H4. simpl.
      by apply cpumask_test_set_keeps.
    + apply (IH _ _ _ _ Hrun q pd). by rewrite lookup_insert_ne.
Qed.

Lemma cpu_pd_attach_cpu_keeps fuel e x cpu st st' r :
  cpu_pd_attach_cpu fuel e x cpu st = Ok (st', r) → keeps_members st st'.
Proof.
  unfold cpu_pd_attach_cpu. intros H.
  destruct (get_cpu_device e cpu); simpl in H;
    [|injection H as <- _; apply keeps_members_refl].
  destruct (attach_loop _ _ _ _ _) as [h| |] eqn:Hrun; simpl in H; try discriminate.
  injection H as <- _. intros q pd Hq. simpl. by eapply attach_loop_keeps.
Qed.

Lemma of_init_cpu_pm_domain_keeps e dn o st st' r :
  of_init_cpu_pm_domain e dn o st = Ok (st', r) → keeps_members st st'.
Proof.
  unfold of_init_cpu_pm_domain. intros H.
  destruct (of_device_is_available e dn); simpl in H;
    [|injection H as <- _; by apply keeps_members_same].
  destruct (kzalloc_genpd e dn); simpl in H; [|discriminate].
  destruct (kstrndup e dn); simpl in H; [|injection H as <- _; by apply keeps_members_same].
  destruct (kzalloc_pd e dn); simpl in H; [|injection H as <- _; by apply keeps_members_same].
  destruct (zalloc_cpumask_var e dn); simpl in H;
    [|injection H as <- _; by apply keeps_members_same].
  destruct (of_pm_genpd_init e dn _) as [ret gd3].
  assert (∀ q pd, cpu_pds st !! q = Some pd → q ≠ kzalloc (cpu_pds st)) as Hne.
  { intros q pd Hq ->. by rewrite kzalloc_fresh in Hq. }
  destruct (ret =? 0); simpl in H.
  - destruct (of_genpd_add_provider_simple e dn _ =? 0); injection H as <- _.
    all: intros q pd Hq; exists pd; split; [|done]; simpl.
    all: rewrite lookup_insert_ne; [done|]; intros Heq; by apply (Hne q pd Hq).
  - injection H as <- _. intros q pd Hq. exists pd. split; [|done]. simpl.
    rewrite lookup_delete_ne, lookup_insert_ne; [done| |];
      intros Heq; by apply (Hne q pd Hq).
Qed.

Lemma of_get_cpu_domain_keeps e o cpu : ∀ fuel dn st st' r,
  of_get_cpu_domain fuel e dn o cpu st = Ok (st', r) → keeps_members st st'.
Proof.
  induction fuel as [|fuel IH]; intros dn st st' r H; [discriminate|].
  cbn [of_get_cpu_domain] in H.
  destruct (of_genpd_get_from_provider st dn) as [g0|err0].
  { injection H as <- _. apply keeps_members_refl. }
  destruct (of_init_cpu_pm_domain e dn o st) as [[st1 r1]|f|] eqn:Hinit;
    cbn [bind] in H; try discriminate.
  apply of_init_cpu_pm_domain_keeps in Hinit.
  destruct r1 as [g|err]; [|injection H as <- _; exact Hinit].
  destruct (of_parse_phandle_with_args e dn) as [np|]; [|injection H as <- _; exact Hinit].
  destruct (of_get_cpu_domain fuel e np o cpu st1) as [[st2 pr]|f|] eqn:Hrec;
    cbn [bind] in H; try discriminate.
  apply IH in Hrec. pose proof (keeps_members_trans _ _ _ Hinit Hrec) as H12.
  destruct pr as [pg|perr]; [|injection H as <- _; exact H12].
  destruct (negb _); [injection H as <- _; exact H12|].
  destruct (to_cpu_pd st2 g) as [c|f|]; cbn [bind] in H; try discriminate.
  destruct (to_cpu_pd st2 pg) as [pp|f|]; cbn [bind] in H; try discriminate.
  destruct c as [c|], pp as [pp|]; try (injection H as <- _; exact H12).
  unfold deref in H. destruct (cpu_pds st2 !! c) as [pd|] eqn:Hc; cbn [bind] in H;
    [|discriminate].
  injection H as <- _. eapply keeps_members_trans; [exact H12|].
  intros q qd Hq. simpl.
  destruct (decide (c = q)) as [->|Hne].
  - rewrite lookup_insert_eq. eexists. split; [done|]. simpl.
    rewrite Hq in Hc. injection Hc as <-. done.
  - rewrite lookup_insert_ne by done. by exists qd.
Qed.

Lemma of_setup_cpu_pd_single_keeps fuel e cpu o st st' r :
  of_setup_cpu_pd_single fuel e cpu o st = Ok (st', r) → keeps_members st st'.
Proof.
  unfold of_setup_cpu_pd_single. intros H.
  destruct (of_get_cpu_node e cpu) as [cpu_dn|];
    [|injection H as <- _; apply keeps_members_refl].
  destruct (of_parse_phandle e cpu_dn) as [dn|];
    [|injection H as <- _; apply keeps_members_refl].
  destruct (of_get_cpu_domain fuel e dn o cpu st) as [[st1 r1]|f|] eqn:Hget;
    cbn [bind] in H; try discriminate.
  apply of_get_cpu_domain_keeps in Hget.
  destruct r1 as [g|err]; [|injection H as <- _; exact Hget].
  destruct (to_cpu_pd st1 g) as [[p|]|f|]; cbn [bind] in H; try discriminate.
  - apply cpu_pd_attach_cpu_keeps in H. by eapply keeps_members_trans.
  - injection H as <- _. exact Hget.
Qed.

Lemma of_setup_cpu_pd_loop_keeps fuel e o todo : ∀ ret st st' r,
  of_setup_cpu_pd_loop fuel e o todo ret st = Ok (st', r) → keeps_members st st'.
Proof.
  induction todo as [|cpu todo IH]; intros ret st st' r H.
  - injection H as <- _. apply keeps_members_refl.
  - cbn [of_setup_cpu_pd_loop] in H.
    destruct (of_setup_cpu_pd_single fuel e cpu o st) as [[st1 r1]|f|] eqn:Hone;
      cbn [bind] in H; try discriminate.
    apply of_setup_cpu_pd_single_keeps in Hone.
    destruct (negb _); [injection H as <- _; exact Hone|].
    apply IH in H. by eapply keeps_members_trans.
Qed.

Lemma kstep_keeps st st' : kstep st st' → keeps_members st st'.
Proof.
  destruct 1.
  - destruct (cpu_pd_down_ok_inv _ _ _ _ _ H) as (gd & i & _ & ->).
    by apply keeps_members_same.
  - by eapply cpu_pd_attach_cpu_keeps.
  - by eapply of_init_cpu_pm_domain_keeps.
  - by eapply of_get_cpu_domain_keeps.
  - by eapply of_setup_cpu_pd_single_keeps.
  - by eapply of_setup_cpu_pd_loop_keeps.
Qed.

(** X12: no function of the file ever removes a CPU from a domain's
    [cpus] mask, nor changes the genpd or the callbacks of an allocated
    domain: across any sequence of calls every allocated domain stays
    allocated with the same genpd and callbacks and at least the members
    it had. *)
Theorem members_never_removed st st' :
  rtc kstep st st' → keeps_members st st'.
Proof.
  induction 1 as [|st1 st2 st3 Hstep _ IH]; [apply keeps_members_refl|].
  eapply keeps_members_trans; [by apply kstep_keeps|exact IH].
Qed.

(** From three set-up CPUs to four. *)
Lemma members_never_removed_witness : keeps_members booted_cpu013 booted_cpu0123.
Proof.
  apply (members_never_removed booted_cpu013 booted_cpu0123).
  apply rtc_once.
  apply (step_single 8 (quiet_ext 20 0 0 15) 2 no_ops booted_cpu013 booted_cpu0123 0).
  reflexivity.
Defined.

(** ** The outcomes of [of_init_cpu_pm_domain] *)

Lemma with_genpds_same st : with_genpds (genpds st) st = st.
Proof. by destruct st. Qed.

(** All the ways [of_init_cpu_pm_domain] can end. *)
Lemma of_init_cpu_pm_domain_cases e dn o st :
  let g := kzalloc (genpds st) in
  let p := kzalloc (cpu_pds st) in
  let ret := (of_pm_genpd_init e dn (new_genpd e dn)).1 in
  let gd := (of_pm_genpd_init e dn (new_genpd e dn)).2 in
  of_init_cpu_pm_domain e dn o st =
    if negb (of_device_is_available e dn) then Ok (st, ErrPtr (- ENODEV))
    else if negb (kzalloc_genpd e dn) then Fault NullDeref
    else if negb (kstrndup e dn && kzalloc_pd e dn && zalloc_cpumask_var e dn)
    then Ok (st, ErrPtr (- ENOMEM))
    else if negb (ret =? 0)
    then Ok (with_list (p :: of_cpu_pd_list st) st, ErrPtr ret)
    else Ok ({| genpds := <[g := gd]> (genpds st);
                cpu_pds := <[p := {| ops := o; genpd := g; parent := None; cpus := 0 |}]>
                             (cpu_pds st);
                of_cpu_pd_list := p :: of_cpu_pd_list st;
                providers := if of_genpd_add_provider_simple e dn g =? 0
                             then <[dn := g]> (providers st) else providers st |},
             Ptr g).
Proof.
  cbv zeta. unfold of_init_cpu_pm_domain, with_genpds, with_cpu_pds, with_list,
    with_providers.
  destruct st as [G C L P]. cbn [genpds cpu_pds of_cpu_pd_list providers].
  destruct (of_device_is_available e dn); cbn [negb]; [|done].
  destruct (kzalloc_genpd e dn); cbn [negb]; [|done].
  pose proof (kzalloc_fresh G) as HG. pose proof (kzalloc_fresh C) as HC.
  destruct (kstrndup e dn); cbn [negb andb]; [|by rewrite delete_insert_id].
  destruct (kzalloc_pd e dn); cbn [negb andb]; [|by rewrite delete_insert_id].
  destruct (zalloc_cpumask_var e dn); cbn [negb andb]; [|by rewrite delete_insert_id].
  cbn [name flags states state_idx]. fold (new_genpd e dn).
  destruct (of_pm_genpd_init e dn (new_genpd e dn)) as [ret gd]. cbn [fst snd].
  destruct (ret =? 0); cbn [negb].
  - rewrite insert_insert_eq.
    destruct (of_genpd_add_provider_simple e dn _ =? 0); reflexivity.
  - by rewrite insert_insert_eq, !delete_insert_id.
Qed.

(** X13: when [of_init_cpu_pm_domain] returns an error pointer, either
    nothing changed and the error is [-ENODEV] or [-ENOMEM], or the
    error is the non-zero answer of [of_pm_genpd_init] and the only
    change is that the freed domain is still linked at the head of
    [of_cpu_pd_list]. *)
Theorem of_init_cpu_pm_domain_error e dn o st st' err :
  of_init_cpu_pm_domain e dn o st = Ok (st', ErrPtr err) →
  (st' = st ∧ (err = - ENODEV ∨ err = - ENOMEM)) ∨
  (st' = with_list (kzalloc (cpu_pds st) :: of_cpu_pd_list st) st ∧
   cpu_pds st' !! kzalloc (cpu_pds st) = None ∧
   err = (of_pm_genpd_init e dn (new_genpd e dn)).1 ∧ err ≠ 0).
Proof.
  rewrite of_init_cpu_pm_domain_cases. cbv zeta.
  destruct (of_device_is_available e dn); cbn [negb].
  2:{ intros [= <- <-]. left. by split; [|left]. }
  destruct (kzalloc_genpd e dn); cbn [negb]; [|discriminate].
  destruct (kstrndup e dn && kzalloc_pd e dn && zalloc_cpumask_var e dn); cbn [negb].
  2:{ intros [= <- <-]. left. by split; [|right]. }
  destruct (Z.eqb_spec (of_pm_genpd_init e dn (new_genpd e dn)).1 0) as [Hr|Hr];
    cbn [negb]; [discriminate|].
  intros [= <- <-]. right. repeat split; try done. simpl. apply kzalloc_fresh.
Qed.

Lemma of_init_cpu_pm_domain_error_witness :
  (boot_state = boot_state ∧ (- ENOMEM = - ENODEV ∨ - ENOMEM = - ENOMEM)) ∨
  (boot_state = with_list (kzalloc (cpu_pds boot_state) :: of_cpu_pd_list boot_state)
                  boot_state ∧
   cpu_pds boot_state !! kzalloc (cpu_pds boot_state) = None ∧
   - ENOMEM = (of_pm_genpd_init (fail_ext false 0) 10%nat
                 (new_genpd (fail_ext false 0) 10%nat)).1 ∧
   - ENOMEM ≠ 0).
Proof.
  apply (of_init_cpu_pm_domain_error (fail_ext false 0) 10%nat no_ops boot_state
           boot_state (- ENOMEM)).
  reflexivity.
Defined.




(** X16: when [of_init_cpu_pm_domain] returns a genpd, that genpd was
    not allocated before, [of_pm_genpd_init] answered 0 and left the
    genpd that is stored, exactly one new domain with the given
    callbacks, no parent and no member is linked at the head of
    [of_cpu_pd_list], and the provider of the node is recorded iff
    [of_genpd_add_provider_simple] answered 0. *)
Theorem of_init_cpu_pm_domain_success e dn o st st' g :
  of_init_cpu_pm_domain e dn o st = Ok (st', Ptr g) →
  genpds st !! g = None ∧
  (of_pm_genpd_init e dn (new_genpd e dn)).1 = 0 ∧
  genpds st' = <[g := (of_pm_genpd_init e dn (new_genpd e dn)).2]> (genpds st) ∧
  (∃ p, cpu_pds st !! p = None ∧
        of_cpu_pd_list st' = p :: of_cpu_pd_list st ∧
        cpu_pds st' =
          <[p := {| ops := o; genpd := g; parent := None; cpus := 0 |}]> (cpu_pds st)) ∧
  providers st' = (if of_genpd_add_provider_simple e dn g =? 0
                   then <[dn := g]> (providers st) else providers st).
Proof.
  rewrite of_init_cpu_pm_domain_cases. cbv zeta.
  destruct (of_device_is_available e dn); cbn [negb]; [|discriminate].
  destruct (kzalloc_genpd e dn); cbn [negb]; [|discriminate].
  destruct (kstrndup e dn && kzalloc_pd e dn && zalloc_cpumask_var e dn); cbn [negb];
    [|discriminate].
  destruct (Z.eqb_spec (of_pm_genpd_init e dn (new_genpd e dn)).1 0) as [Hr|Hr];
    cbn [negb]; [|discriminate].
  intros [= <- <-]. simpl. repeat split; try done; [apply kzalloc_fresh|].
  exists (kzalloc (cpu_pds st)). repeat split; [apply kzalloc_fresh|done..].
Qed.

Lemma of_init_cpu_pm_domain_success_witness :
  genpds boot_state !! 0%nat = None ∧
  (of_pm_genpd_init (quiet_ext 20 0 0 15) 10%nat
     (new_genpd (quiet_ext 20 0 0 15) 10%nat)).1 = 0 ∧
  genpds booted =
    <[0%nat := (of_pm_genpd_init (quiet_ext 20 0 0 15) 10%nat
                  (new_genpd (quiet_ext 20 0 0 15) 10%nat)).2]> (genpds boot_state) ∧
  (∃ p, cpu_pds boot_state !! p = None ∧
        of_cpu_pd_list booted = p :: of_cpu_pd_list boot_state ∧
        cpu_pds booted =
          <[p := {| ops := no_ops; genpd := 0%nat; parent := None; cpus := 0 |}]>
            (cpu_pds boot_state)) ∧
  providers booted =
    (if of_genpd_add_provider_simple (quiet_ext 20 0 0 15) 10%nat 0%nat =? 0
     then <[10%nat := 0%nat]> (providers boot_state) else providers boot_state).
Proof.
  apply (of_init_cpu_pm_domain_success (quiet_ext 20 0 0 15) 10%nat no_ops boot_state
           booted 0%nat).
  reflexivity.
Defined.

(** ** Power-off, resolution and the batch *)



Lemma to_cpu_pd_returns_or_faults st d : to_cpu_pd st d ≠ OutOfFuel.
Proof.
  unfold to_cpu_pd. generalize (of_cpu_pd_list st).
  induction l as [|q l IH]; simpl; [discriminate|].
  unfold deref. destruct (cpu_pds st !! q); simpl; [|discriminate].
  by destruct (Nat.eqb _ _).
Qed.

Lemma of_init_cpu_pm_domain_returns_or_faults e dn o st :
  of_init_cpu_pm_domain e dn o st ≠ OutOfFuel.
Proof.
  rewrite of_init_cpu_pm_domain_cases. cbv zeta.
  destruct (negb _); [done|]. destruct (negb _); [done|].
  destruct (negb _); [done|]. by destruct (negb _).
Qed.

(** X18: [of_get_cpu_domain] recurses once per power-domains reference:
    when the references from the node reach a node without one through
    [l] nodes, the call finishes within [length l] levels of recursion,
    from any state. *)
Theorem of_get_cpu_domain_terminates e o cpu dn l :
  dt_chain e dn l →
  ∀ fuel st, (length l ≤ fuel)%nat →
    of_get_cpu_domain fuel e dn o cpu st ≠ OutOfFuel.
Proof.
  induction 1 as [dn Hnp|dn np l Hnp _ IH]; intros fuel st Hlen.
  - destruct fuel as [|fuel]; [simpl in Hlen; lia|]. cbn [of_get_cpu_domain].
    destruct (of_genpd_get_from_provider st dn); [discriminate|].
    pose proof (of_init_cpu_pm_domain_returns_or_faults e dn o st) as Hinit.
    destruct (of_init_cpu_pm_domain e dn o st) as [[st1 [g|er]]|f|];
      cbn [bind]; try done.
    by rewrite Hnp.
  - destruct fuel as [|fuel]; [simpl in Hlen; lia|]. cbn [of_get_cpu_domain].
    destruct (of_genpd_get_from_provider st dn); [discriminate|].
    pose proof (of_init_cpu_pm_domain_returns_or_faults e dn o st) as Hinit.
    destruct (of_init_cpu_pm_domain e dn o st) as [[st1 [g|er]]|f|];
      cbn [bind]; try done.
    rewrite Hnp.
    specialize (IH fuel st1 ltac:(simpl in Hlen; lia)).
    destruct (of_get_cpu_domain fuel e np o cpu st1) as [[st2 [pg|perr]]|f|];
      cbn [bind]; try done.
    destruct (negb _); [done|].
    pose proof (to_cpu_pd_returns_or_faults st2 g) as Hc.
    pose proof (to_cpu_pd_returns_or_faults st2 pg) as Hpp.
    destruct (to_cpu_pd st2 g) as [c|f|]; cbn [bind]; try done.
    destruct (to_cpu_pd st2 pg) as [pp|f|]; cbn [bind]; try done.
    destruct c, pp; try done. unfold deref. by destruct (cpu_pds st2 !! _).
Qed.

Lemma of_get_cpu_domain_terminates_witness :
  of_get_cpu_domain 3 (quiet_ext 20 0 0 15) 10%nat no_ops 0 boot_state ≠ OutOfFuel.
Proof.
  apply (of_get_cpu_domain_terminates (quiet_ext 20 0 0 15) no_ops 0%nat 10%nat
           [10%nat; 11%nat; 12%nat] sim_dt_chain 3%nat boot_state).
  simpl. lia.
Defined.

Lemma of_get_cpu_domain_providers e o cpu : ∀ fuel dn st st' r,
  of_get_cpu_domain fuel e dn o cpu st = Ok (st', r) → keeps_providers st st'.
Proof.
  induction fuel as [|fuel IH]; intros dn st st' r H; [discriminate|].
  cbn [of_get_cpu_domain] in H. unfold of_genpd_get_from_provider in H.
  destruct (providers st !! dn) as [g0|] eqn:Hprov.
  { injection H as <- _. by intros n g. }
  rewrite of_init_cpu_pm_domain_cases in H. cbv zeta in H.
  destruct (negb (of_device_is_available e dn)); cbn [bind] in H.
  { injection H as <- _. by intros n g. }
  destruct (negb (kzalloc_genpd e dn)); cbn [bind] in H; [discriminate|].
  destruct (negb (_ && _ && _)); cbn [bind] in H.
  { injection H as <- _. by intros n g. }
  destruct (negb (_ =? 0)); cbn [bind] in H.
  { injection H as <- _. by intros n g. }
  match type of H with context [of_get_cpu_domain fuel e _ o cpu ?s] => set (st1 := s) in * end.
  assert (keeps_providers st st1) as H01.
  { intros n g Hn. subst st1. simpl. destruct (_ =? 0); [|done].
    rewrite lookup_insert_ne; [done|]. intros <-. congruence. }
  destruct (of_parse_phandle_with_args e dn) as [np|]; [|by injection H as <- _].
  destruct (of_get_cpu_domain fuel e np o cpu st1) as [[st2 pr]|f|] eqn:Hrec;
    cbn [bind] in H; try discriminate.
  apply IH in Hrec.
  assert (keeps_providers st st2) as H02 by (intros n g Hn; by apply Hrec, H01).
  destruct pr as [pg|perr]; [|by injection H as <- _].
  destruct (negb _); [by injection H as <- _|].
  destruct (to_cpu_pd st2 _) as [c|f|]; cbn [bind] in H; try discriminate.
  destruct (to_cpu_pd st2 pg) as [pp|f|]; cbn [bind] in H; try discriminate.
  destruct c as [c|], pp as [pp|]; try (by injection H as <- _).
  unfold deref in H. destruct (cpu_pds st2 !! c) as [pd|]; cbn [bind] in H; [|discriminate].
  by injection H as <- _.
Qed.

(** X19: once [of_get_cpu_domain] has returned the genpd of a node (the
    provider registration having succeeded if the node had none), every
    later call for that node returns the same genpd from the provider
    and changes nothing, whatever the platform answers then: no second
    domain is created for the node. *)
Theorem of_get_cpu_domain_again fuel e dn o cpu st st1 g :
  of_get_cpu_domain fuel e dn o cpu st = Ok (st1, Ptr g) →
  (providers st !! dn = None → of_genpd_add_provider_simple e dn g = 0) →
  ∀ fuel' e' o' cpu',
    of_get_cpu_domain (S fuel') e' dn o' cpu' st1 = Ok (st1, Ptr g).
Proof.
  intros H Hadd fuel' e' o' cpu'.
  assert (providers st1 !! dn = Some g) as Hprov.
  { destruct fuel as [|fuel]; [discriminate|].
    cbn [of_get_cpu_domain] in H. unfold of_genpd_get_from_provider in H.
    destruct (providers st !! dn) as [g0|] eqn:Hp0.
    { by injection H as <- <-. }
    specialize (Hadd eq_refl).
    rewrite of_init_cpu_pm_domain_cases in H. cbv zeta in H.
    destruct (negb (of_device_is_available e dn)); cbn [bind] in H; [discriminate|].
    destruct (negb (kzalloc_genpd e dn)); cbn [bind] in H; [discriminate|].
    destruct (negb (_ && _ && _)); cbn [bind] in H; [discriminate|].
    destruct (negb (_ =? 0)); cbn [bind] in H; [discriminate|].
    match type of H with context [of_get_cpu_domain fuel e _ o cpu ?s] =>
      set (s1 := s) in * end.
    assert (∀ s2, keeps_providers s1 s2 → kzalloc (genpds st) = g →
              providers s2 !! dn = Some g) as Hk.
    { intros s2 Hs2 Hg. apply Hs2. subst s1. simpl.
      rewrite Hg, Hadd. simpl. by rewrite lookup_insert_eq. }
    assert (keeps_providers s1 s1) as Hrefl by (by intros n g0).
    destruct (of_parse_phandle_with_args e dn) as [np|].
    2:{ injection H as <- Hg. by apply Hk. }
    destruct (of_get_cpu_domain fuel e np o cpu s1) as [[st2 pr]|f|] eqn:Hrec;
      cbn [bind] in H; try discriminate.
    apply of_get_cpu_domain_providers in Hrec.
    destruct pr as [pg|perr].
    2:{ injection H as <- Hg. by apply Hk. }
    destruct (negb _); [discriminate|].
    destruct (to_cpu_pd st2 _) as [c|f|]; cbn [bind] in H; try discriminate.
    destruct (to_cpu_pd st2 pg) as [pp|f|]; cbn [bind] in H; try discriminate.
    destruct c as [c|], pp as [pp|];
      try (injection H as <- Hg; by apply Hk).
    unfold deref in H. destruct (cpu_pds st2 !! c) as [pd|]; cbn [bind] in H; [|discriminate].
    injection H as <- Hg. simpl. by apply (Hk st2). }
  cbn [of_get_cpu_domain]. unfold of_genpd_get_from_provider. by rewrite Hprov.
Qed.

(** The second call runs on a platform where nothing succeeds. *)
Lemma of_get_cpu_domain_again_witness :
  of_get_cpu_domain 1 (fail_ext false (-22)) 10%nat echo_ops 2 resolved =
    Ok (resolved, Ptr 0%nat).
Proof.
  apply (of_get_cpu_domain_again 8 (quiet_ext 20 0 0 15) 10%nat no_ops 0%nat boot_state
           resolved 0%nat).
  - reflexivity.
  - reflexivity.
Defined.

Lemma cpu_pd_attach_cpu_providers fuel e x cpu st st' r :
  cpu_pd_attach_cpu fuel e x cpu st = Ok (st', r) → providers st' = providers st.
Proof.
  unfold cpu_pd_attach_cpu. intros H.
  destruct (get_cpu_device e cpu); simpl in H; [|by injection H as <- _].
  destruct (attach_loop _ _ _ _ _) as [h| |]; simpl in H; try discriminate.
  by injection H as <- _.
Qed.

Lemma of_setup_cpu_pd_single_providers fuel e cpu o st st' r :
  of_setup_cpu_pd_single fuel e cpu o st = Ok (st', r) → keeps_providers st st'.
Proof.
  unfold of_setup_cpu_pd_single. intros H.
  destruct (of_get_cpu_node e cpu) as [cpu_dn|]; [|injection H as <- _; by intros n g].
  destruct (of_parse_phandle e cpu_dn) as [dn|]; [|injection H as <- _; by intros n g].
  destruct (of_get_cpu_domain fuel e dn o cpu st) as [[st1 r1]|f|] eqn:Hget;
    cbn [bind] in H; try discriminate.
  apply of_get_cpu_domain_providers in Hget.
  destruct r1 as [g|er]; [|injection H as <- _; exact Hget].
  destruct (to_cpu_pd st1 g) as [[p|]|f|]; cbn [bind] in H; try discriminate.
  - apply cpu_pd_attach_cpu_providers in H. intros n g0 Hn. rewrite H. by apply Hget.
  - injection H as <- _. exact Hget.
Qed.

(** X20: [of_setup_cpu_pd] never removes or replaces a provider: every
    node that had a provider before the batch has the same one after
    it. *)
Theorem of_setup_cpu_pd_keeps_providers fuel e o st st' r :
  of_setup_cpu_pd fuel e o st = Ok (st', r) →
  ∀ n g, providers st !! n = Some g → providers st' !! n = Some g.
Proof.
  unfold of_setup_cpu_pd. generalize (stack_int e).
  generalize (for_each_cpu (nr_cpu_ids e) (cpu_possible_mask e)). intros todo.
  revert st. induction todo as [|cpu todo IH]; intros st ret H n g Hn.
  - by injection H as <- _.
  - cbn [of_setup_cpu_pd_loop] in H.
    destruct (of_setup_cpu_pd_single fuel e cpu o st) as [[st1 r1]|f|] eqn:Hone;
      cbn [bind] in H; try discriminate.
    apply of_setup_cpu_pd_single_providers in Hone.
    destruct (negb _); [injection H as <- _; by apply Hone|].
    eapply IH; [exact H|by apply Hone].
Qed.

Lemma of_setup_cpu_pd_keeps_providers_witness :
  providers three_levels_all !! 11%nat = Some 1%nat.
Proof.
  apply (of_setup_cpu_pd_keeps_providers 8 (quiet_ext 20 0 0 15) no_ops three_levels
           three_levels_all 0).
  - reflexivity.
  - reflexivity.
Defined.

(** X21: when the power-domains node of the CPU already has a provider
    whose genpd is not a CPU PM domain (no list entry points to it),
    [of_setup_cpu_pd_single] returns [-ENOENT] and changes nothing. *)
Theorem of_setup_cpu_pd_single_foreign fuel e cpu o st cpu_dn dn g :
  of_get_cpu_node e cpu = Some cpu_dn → of_parse_phandle e cpu_dn = Some dn →
  providers st !! dn = Some g →
  (∀ q, q ∈ of_cpu_pd_list st → ∃ qd, cpu_pds st !! q = Some qd ∧ genpd qd ≠ g) →
  of_setup_cpu_pd_single (S fuel) e cpu o st = Ok (st, - ENOENT).
Proof.
  intros Hn Hd Hp Hnone. unfold of_setup_cpu_pd_single. rewrite Hn, Hd.
  cbn [of_get_cpu_domain]. unfold of_genpd_get_from_provider. rewrite Hp. cbn [bind].
  unfold to_cpu_pd. by rewrite (proj2 (to_cpu_pd_from_none _ _ _) Hnone).
Qed.

Lemma of_setup_cpu_pd_single_foreign_witness :
  of_setup_cpu_pd_single 1 (quiet_ext 20 0 0 15) 0 no_ops foreign_state =
    Ok (foreign_state, - ENOENT).
Proof.
  apply (of_setup_cpu_pd_single_foreign 0 (quiet_ext 20 0 0 15) 0%nat no_ops foreign_state
           100%nat 10%nat 5%nat); try reflexivity.
  intros q Hq. by apply elem_of_nil in Hq.
Defined.

Lemma of_init_cpu_pm_domain_err_nonzero e dn o st st' er :
  of_init_cpu_pm_domain e dn o st = Ok (st', ErrPtr er) → er ≠ 0.
Proof.
  rewrite of_init_cpu_pm_domain_cases. cbv zeta.
  destruct (negb (of_device_is_available e dn)); [by intros [= _ <-]|].
  destruct (negb (kzalloc_genpd e dn)); [discriminate|].
  destruct (negb (_ && _ && _)); [by intros [= _ <-]|].
  destruct (Z.eqb_spec (of_pm_genpd_init e dn (new_genpd e dn)).1 0); cbn [negb];
    [discriminate|]. by intros [= _ <-].
Qed.

Lemma of_get_cpu_domain_err_nonzero e o cpu fuel dn st st' er :
  of_get_cpu_domain fuel e dn o cpu st = Ok (st', ErrPtr er) → er ≠ 0.
Proof.
  destruct fuel as [|fuel]; [discriminate|]. cbn [of_get_cpu_domain].
  destruct (of_genpd_get_from_provider st dn); [discriminate|].
  destruct (of_init_cpu_pm_domain e dn o st) as [[st1 [g|er1]]|f|] eqn:Hinit;
    cbn [bind]; try discriminate.
  2:{ intros [= _ <-]. by eapply of_init_cpu_pm_domain_err_nonzero. }
  destruct (of_parse_phandle_with_args e dn) as [np|]; [|discriminate].
  destruct (of_get_cpu_domain fuel e np o cpu st1) as [[st2 [pg|perr]]|f|];
    cbn [bind]; try discriminate.
  destruct (Z.eqb_spec (pm_genpd_add_subdomain e g pg) 0); cbn [negb].
  - destruct (to_cpu_pd st2 g) as [c|f|]; cbn [bind]; try discriminate.
    destruct (to_cpu_pd st2 pg) as [pp|f|]; cbn [bind]; try discriminate.
    destruct c, pp; try discriminate. unfold deref.
    destruct (cpu_pds st2 !! _); cbn [bind]; discriminate.
  - by intros [= _ <-].
Qed.

Lemma cpu_pd_attach_cpu_member fuel e p cpu st st' :
  cpu_pd_attach_cpu fuel e (Some p) cpu st = Ok (st', 0) →
  ∃ pd, cpu_pds st' !! p = Some pd ∧ cpumask_test_cpu cpu (cpus pd) = true.
Proof.
  unfold cpu_pd_attach_cpu. intros H.
  destruct (get_cpu_device e cpu); simpl in H; [|discriminate].
  destruct (attach_loop _ _ _ _ _) as [h| |] eqn:Hrun; simpl in H; try discriminate.
  injection H as <- Hr. rewrite Hr in Hrun. simpl.
  destruct fuel as [|fuel]; [discriminate|]. simpl in Hrun. unfold deref in Hrun.
  destruct (cpu_pds st !! p) as [pd|]; [|discriminate]. simpl in Hrun.
  destruct (attach_loop_keeps _ _ _ _ _ _ Hrun p
              (set_cpus (cpumask_set_cpu cpu (cpus pd)) pd))
    as (pd' & Hp' & _ & _ & Hm); [by rewrite lookup_insert_eq|].
  exists pd'. split; [done|]. apply Hm. simpl. apply cpumask_test_set.
Qed.

Lemma of_setup_cpu_pd_single_member fuel e cpu o st st' :
  of_setup_cpu_pd_single fuel e cpu o st = Ok (st', 0) →
  ∃ p pd, p ∈ of_cpu_pd_list st' ∧ cpu_pds st' !! p = Some pd ∧
          cpumask_test_cpu cpu (cpus pd) = true.
Proof.
  unfold of_setup_cpu_pd_single. intros H.
  destruct (of_get_cpu_node e cpu) as [cpu_dn|]; [|discriminate].
  destruct (of_parse_phandle e cpu_dn) as [dn|]; [|discriminate].
  destruct (of_get_cpu_domain fuel e dn o cpu st) as [[st1 [g|er]]|f|] eqn:Hget;
    cbn [bind] in H; try discriminate.
  2:{ injection H as _ ->. by apply of_get_cpu_domain_err_nonzero in Hget. }
  destruct (to_cpu_pd st1 g) as [[p|]|f|] eqn:Hl; cbn [bind] in H; try discriminate.
  apply to_cpu_pd_from_found in Hl as [Hin _].
  destruct (cpu_pd_attach_cpu_member _ _ _ _ _ _ H) as (pd & Hp & Hm).
  exists p, pd. split; [|done].
  by apply (cpu_pd_attach_cpu_grows _ _ _ _ _ _ _ H).
Qed.

(** X22: when [of_setup_cpu_pd] returns 0, every possible CPU is a
    member of a domain that is on [of_cpu_pd_list]. *)
Theorem of_setup_cpu_pd_success_members fuel e o st st' :
  of_setup_cpu_pd fuel e o st = Ok (st', 0) →
  ∀ cpu, cpu ∈ for_each_cpu (nr_cpu_ids e) (cpu_possible_mask e) →
    ∃ p pd, p ∈ of_cpu_pd_list st' ∧ cpu_pds st' !! p = Some pd ∧
            cpumask_test_cpu cpu (cpus pd) = true.
Proof.
  unfold of_setup_cpu_pd. generalize (stack_int e).
  generalize (for_each_cpu (nr_cpu_ids e) (cpu_possible_mask e)). intros todo.
  revert st. induction todo as [|c todo IH]; intros st ret H cpu Hc.
  - by apply elem_of_nil in Hc.
  - cbn [of_setup_cpu_pd_loop] in H.
    destruct (of_setup_cpu_pd_single fuel e c o st) as [[st1 r1]|f|] eqn:Hone;
      cbn [bind] in H; try discriminate.
    destruct (Z.eqb_spec r1 0) as [Hr|Hr]; cbn [negb] in H.
    2:{ injection H as _ H. done. }
    subst r1. apply elem_of_cons in Hc as [->|Hc]; [|by eapply IH].
    destruct (of_setup_cpu_pd_single_member _ _ _ _ _ _ Hone) as (p & pd & Hin & Hp & Hm).
    pose proof (of_setup_cpu_pd_loop_grows _ _ _ _ _ _ _ _ H) as [Hl _].
    destruct (of_setup_cpu_pd_loop_keeps _ _ _ _ _ _ _ _ H p pd Hp)
      as (pd' & Hp' & _ & _ & Hm').
    exists p, pd'. repeat split; [by apply Hl|done|by apply Hm'].
Qed.

Lemma of_setup_cpu_pd_success_members_witness :
  ∃ p pd, p ∈ of_cpu_pd_list booted_all ∧ cpu_pds booted_all !! p = Some pd ∧
          cpumask_test_cpu 2 (cpus pd) = true.
Proof.
  apply (of_setup_cpu_pd_success_members 8 (quiet_ext 20 0 0 15) no_ops boot_state
           booted_all).
  - reflexivity.
  - vm_compute. apply elem_of_cons; right. apply elem_of_cons; right.
    apply elem_of_cons; by left.
Defined.

(** ** The hierarchy is nested *)

Lemma extends_refl st : extends st st.
Proof.
  split; [done|]. split; [intros p pd H; by exists pd|].
  intros p pd' H1 H2. congruence.
Qed.

Lemma extends_trans st1 st2 st3 : extends st1 st2 → extends st2 st3 → extends st1 st3.
Proof.
  intros (A1 & B1 & C1) (A2 & B2 & C2). split; [by auto|]. split.
  - intros p pd H. destruct (B1 p pd H) as (pd' & H' & Hc & Hg).
    destruct (B2 p pd' H') as (pd'' & H'' & Hc' & Hg'). exists pd''.
    repeat split; [done|congruence|congruence].
  - intros p pd3 H3 H1.
    destruct (cpu_pds st2 !! p) as [pd2|] eqn:H2.
    + destruct (B2 p pd2 H2) as (pd3' & H3' & Hc & Hg). rewrite H3 in H3'.
      injection H3' as <-. destruct (C1 p pd2 H2 H1) as [Hz Hn]. split; congruence.
    + destruct (C2 p pd3 H3 H2) as [Hz Hn]. split; [done|].
      destruct (genpds st1 !! genpd pd3) eqn:E; [|done].
      destruct (A1 (genpd pd3)) as [? ?]; [by eexists|congruence].
Qed.

Lemma cpumask_test_set_inv cpu c m :
  cpumask_test_cpu c (cpumask_set_cpu cpu m) = true →
  c = cpu ∨ cpumask_test_cpu c m = true.
Proof.
  destruct (decide (c = cpu)) as [->|Hne]; [by left|].
  rewrite cpumask_test_set_other by done. by right.
Qed.

Lemma cpumask_test_zero c : cpumask_test_cpu c 0 = false.
Proof. apply Z.testbit_0_l. Qed.

Lemma parent_chain_next h x l p pd q :
  parent_chain h x l → p ∈ l → h !! p = Some pd → parent pd = Some q → q ∈ l.
Proof.
  induction 1 as [|p0 pd0 l Hp0 Hc IH]; intros Hin Hp Hq.
  - by apply elem_of_nil in Hin.
  - apply elem_of_cons in Hin as [->|Hin].
    + rewrite Hp0 in Hp. injection Hp as ->. rewrite Hq in Hc.
      inversion Hc; subst. apply elem_of_cons. right. apply elem_of_cons. by left.
    + apply elem_of_cons. right. by apply IH.
Qed.

Lemma hierarchy_ok_stores st st' :
  genpds st' = genpds st → cpu_pds st' = cpu_pds st → hierarchy_ok st → hierarchy_ok st'.
Proof.
  intros Hg Hc [Hl Hn]. split.
  - intros p pd. rewrite Hg, Hc. apply Hl.
  - intros p pd q. rewrite Hc. apply Hn.
Qed.

Lemma cpu_pd_down_ok_hierarchy e g st st' b :
  cpu_pd_down_ok e g st = Ok (st', b) → hierarchy_ok st → hierarchy_ok st'.
Proof.
  intros H [Hl Hn]. destruct (cpu_pd_down_ok_inv _ _ _ _ _ H) as (gd & i & Hg & ->).
  split; [|exact Hn]. intros p pd Hp. simpl in *.
  destruct (decide (g = genpd pd)) as [->|Hne].
  - rewrite lookup_insert_eq. by eexists.
  - rewrite lookup_insert_ne by done. by eapply Hl.
Qed.

Lemma cpu_pd_attach_cpu_hierarchy fuel e x cpu st st' r :
  cpu_pd_attach_cpu fuel e x cpu st = Ok (st', r) → hierarchy_ok st → hierarchy_ok st'.
Proof.
  unfold cpu_pd_attach_cpu. intros H Hok.
  destruct (get_cpu_device e cpu); simpl in H; [|by injection H as <- _].
  destruct (Z.eq_dec (genpd_dev_pm_attach e cpu) 0) as [Hr|Hr].
  2:{ rewrite attach_loop_failed in H by done. simpl in H. injection H as <- _.
      by apply (hierarchy_ok_stores st). }
  rewrite Hr in H.
  destruct (attach_loop fuel 0 cpu (cpu_pds st) x) as [h| |] eqn:Hrun; simpl in H;
    try discriminate.
  injection H as <- _.
  destruct (attach_loop_ok_chain _ _ _ _ _ Hrun) as (l & Hc & Hlen).
  destruct (attach_loop_chain cpu l fuel (cpu_pds st) x Hc Hlen) as (h1 & Hrun1 & Hin & Hout).
  rewrite Hrun in Hrun1. injection Hrun1 as <-.
  destruct Hok as [Hl Hn]. split.
  - intros p pd' Hp. simpl in *. destruct (decide (p ∈ l)) as [Hpl|Hpl].
    + destruct (Hin p Hpl) as (pd & H1 & H2). rewrite Hp in H2. injection H2 as ->.
      simpl. by eapply Hl.
    + rewrite (Hout p Hpl) in Hp. by eapply Hl.
  - intros p pd' q Hp Hq. simpl in *. destruct (decide (p ∈ l)) as [Hpl|Hpl].
    + destruct (Hin p Hpl) as (pd & H1 & H2). rewrite Hp in H2. injection H2 as ->.
      simpl in Hq. destruct (Hn p pd q H1 Hq) as (qd & Hqd & Hsub).
      pose proof (parent_chain_next _ _ _ _ _ _ Hc Hpl H1 Hq) as Hql.
      destruct (Hin q Hql) as (qd' & H1' & H2'). rewrite Hqd in H1'. injection H1' as <-.
      exists (add_member cpu qd). split; [done|]. intros c Hcm. simpl in *.
      apply cpumask_test_set_inv in Hcm as [->|Hcm]; [apply cpumask_test_set|].
      by apply cpumask_test_set_keeps, Hsub.
    + rewrite (Hout p Hpl) in Hp. destruct (Hn p pd' q Hp Hq) as (qd & Hqd & Hsub).
      destruct (decide (q ∈ l)) as [Hql|Hql].
      * destruct (Hin q Hql) as (qd' & H1' & H2'). rewrite Hqd in H1'. injection H1' as <-.
        exists (add_member cpu qd). split; [done|]. intros c Hcm. simpl.
        by apply cpumask_test_set_keeps, Hsub.
      * exists qd. by rewrite (Hout q Hql).
Qed.

Lemma of_init_cpu_pm_domain_hierarchy e dn o st st' r :
  of_init_cpu_pm_domain e dn o st = Ok (st', r) →
  hierarchy_ok st → hierarchy_ok st' ∧ extends st st'.
Proof.
  rewrite of_init_cpu_pm_domain_cases. cbv zeta. intros H Hok.
  destruct (negb (of_device_is_available e dn)).
  { injection H as <- _. split; [done|apply extends_refl]. }
  destruct (negb (kzalloc_genpd e dn)); [discriminate|].
  destruct (negb (_ && _ && _)).
  { injection H as <- _. split; [done|apply extends_refl]. }
  destruct (negb (_ =? 0)).
  { injection H as <- _. split; [by apply (hierarchy_ok_stores st)|].
    split; [done|]. split; [intros p pd Hp; by exists pd|].
    simpl. intros p pd' H1 H2. congruence. }
  injection H as <- _. destruct Hok as [Hl Hn].
  pose proof (kzalloc_fresh (genpds st)) as HG.
  pose proof (kzalloc_fresh (cpu_pds st)) as HC.
  unfold hierarchy_ok, live_genpds, nested, extends. cbn [genpds cpu_pds].
  split; [split|split; [|split]].
  - intros p pd Hp. destruct (decide (kzalloc (cpu_pds st) = p)) as [<-|Hne].
    + rewrite lookup_insert_eq in Hp. injection Hp as <-. simpl.
      rewrite lookup_insert_eq. by eexists.
    + rewrite lookup_insert_ne in Hp by done.
      destruct (Hl p pd Hp) as [gd Hgd].
      rewrite lookup_insert_ne; [by eexists|]. intros Heq. congruence.
  - intros p pd q Hp Hq. destruct (decide (kzalloc (cpu_pds st) = p)) as [<-|Hne].
    + rewrite lookup_insert_eq in Hp. injection Hp as <-. discriminate.
    + rewrite lookup_insert_ne in Hp by done.
      destruct (Hn p pd q Hp Hq) as (qd & Hqd & Hsub). exists qd. split; [|done].
      rewrite lookup_insert_ne; [done|]. intros Heq. congruence.
  - intros g [gd Hg]. destruct (decide (kzalloc (genpds st) = g)) as [<-|Hne].
    + rewrite lookup_insert_eq. by eexists.
    + rewrite lookup_insert_ne by done. by eexists.
  - intros p pd Hp. exists pd. split; [|done].
    rewrite lookup_insert_ne; [done|]. intros Heq. congruence.
  - intros p pd' Hp Hnone. destruct (decide (kzalloc (cpu_pds st) = p)) as [<-|Hne].
    + rewrite lookup_insert_eq in Hp. by injection Hp as <-.
    + rewrite lookup_insert_ne in Hp by done. congruence.
Qed.

Lemma of_init_cpu_pm_domain_ptr_fresh e dn o st st' g :
  of_init_cpu_pm_domain e dn o st = Ok (st', Ptr g) → genpds st !! g = None.
Proof.
  rewrite of_init_cpu_pm_domain_cases. cbv zeta.
  destruct (negb (of_device_is_available e dn)); [discriminate|].
  destruct (negb (kzalloc_genpd e dn)); [discriminate|].
  destruct (negb (_ && _ && _)); [discriminate|].
  destruct (negb (_ =? 0)); [discriminate|].
  intros [= _ <-]. apply kzalloc_fresh.
Qed.

Lemma set_parent_hierarchy st c pd pp ppd :
  cpu_pds st !! c = Some pd → cpus pd = 0 → cpu_pds st !! pp = Some ppd →
  hierarchy_ok st →
  hierarchy_ok (with_cpu_pds (<[c := set_parent (Some pp) pd]> (cpu_pds st)) st) ∧
  extends st (with_cpu_pds (<[c := set_parent (Some pp) pd]> (cpu_pds st)) st).
Proof.
  intros Hc Hz Hpp [Hl Hn].
  unfold hierarchy_ok, live_genpds, nested, extends. cbn [genpds cpu_pds with_cpu_pds].
  split; [split|split; [|split]].
  - intros p pd3 Hp. destruct (decide (c = p)) as [<-|Hne].
    + rewrite lookup_insert_eq in Hp. injection Hp as <-. simpl. by eapply Hl.
    + rewrite lookup_insert_ne in Hp by done. by eapply Hl.
  - intros p pd3 q Hp Hq. destruct (decide (c = p)) as [<-|Hne].
    + rewrite lookup_insert_eq in Hp. injection Hp as <-. simpl in Hq. injection Hq as <-.
      assert (∃ qd, <[c:=set_parent (Some pp) pd]> (cpu_pds st) !! pp = Some qd) as [qd Hqd].
      { destruct (decide (c = pp)) as [<-|Hne].
        - rewrite lookup_insert_eq. by eexists.
        - rewrite lookup_insert_ne by done. by eexists. }
      exists qd. split; [done|]. simpl. rewrite Hz. intros c0 Hc0.
      by rewrite cpumask_test_zero in Hc0.
    + rewrite lookup_insert_ne in Hp by done.
      destruct (Hn p pd3 q Hp Hq) as (qd & Hqd & Hsub).
      destruct (decide (c = q)) as [<-|Hne'].
      * rewrite lookup_insert_eq. eexists. split; [done|]. simpl.
        rewrite Hc in Hqd. by injection Hqd as <-.
      * rewrite lookup_insert_ne by done. by exists qd.
  - done.
  - intros p pd0 Hp. destruct (decide (c = p)) as [<-|Hne].
    + rewrite lookup_insert_eq. eexists. split; [done|]. simpl.
      rewrite Hc in Hp. by injection Hp as <-.
    + rewrite lookup_insert_ne by done. by exists pd0.
  - intros p pd3 Hp Hnone. destruct (decide (c = p)) as [<-|Hne]; [congruence|].
    rewrite lookup_insert_ne in Hp by done. congruence.
Qed.

Lemma of_get_cpu_domain_hierarchy e o cpu : ∀ fuel dn st st' r,
  of_get_cpu_domain fuel e dn o cpu st = Ok (st', r) →
  hierarchy_ok st → hierarchy_ok st' ∧ extends st st'.
Proof.
  induction fuel as [|fuel IH]; intros dn st st' r H Hok; [discriminate|].
  cbn [of_get_cpu_domain] in H.
  destruct (of_genpd_get_from_provider st dn) as [g0|err0].
  { injection H as <- _. split; [done|apply extends_refl]. }
  destruct (of_init_cpu_pm_domain e dn o st) as [[st1 r1]|f|] eqn:Hinit;
    cbn [bind] in H; try discriminate.
  destruct (of_init_cpu_pm_domain_hierarchy _ _ _ _ _ _ Hinit Hok) as [Hok1 Hext1].
  destruct r1 as [g|er]; [|by injection H as <- _].
  apply of_init_cpu_pm_domain_ptr_fresh in Hinit.
  destruct (of_parse_phandle_with_args e dn) as [np|]; [|by injection H as <- _].
  destruct (of_get_cpu_domain fuel e np o cpu st1) as [[st2 pr]|f|] eqn:Hrec;
    cbn [bind] in H; try discriminate.
  destruct (IH _ _ _ _ Hrec Hok1) as [Hok2 Hext2].
  pose proof (extends_trans _ _ _ Hext1 Hext2) as Hext.
  destruct pr as [pg|perr]; [|by injection H as <- _].
  destruct (negb _); [by injection H as <- _|].
  destruct (to_cpu_pd st2 g) as [c|f|] eqn:Hc; cbn [bind] in H; try discriminate.
  destruct (to_cpu_pd st2 pg) as [pp|f|] eqn:Hpp; cbn [bind] in H; try discriminate.
  destruct c as [c|], pp as [pp|]; try (by injection H as <- _).
  apply to_cpu_pd_from_found in Hc as (_ & pd & Hcpd & Hg).
  apply to_cpu_pd_from_found in Hpp as (_ & ppd & Hppd & _).
  unfold deref in H. rewrite Hcpd in H. cbn [bind] in H. injection H as <- _.
  assert (cpus pd = 0) as Hz.
  { destruct Hext as (_ & B & C). destruct (cpu_pds st !! c) as [pd0|] eqn:Hc0.
    - destruct (B c pd0 Hc0) as (pd' & Hpd' & _ & Hg'). rewrite Hcpd in Hpd'.
      injection Hpd' as <-. destruct Hok as [Hl _].
      destruct (Hl c pd0 Hc0) as [gd Hgd]. congruence.
    - by destruct (C c pd Hcpd Hc0). }
  destruct (set_parent_hierarchy st2 c pd pp ppd Hcpd Hz Hppd Hok2) as [Hok3 Hext3].
  split; [done|]. by eapply extends_trans.
Qed.

Lemma of_setup_cpu_pd_single_hierarchy fuel e cpu o st st' r :
  of_setup_cpu_pd_single fuel e cpu o st = Ok (st', r) →
  hierarchy_ok st → hierarchy_ok st'.
Proof.
  unfold of_setup_cpu_pd_single. intros H Hok.
  destruct (of_get_cpu_node e cpu) as [cpu_dn|]; [|by injection H as <- _].
  destruct (of_parse_phandle e cpu_dn) as [dn|]; [|by injection H as <- _].
  destruct (of_get_cpu_domain fuel e dn o cpu st) as [[st1 r1]|f|] eqn:Hget;
    cbn [bind] in H; try discriminate.
  destruct (of_get_cpu_domain_hierarchy _ _ _ _ _ _ _ _ Hget Hok) as [Hok1 _].
  destruct r1 as [g|er]; [|by injection H as <- _].
  destruct (to_cpu_pd st1 g) as [[p|]|f|]; cbn [bind] in H; try discriminate.
  - by eapply cpu_pd_attach_cpu_hierarchy.
  - by injection H as <- _.
Qed.

Lemma of_setup_cpu_pd_loop_hierarchy fuel e o todo : ∀ ret st st' r,
  of_setup_cpu_pd_loop fuel e o todo ret st = Ok (st', r) →
  hierarchy_ok st → hierarchy_ok st'.
Proof.
  induction todo as [|cpu todo IH]; intros ret st st' r H Hok.
  - by injection H as <- _.
  - cbn [of_setup_cpu_pd_loop] in H.
    destruct (of_setup_cpu_pd_single fuel e cpu o st) as [[st1 r1]|f|] eqn:Hone;
      cbn [bind] in H; try discriminate.
    apply of_setup_cpu_pd_single_hierarchy in Hone; [|done].
    destruct (negb _); [by injection H as <- _|]. by eapply IH.
Qed.

Lemma kstep_hierarchy st st' : kstep st st' → hierarchy_ok st → hierarchy_ok st'.
Proof.
  intros [e g s s' b H|fuel e x cpu s s' r H|e dn o s s' r H|fuel e dn o cpu s s' r H
         |fuel e cpu o s s' r H|fuel e o s s' r H] Hok.
  - by eapply cpu_pd_down_ok_hierarchy.
  - by eapply cpu_pd_attach_cpu_hierarchy.
  - by destruct (of_init_cpu_pm_domain_hierarchy _ _ _ _ _ _ H Hok).
  - by destruct (of_get_cpu_domain_hierarchy _ _ _ _ _ _ _ _ H Hok).
  - by eapply of_setup_cpu_pd_single_hierarchy.
  - by eapply of_setup_cpu_pd_loop_hierarchy.
Qed.

Lemma ksteps_hierarchy st st' :
  rtc kstep st st' → hierarchy_ok st → hierarchy_ok st'.
Proof.
  induction 1 as [|st1 st2 st3 Hstep _ IH]; [done|].
  intros Hok. apply IH. by eapply kstep_hierarchy.
Qed.

Lemma boot_state_hierarchy : hierarchy_ok boot_state.
Proof.
  split; [intros p pd H|intros p pd q H]; simpl in H; by rewrite lookup_empty in H.
Qed.

(** X23: in every state reached from boot by calls of the file's
    functions, a domain with a parent has an allocated parent, and every
    member CPU of the domain is a member of the parent. *)
Theorem members_nested_in_parent st :
  rtc kstep boot_state st →
  ∀ p pd q, cpu_pds st !! p = Some pd → parent pd = Some q →
    ∃ qd, cpu_pds st !! q = Some qd ∧
      ∀ c, cpumask_test_cpu c (cpus pd) = true → cpumask_test_cpu c (cpus qd) = true.
Proof.
  intros Hsteps.
  by destruct (ksteps_hierarchy _ _ Hsteps boot_state_hierarchy) as [_ Hn].
Qed.

Lemma members_nested_in_parent_witness : nested booted_all.
Proof. exact (members_nested_in_parent booted_all booted_all_steps). Defined.

(** ** Setting up one CPU *)




(** ** The energy model *)

(** X25: after [set_energy_model] ran on the initial (NULL) globals:
    without a matching machine the three accessors return NULL for
    every CPU; with a match, for a CPU whose cluster id is 0, 1 or 2
    they return the entries of the matched model at that index, and for
    any other cluster id they stop in the [BUG_ON] of [energy]. *)
Theorem cpu_energy_after_set cluster_id matched gl cpu :
  set_energy_model matched no_energy = Done gl →
  match matched with
  | None =>
      cpu_core_energy cluster_id gl cpu = Done None ∧
      cpu_cluster_energy cluster_id gl cpu = Done None ∧
      cpu_system_energy cluster_id gl cpu = Done None
  | Some (_, em) =>
      if decide (cluster_id cpu = 0 ∨ cluster_id cpu = 1 ∨ cluster_id cpu = 2) then
        cpu_core_energy cluster_id gl cpu =
          Done (nth (Z.to_nat (cluster_id cpu)) (em_core_energy em) None) ∧
        cpu_cluster_energy cluster_id gl cpu =
          Done (nth (Z.to_nat (cluster_id cpu)) (em_cluster_energy em) None) ∧
        cpu_system_energy cluster_id gl cpu =
          Done (nth (Z.to_nat (cluster_id cpu)) (em_system_energy em) None)
      else
        cpu_core_energy cluster_id gl cpu = BUG ∧
        cpu_cluster_energy cluster_id gl cpu = BUG ∧
        cpu_system_energy cluster_id gl cpu = BUG
  end.
Proof.
  destruct matched as [[c em]|]; simpl; intros [= <-].
  - unfold cpu_core_energy, cpu_cluster_energy, cpu_system_energy, energy. simpl.
    destruct (decide _) as [Hin|Hout].
    + assert (negb (cluster_id cpu =? 0) && negb (cluster_id cpu =? 1)
              && negb (cluster_id cpu =? 2) = false) as ->; [|done].
      destruct Hin as [->|[->| ->]]; reflexivity.
    + assert (negb (cluster_id cpu =? 0) && negb (cluster_id cpu =? 1)
              && negb (cluster_id cpu =? 2) = true) as ->; [|done].
      destruct (Z.eqb_spec (cluster_id cpu) 0); [tauto|].
      destruct (Z.eqb_spec (cluster_id cpu) 1); [tauto|].
      destruct (Z.eqb_spec (cluster_id cpu) 2); [tauto|]. done.
  - done.
Qed.

(** Juno: CPU 3 is in cluster 1. *)
Lemma cpu_energy_after_set_witness :
  if decide (two_clusters 3 = 0 ∨ two_clusters 3 = 1 ∨ two_clusters 3 = 2) then
    cpu_core_energy two_clusters juno_energy 3 =
      Done (nth (Z.to_nat (two_clusters 3)) (em_core_energy juno_model) None) ∧
    cpu_cluster_energy two_clusters juno_energy 3 =
      Done (nth (Z.to_nat (two_clusters 3)) (em_cluster_energy juno_model) None) ∧
    cpu_system_energy two_clusters juno_energy 3 =
      Done (nth (Z.to_nat (two_clusters 3)) (em_system_energy juno_model) None)
  else
    cpu_core_energy two_clusters juno_energy 3 = BUG ∧
    cpu_cluster_energy two_clusters juno_energy 3 = BUG ∧
    cpu_system_energy two_clusters juno_energy 3 = BUG.
Proof.
  apply (cpu_energy_after_set two_clusters (Some ("arm,juno"%string, juno_model))
           juno_energy 3%nat).
  reflexivity.
Defined.

(** X26: [set_energy_model] only returns when the three globals are
    NULL; without a match it leaves them NULL, and after it has
    installed a model every further call stops in its [BUG_ON]. *)
Theorem set_energy_model_once matched gl gl' :
  set_energy_model matched gl = Done gl' →
  gl = no_energy ∧
  (matched = None → gl' = no_energy) ∧
  (matched ≠ None → ∀ matched', set_energy_model matched' gl' = BUG).
Proof.
  unfold set_energy_model. destruct gl as [[c|] [cl|] [s|]]; simpl; try discriminate.
  destruct matched as [[c em]|]; intros [= <-].
  - split; [done|]. split; [discriminate|]. done.
  - split; [done|]. split; [done|]. intros H. by destruct H.
Qed.

Lemma set_energy_model_once_witness :
  no_energy = no_energy ∧
  (Some ("mediatek,mt8173"%string, mt8173_model) = None →
   {| core_energy := Some (em_core_energy mt8173_model);
      cluster_energy := Some (em_cluster_energy mt8173_model);
      system_energy := Some (em_system_energy mt8173_model) |} = no_energy) ∧
  (Some ("mediatek,mt8173"%string, mt8173_model) ≠ None →
   ∀ matched',
     set_energy_model matched'
       {| core_energy := Some (em_core_energy mt8173_model);
          cluster_energy := Some (em_cluster_energy mt8173_model);
          system_energy := Some (em_system_energy mt8173_model) |} = BUG).
Proof.
  apply (set_energy_model_once (Some ("mediatek,mt8173"%string, mt8173_model)) no_energy).
  reflexivity.
Defined.

(** X27: for every machine of [model_matches], the core and cluster
    arrays have a table at cluster ids 0 and 1, and every table the
    model points to has four idle states and a non-empty list of
    capacity states in strictly increasing capacity, each in
    (0, 1024]. *)
Theorem model_matches_tables compat em :
  (compat, em) ∈ model_matches →
  ∀ idx, (idx < 2)%nat →
    (∃ s, em_core_energy em !! idx = Some (Some s)) ∧
    (∃ s, em_cluster_energy em !! idx = Some (Some s)) ∧
    ∀ tbl s, tbl ∈ [em_core_energy em; em_cluster_energy em; em_system_energy em] →
      Some s ∈ tbl → sge_ok s.
Proof.
  intros Hin idx Hidx.
  assert (∀ l, StronglySorted Z.lt l ↔
               (fix go l := match l with
                            | [] => True
                            | x :: l' => Forall (Z.lt x) l' ∧ go l'
                            end) l) as Hsorted.
  { induction l as [|x l IH]; split; intros H.
    - done.
    - constructor.
    - inversion H; subst. split; [done|]. by apply IH.
    - destruct H as [H1 H2]. constructor; [by apply IH|done]. }
  unfold model_matches in Hin.
  repeat (apply elem_of_cons in Hin as [Hin|Hin]; [injection Hin as -> ->|]);
    [..|by apply elem_of_nil in Hin].
  all: split; [destruct idx as [|[|]]; [by eexists|by eexists|lia]|].
  all: split; [destruct idx as [|[|]]; [by eexists|by eexists|lia]|].
  all: intros tbl s Ht Hs.
  all: repeat (apply elem_of_cons in Ht as [->|Ht]); [..|by apply elem_of_nil in Ht].
  all: repeat (apply elem_of_cons in Hs as [Hs|Hs]; [try discriminate Hs; injection Hs as ->|]);
         try (by apply elem_of_nil in Hs).
  all: unfold sge_ok, nr_idle_states, nr_cap_states; simpl.
  all: split; [reflexivity|]; split; [lia|]; split;
         [apply Hsorted; simpl; repeat split; repeat constructor
         |repeat constructor; simpl; lia].
Qed.

Lemma model_matches_tables_witness :
  (∃ s, em_core_energy mt6797_model !! 1%nat = Some (Some s)) ∧
  (∃ s, em_cluster_energy mt6797_model !! 1%nat = Some (Some s)) ∧
  ∀ tbl s,
    tbl ∈ [em_core_energy mt6797_model; em_cluster_energy mt6797_model;
           em_system_energy mt6797_model] →
    Some s ∈ tbl → sge_ok s.
Proof.
  apply (model_matches_tables "mediatek,mt6797"%string mt6797_model).
  - apply elem_of_cons; right. apply elem_of_cons; right. apply elem_of_cons; right.
    apply elem_of_cons; by left.
  - lia.
Defined.

(** ** The earlier revision *)

Lemma deref_forget (h : gmap nat cpu_pm_domain) p :
  deref (set_cpus 0 <$> h) p =
  match deref h p with Ok pd => Ok (set_cpus 0 pd) | Fault f => Fault f | OutOfFuel => OutOfFuel end.
Proof. unfold deref. rewrite lookup_fmap. by destruct (h !! p). Qed.

Lemma to_cpu_pd_from_forget h l d :
  to_cpu_pd_from (set_cpus 0 <$> h) l d = to_cpu_pd_from h l d.
Proof.
  induction l as [|p l IH]; [done|]. simpl. rewrite deref_forget.
  destruct (deref h p) as [pd|f|]; simpl; [|done..].
  by rewrite IH.
Qed.

Lemma to_cpu_pd_forget st d : to_cpu_pd (forget_members st) d = to_cpu_pd st d.
Proof. apply to_cpu_pd_from_forget. Qed.

Lemma kzalloc_forget (h : gmap nat cpu_pm_domain) :
  kzalloc (set_cpus 0 <$> h) = kzalloc h.
Proof. unfold kzalloc. by rewrite dom_fmap_L. Qed.

Lemma of_init_cpu_pm_domain_forget e dn o st :
  zalloc_cpumask_var e dn = true →
  Legacy.of_init_cpu_pm_domain e dn o (forget_members st) =
  forget_result (of_init_cpu_pm_domain e dn o st).
Proof.
  intros Hz. unfold Legacy.of_init_cpu_pm_domain, of_init_cpu_pm_domain.
  rewrite Hz. destruct st as [G C L P].
  unfold forget_members, with_cpu_pds, with_genpds, with_list, with_providers.
  cbn [genpds cpu_pds of_cpu_pd_list providers negb].
  destruct (of_device_is_available e dn); cbn [negb]; [|done].
  destruct (kzalloc_genpd e dn); cbn [negb]; [|done].
  destruct (kstrndup e dn); cbn [negb]; [|done].
  destruct (kzalloc_pd e dn); cbn [negb]; [|done].
  destruct (of_pm_genpd_init e dn _) as [ret gd3].
  rewrite kzalloc_forget.
  destruct (ret =? 0); cbn [negb forget_result genpds cpu_pds of_cpu_pd_list providers].
  - destruct (_ =? 0); unfold forget_members, with_cpu_pds;
      cbn [genpds cpu_pds of_cpu_pd_list providers];
      by rewrite fmap_insert.
  - unfold forget_members, with_cpu_pds.
    cbn [genpds cpu_pds of_cpu_pd_list providers].
    by rewrite fmap_delete, fmap_insert.
Qed.

Lemma of_get_cpu_domain_forget e o cpu :
  (∀ dn, zalloc_cpumask_var e dn = true) →
  ∀ fuel dn st,
    Legacy.of_get_cpu_domain fuel e dn o cpu (forget_members st) =
    forget_result (of_get_cpu_domain fuel e dn o cpu st).
Proof.
  intros Hz. induction fuel as [|fuel IH]; intros dn st; [done|].
  cbn [Legacy.of_get_cpu_domain of_get_cpu_domain].
  assert (of_genpd_get_from_provider (forget_members st) dn =
          of_genpd_get_from_provider st dn) as -> by done.
  destruct (of_genpd_get_from_provider st dn) as [g|err]; [done|].
  rewrite of_init_cpu_pm_domain_forget by done.
  destruct (of_init_cpu_pm_domain e dn o st) as [[st1 r]|f|]; cbn [bind forget_result negb]; [|done..].
  destruct r as [g|err']; [|done].
  destruct (of_parse_phandle_with_args e dn) as [np|]; [|done].
  rewrite IH.
  destruct (of_get_cpu_domain fuel e np o cpu st1) as [[st2 pr]|f|]; cbn [bind forget_result negb]; [|done..].
  destruct pr as [pg|err']; [|done].
  destruct (pm_genpd_add_subdomain e g pg =? 0); cbn [bind forget_result negb]; [|done].
  rewrite !to_cpu_pd_forget.
  destruct (to_cpu_pd st2 g) as [c|f|]; cbn [bind forget_result negb]; [|done..].
  destruct (to_cpu_pd st2 pg) as [pp|f|]; cbn [bind forget_result negb]; [|done..].
  destruct c as [c|]; [|done]. destruct pp as [pp|]; [|done].
  change (cpu_pds (forget_members st2)) with (set_cpus 0 <$> cpu_pds st2).
  rewrite deref_forget.
  destruct (deref (cpu_pds st2) c) as [pd|f|]; cbn [bind forget_result negb]; [|done..].
  unfold forget_members, with_cpu_pds. cbn [genpds cpu_pds of_cpu_pd_list providers].
  by rewrite fmap_insert.
Qed.

Lemma attach_loop_forget cpu :
  ∀ fuel ret h x h',
    attach_loop fuel ret cpu h x = Ok h' → set_cpus 0 <$> h' = set_cpus 0 <$> h.
Proof.
  induction fuel as [|fuel IH]; intros ret h x h'.
  - destruct x as [p|]; simpl; [|by intros [= <-]].
    destruct (ret =? 0); [discriminate|by intros [= <-]].
  - destruct x as [p|]; simpl; [|by intros [= <-]].
    destruct (ret =? 0); [|by intros [= <-]].
    unfold deref. destruct (h !! p) as [pd|] eqn:Hp; simpl; [|discriminate].
    intros H. rewrite (IH _ _ _ _ H), fmap_insert.
    apply map_eq. intros q. destruct (decide (q = p)) as [->|Hne].
    + by rewrite lookup_insert_eq, lookup_fmap, Hp.
    + by rewrite lookup_insert_ne.
Qed.

(** X28: in the earlier revision, when the power-domains node of the
    CPU has a provider, whatever genpd it is, [of_setup_cpu_pd_single]
    creates nothing and returns what the generic attach of the CPU
    answers ([-ENODEV] without a CPU device): a CPU is attached to a
    domain created outside the file as well. *)
Theorem legacy_of_setup_cpu_pd_single_attaches fuel e cpu o st cpu_dn dn g :
  of_get_cpu_node e cpu = Some cpu_dn → of_parse_phandle e cpu_dn = Some dn →
  providers st !! dn = Some g →
  Legacy.of_setup_cpu_pd_single (S fuel) e cpu o st =
    Ok (st, if get_cpu_device e cpu then genpd_dev_pm_attach e cpu else - ENODEV).
Proof.
  intros Hn Hd Hp. unfold Legacy.of_setup_cpu_pd_single. rewrite Hn, Hd.
  cbn [Legacy.of_get_cpu_domain]. unfold of_genpd_get_from_provider. rewrite Hp.
  cbn. unfold Legacy.cpu_pd_attach_cpu. by destruct (get_cpu_device e cpu).
Qed.

Lemma legacy_of_setup_cpu_pd_single_attaches_witness :
  Legacy.of_setup_cpu_pd_single 1 (quiet_ext 20 0 0 15) 0 no_ops foreign_state =
    Ok (foreign_state,
        if get_cpu_device (quiet_ext 20 0 0 15) 0
        then genpd_dev_pm_attach (quiet_ext 20 0 0 15) 0 else - ENODEV).
Proof.
  apply (legacy_of_setup_cpu_pd_single_attaches 0 (quiet_ext 20 0 0 15) 0%nat no_ops
           foreign_state 100%nat 10%nat 5%nat); reflexivity.
Defined.

Lemma of_setup_cpu_pd_single_forget fuel e cpu o st st' r :
  (∀ dn, zalloc_cpumask_var e dn = true) →
  of_setup_cpu_pd_single fuel e cpu o st = Ok (st', r) → r ≠ - ENOENT →
  Legacy.of_setup_cpu_pd_single fuel e cpu o (forget_members st) =
    Ok (forget_members st', r).
Proof.
  intros Hz. unfold of_setup_cpu_pd_single, Legacy.of_setup_cpu_pd_single.
  destruct (of_get_cpu_node e cpu) as [cpu_dn|]; [|by intros [= <- <-]].
  destruct (of_parse_phandle e cpu_dn) as [dn|]; [|by intros [= <- <-]].
  rewrite of_get_cpu_domain_forget by done.
  destruct (of_get_cpu_domain fuel e dn o cpu st) as [[st1 gr]|f|]; cbn; [|done..].
  destruct gr as [g|err]; [|by intros [= <- <-]].
  destruct (to_cpu_pd st1 g) as [[p|]|f|]; cbn; [|by intros [= <- <-]|done..].
  unfold cpu_pd_attach_cpu, Legacy.cpu_pd_attach_cpu.
  destruct (get_cpu_device e cpu); cbn; [|by intros [= <- <-]].
  destruct (attach_loop fuel _ cpu (cpu_pds st1) (Some p)) as [h|f|] eqn:Ha; cbn;
    [|done..].
  intros [= <- <-] _. unfold forget_members, with_cpu_pds. cbn.
  by rewrite (attach_loop_forget _ _ _ _ _ _ Ha).
Qed.

Lemma of_setup_cpu_pd_loop_forget fuel e o :
  (∀ dn, zalloc_cpumask_var e dn = true) →
  ∀ todo ret st st' r,
    of_setup_cpu_pd_loop fuel e o todo ret st = Ok (st', r) → r ≠ - ENOENT →
    Legacy.of_setup_cpu_pd_loop fuel e o todo ret (forget_members st) =
      Ok (forget_members st', r).
Proof.
  intros Hz. induction todo as [|cpu rest IH]; intros ret st st' r.
  { by intros [= <- <-]. }
  cbn [of_setup_cpu_pd_loop Legacy.of_setup_cpu_pd_loop].
  destruct (of_setup_cpu_pd_single fuel e cpu o st) as [[st1 r1]|f|] eqn:Hs; cbn;
    [|done..].
  destruct (Z.eqb_spec r1 0) as [Hr|Hr]; cbn.
  - subst r1. intros H Hne.
    rewrite (of_setup_cpu_pd_single_forget fuel e cpu o st st1 0 Hz Hs) by discriminate.
    cbn. by apply IH.
  - intros [= <- <-] Hne.
    rewrite (of_setup_cpu_pd_single_forget fuel e cpu o st st1 r1 Hz Hs Hne). cbn.
    by destruct (Z.eqb_spec r1 0).
Qed.

(** X29: the two revisions of [of_setup_cpu_pd_single] agree up to the
    member masks: when no [zalloc_cpumask_var] fails and the later
    revision returns a code other than [-ENOENT], the earlier revision,
    run on the state without the masks, returns the same code and leaves
    the same state without the masks. *)
Theorem legacy_of_setup_cpu_pd_single_agrees fuel e cpu o st st' r :
  (∀ dn, zalloc_cpumask_var e dn = true) →
  of_setup_cpu_pd_single fuel e cpu o st = Ok (st', r) → r ≠ - ENOENT →
  Legacy.of_setup_cpu_pd_single fuel e cpu o (forget_members st) =
    Ok (forget_members st', r).
Proof. apply of_setup_cpu_pd_single_forget. Qed.

Lemma legacy_of_setup_cpu_pd_single_agrees_witness :
  Legacy.of_setup_cpu_pd_single 8 (quiet_ext 20 0 0 15) 2 no_ops
    (forget_members booted_cpu013) = Ok (forget_members booted_cpu0123, 0).
Proof.
  apply (legacy_of_setup_cpu_pd_single_agrees 8 (quiet_ext 20 0 0 15) 2%nat no_ops
           booted_cpu013 booted_cpu0123 0).
  - intros dn. reflexivity.
  - reflexivity.
  - discriminate.
Defined.

(** X30: the two revisions of [of_setup_cpu_pd] agree up to the member
    masks: when no [zalloc_cpumask_var] fails and the later revision
    returns a code other than [-ENOENT], the earlier revision, run on
    the state without the masks, returns the same code and leaves the
    same state without the masks. *)
Theorem legacy_of_setup_cpu_pd_agrees fuel e o st st' r :
  (∀ dn, zalloc_cpumask_var e dn = true) →
  of_setup_cpu_pd fuel e o st = Ok (st', r) → r ≠ - ENOENT →
  Legacy.of_setup_cpu_pd fuel e o (forget_members st) = Ok (forget_members st', r).
Proof. intros Hz. by apply of_setup_cpu_pd_loop_forget. Qed.

Lemma legacy_of_setup_cpu_pd_agrees_witness :
  Legacy.of_setup_cpu_pd 8 (quiet_ext 20 0 0 15) no_ops (forget_members boot_state) =
    Ok (forget_members booted_all, 0).
Proof.
  apply (legacy_of_setup_cpu_pd_agrees 8 (quiet_ext 20 0 0 15) no_ops boot_state
           booted_all 0).
  - intros dn. reflexivity.
  - reflexivity.
  - discriminate.
Defined.
